(** * Patch scripts of the Diane repository: a shallow embedding

    The repository holds one-shot Python scripts that read a Swift source
    file, rewrite its text with [str.replace], [re.sub], [in] and
    [str.rsplit], and write it back.  This file embeds the string
    primitives the scripts call, the fragment of regular expressions
    their patterns use, the file reads and writes, and the scripts
    themselves; the theorems further down are stated about these
    definitions. *)

From Stdlib Require Import Ascii String.
From stdpp Require Import base list strings gmap.

Local Open Scope list_scope.

(** ** Text *)

(** A Python [str] is modelled as the list of its characters.  Every
    constant of the scripts is ASCII; the text of the patched file is an
    arbitrary list. *)
Definition text : Type := list ascii.

Definition lit (s : string) : text := list_ascii_of_string s.

(** The line feed and the double quote, which the constants below
    name rather than spell inside a literal. *)
Definition nl : text := [ascii_of_nat 10].
Definition dq : text := [ascii_of_nat 34].

(** ** Python string primitives *)

Module Py.

(** [s.startswith(p)] *)
Fixpoint startswith (p s : text) : bool :=
  match p, s with
  | [], _ => true
  | _ :: _, [] => false
  | a :: p', b :: s' => Ascii.eqb a b && startswith p' s'
  end.

(** [sub in s] *)
Fixpoint contains (sub s : text) : bool :=
  startswith sub s ||
  match s with
  | [] => false
  | _ :: s' => contains sub s'
  end.

(** The left-to-right substitution loop shared by [str.replace] and
    [re.sub].  [m t] tells whether a match starts at the head of the
    remaining text [t], how many characters it spans and what replaces
    it.  [skip] counts the characters of the last match that are still
    to be passed over, so that matches never overlap.  A match that
    spans no character leaves the current character in place, as
    Python does. *)
Fixpoint scan (m : text -> option (nat * text)) (s : text) (skip : nat) : text :=
  match s with
  | [] =>
      match m [] with
      | Some (_, r) => r
      | None => []
      end
  | c :: s' =>
      match skip with
      | S k => scan m s' k
      | O =>
          match m s with
          | Some (S n, r) => r ++ scan m s' n
          | Some (O, r) => r ++ c :: scan m s' 0
          | None => c :: scan m s' 0
          end
      end
  end.

Definition replace_at (old new : text) (t : text) : option (nat * text) :=
  if startswith old t then Some (length old, new) else None.

(** [s.replace(old, new)]: every non-overlapping occurrence, leftmost
    first. *)
Definition replace (old new s : text) : text :=
  scan (replace_at old new) s 0.

(** [s.rfind(sep)], [None] standing for [-1]. *)
Fixpoint rfind (sep s : text) : option nat :=
  match s with
  | [] => if startswith sep [] then Some 0 else None
  | _ :: s' =>
      match rfind sep s' with
      | Some i => Some (S i)
      | None => if startswith sep s then Some 0 else None
      end
  end.

(** [s.rsplit(sep, 1)] for a non-empty [sep]: one cut at the last
    occurrence of [sep], or the whole text when there is none. *)
Definition rsplit1 (sep s : text) : list text :=
  match rfind sep s with
  | Some i => [take i s; drop (i + length sep) s]
  | None => [s]
  end.

(** [sep.join(parts)] *)
Fixpoint join (sep : text) (parts : list text) : text :=
  match parts with
  | [] => []
  | [p] => p
  | p :: ps => p ++ sep ++ join sep ps
  end.

Definition mem (c : ascii) (chars : text) : bool :=
  existsb (Ascii.eqb c) chars.

Fixpoint lstrip (chars s : text) : text :=
  match s with
  | [] => []
  | c :: s' => if mem c chars then lstrip chars s' else s
  end.

(** [s.strip(chars)] *)
Definition strip (chars s : text) : text :=
  rev (lstrip chars (rev (lstrip chars s))).

End Py.

(** ** The regular expressions of the scripts *)

Module Re.

(** The patterns of the scripts are sequences of escaped literal
    characters, with at most one lazy [.*?] or [.+?] (always compiled
    with [re.DOTALL], so the dot takes line feeds too), at most one
    capture group, which always opens at the start of the pattern, and
    an optional final [$].  [GroupEnd] marks the closing parenthesis of
    group 1. *)
Inductive item : Type :=
| Chr (c : ascii)
| AnyLazyStar
| AnyLazyPlus
| GroupEnd
| EndAnchor.

Definition regex : Type := list item.

Definition chars (t : text) : regex := map Chr t.
Definition group (r : regex) : regex := r ++ [GroupEnd].

Definition is_group_end (i : item) : bool :=
  match i with GroupEnd => true | _ => false end.

(** [pattern.groups] *)
Definition groups (r : regex) : nat := length (filter is_group_end r).

(** Without [re.MULTILINE], [$] matches at the end of the text and just
    before a line feed that ends the text. *)
Definition at_end (s : text) : bool :=
  match s with
  | [] => true
  | [c] => Ascii.eqb c (ascii_of_nat 10)
  | _ => false
  end.

(** One more character in front of a match: its length and the end of
    its group both move by one. *)
Definition bump (r : option (nat * option nat)) : option (nat * option nat) :=
  match r with
  | Some (n, g) => Some (S n, S <$> g)
  | None => None
  end.

(** A match of [r] at the head of [s]: the number of characters it
    spans and, when the pattern has a group, the number of characters
    group 1 spans.  A lazy quantifier first tries the rest of the
    pattern where it stands and takes one more character only when
    that fails. *)
Fixpoint match_here (r : regex) (s : text) : option (nat * option nat) :=
  match r with
  | [] => Some (0, None)
  | Chr c :: r' =>
      match s with
      | c' :: s' => if Ascii.eqb c c' then bump (match_here r' s') else None
      | [] => None
      end
  | GroupEnd :: r' =>
      match match_here r' s with
      | Some (n, _) => Some (n, Some 0)
      | None => None
      end
  | EndAnchor :: r' => if at_end s then match_here r' s else None
  | AnyLazyStar :: r' =>
      (fix lazy (s : text) : option (nat * option nat) :=
         match match_here r' s with
         | Some x => Some x
         | None =>
             match s with
             | [] => None
             | _ :: s' => bump (lazy s')
             end
         end) s
  | AnyLazyPlus :: r' =>
      match s with
      | [] => None
      | _ :: s' =>
          bump ((fix lazy (s : text) : option (nat * option nat) :=
                   match match_here r' s with
                   | Some x => Some x
                   | None =>
                       match s with
                       | [] => None
                       | _ :: s' => bump (lazy s')
                       end
                   end) s')
      end
  end.

(** [re.search(r, s) is not None] *)
Fixpoint search (r : regex) (s : text) : bool :=
  match match_here r s with
  | Some _ => true
  | None =>
      match s with
      | [] => false
      | _ :: s' => search r s'
      end
  end.

(** A replacement template after Python has read its escapes: literal
    text and references [\n] to capture groups. *)
Inductive titem : Type :=
| TLit (t : text)
| TGroup (n : nat).

Definition template : Type := list titem.

Definition titem_ok (ngroups : nat) (i : titem) : bool :=
  match i with
  | TLit _ => true
  | TGroup n => (1 <=? n) && (n <=? ngroups)
  end.

(** The template with the text of group 1 filled in. *)
Fixpoint expand (t : template) (g1 : text) : text :=
  match t with
  | [] => []
  | TLit x :: t' => x ++ expand t' g1
  | TGroup _ :: t' => g1 ++ expand t' g1
  end.

Definition sub_at (r : regex) (t : template) (s : text) : option (nat * text) :=
  match match_here r s with
  | Some (n, g) => Some (n, expand t (take (default 0 g) s))
  | None => None
  end.

(** [re.sub(r, t, s)].  Python compiles the template before it looks
    for a match, and raises [re.error] when the template refers to a
    group the pattern does not have; [None] stands for that
    exception. *)
Definition sub (r : regex) (t : template) (s : text) : option text :=
  if forallb (titem_ok (groups r)) t
  then Some (Py.scan (sub_at r t) s 0)
  else None.

End Re.

(** ** Files and output *)

Module IO.

(** What a run leaves behind: the files it wrote, in order, and the
    lines it printed. *)
Inductive event : Type :=
| Written (path : string) (t : text)
| Printed (msg : string).

Record world : Type := World {
  files : gmap string text;
  trace : list event
}.

Inductive exn : Type :=
| FileNotFoundError (path : string)
| ReError.

(** A script step: it ends with a value or with an exception, and in
    both cases with the world it leaves. *)
Definition io (A : Type) : Type := world -> (exn + A) * world.

#[global] Instance io_ret : MRet io := fun A a w => (inr a, w).

#[global] Instance io_bind : MBind io := fun A B k m w =>
  match m w with
  | (inl e, w') => (inl e, w')
  | (inr a, w') => k a w'
  end.

(** [with open(path, 'r') as f: content = f.read()] *)
Definition read (path : string) : io text := fun w =>
  match files w !! path with
  | Some t => (inr t, w)
  | None => (inl (FileNotFoundError path), w)
  end.

(** [with open(path, 'w') as f: f.write(content)] *)
Definition write (path : string) (content : text) : io unit := fun w =>
  (inr tt, {| files := <[path := content]> (files w);
              trace := trace w ++ [Written path content] |}).

Definition print (msg : string) : io unit := fun w =>
  (inr tt, {| files := files w; trace := trace w ++ [Printed msg] |}).

(** The result of [re.sub], its [re.error] raised as an exception. *)
Definition re_result (r : option text) : io text := fun w =>
  match r with
  | Some t => (inr t, w)
  | None => (inl ReError, w)
  end.

(** Whether the run wrote to [path]. *)
Definition wrote (path : string) (w : world) : bool :=
  existsb (fun e => match e with
                    | Written p _ => bool_decide (p = path)
                    | Printed _ => false
                    end) (trace w).

End IO.

Abbreviation io := IO.io.

(** ** Outcomes *)

(** The scripts do not compute an outcome value: the branch a step takes
    decides it.  A step whose guard finds the signature of its own
    result is [skipped]; otherwise it is [applied] when its pattern
    occurs in the text and [not_found] when it does not. *)
Inductive Outcome : Type := applied | skipped | not_found.

Definition replace_outcome (old : text) (content : text) : Outcome :=
  if Py.contains old content then applied else not_found.

Definition sub_outcome (r : Re.regex) (content : text) : Outcome :=
  if Re.search r content then applied else not_found.

Definition guarded_outcome (signature : text) (o : text -> Outcome)
    (content : text) : Outcome :=
  if Py.contains signature content then skipped else o content.

(** A step of a script: the outcome its branch stands for and the text
    it hands to the next step. *)
Record step : Type := Step {
  step_outcome : text -> Outcome;
  step_run : text -> io text
}.

(** The steps of a script, each run on the text the one before it left,
    whatever that one's outcome was. *)
Fixpoint run_steps (steps : list step) (content : text) : io text :=
  match steps with
  | [] => mret content
  | st :: steps' => content ← step_run st content; run_steps steps' content
  end.

Record script : Type := Script {
  script_path : string;
  script_steps : list step;
  script_main : io unit
}.

(** A step that replaces what it finds, and a step that keeps what it
    finds and puts new text next to it. *)
Inductive side : Type := before | after.

Definition adjacent (sd : side) (inserted anchor : text) : text :=
  match sd with
  | before => inserted ++ anchor
  | after => anchor ++ inserted
  end.

Record replace_step : Type := ReplaceStep {
  rs_old : text;
  rs_new : text;
  rs_step : step
}.

Record insert_step : Type := InsertStep {
  is_side : side;
  is_anchor : text;
  is_inserted : text;
  is_step : step
}.

(** ** The scripts *)

(** *** [fix_diane_client.py] *)

Module fix_diane_client.

Definition path : string := "Diane/Diane/Services/DianeClient.swift".

Definition add_func : text :=
  nl ++
  lit "    func addAgent(agent: AgentConfig) async throws {" ++ nl ++
  lit "        try await requestWithBody(endpoint: " ++ dq ++ lit "/agents" ++ dq ++ lit ", method: " ++ dq ++ lit "POST" ++ dq ++ lit ", body: agent)" ++ nl ++
  lit "    }" ++ nl.

Definition marker : text :=
  lit "    // MARK: - Agents" ++ nl.

Definition pattern : Re.regex := Re.group (Re.chars marker).

(** [r'\1' + add_func] *)
Definition template : Re.template := [Re.TGroup 1; Re.TLit add_func].

Definition patch (content : text) : option text :=
  Re.sub pattern template content.

Definition outcome (content : text) : Outcome :=
  sub_outcome pattern content.

Definition main : io unit :=
  content ← IO.read path;
  content ← IO.re_result (patch content);
  IO.write path content.

Definition insert : step :=
  Step outcome (fun content => IO.re_result (patch content)).

Definition steps : list step := [insert].

End fix_diane_client.

(** *** [fix_diane_client2.py] *)

Module fix_diane_client2.

Definition path : string := "Diane/Diane/Services/DianeClient.swift".

Definition add_func : text :=
  nl ++
  lit "    func addAgent(agent: AgentConfig) async throws {" ++ nl ++
  lit "        try await requestWithBody(endpoint: " ++ dq ++ lit "/agents" ++ dq ++ lit ", method: " ++ dq ++ lit "POST" ++ dq ++ lit ", body: agent)" ++ nl ++
  lit "    }" ++ nl.

Definition marker : text :=
  lit "    // MARK: - Gallery" ++ nl.

Definition pattern : Re.regex := Re.group (Re.chars marker).

Definition signature : text :=
  lit "func addAgent(agent: AgentConfig)".

(** [add_func + r'\n\1'] *)
Definition template : Re.template := [Re.TLit add_func; Re.TLit nl; Re.TGroup 1].

Definition patch (content : text) : option text :=
  if negb (Py.contains signature content)
  then Re.sub pattern template content
  else Some content.

Definition outcome (content : text) : Outcome :=
  guarded_outcome signature (sub_outcome pattern) content.

Definition main : io unit :=
  content ← IO.read path;
  content ← IO.re_result (patch content);
  IO.write path content.

Definition insert : step :=
  Step outcome (fun content => IO.re_result (patch content)).

Definition steps : list step := [insert].

End fix_diane_client2.

(** *** [fix_diane_client3.py] *)

Module fix_diane_client3.

Definition path : string := "Diane/Diane/Services/DianeClient.swift".

Definition add_func : text :=
  nl ++
  lit "    func addAgent(agent: AgentConfig) async throws {" ++ nl ++
  lit "        try await requestWithBody(endpoint: " ++ dq ++ lit "/agents" ++ dq ++ lit ", method: " ++ dq ++ lit "POST" ++ dq ++ lit ", body: agent)" ++ nl ++
  lit "    }" ++ nl ++
  lit "}" ++ nl.

(** [content.rsplit('}', 1)[0] + add_func]; [rsplit] never returns an
    empty list, so the index [0] is always in range. *)
Definition patch (content : text) : text :=
  match Py.rsplit1 (lit "}") content with
  | part :: _ => part ++ add_func
  | [] => add_func
  end.

Definition main : io unit :=
  content ← IO.read path;
  IO.write path (patch content).

(** No pattern and no guard: the step appends on every run. *)
Definition append : step :=
  Step (fun _ => applied) (fun content => mret (patch content)).

Definition steps : list step := [append].

End fix_diane_client3.

(** *** [fix_diane_client4.py] *)

Module fix_diane_client4.

Definition path : string := "Diane/Diane/Services/DianeClient.swift".

Definition add_func : text :=
  nl ++
  lit "    func addAgent(agent: AgentConfig) async throws {" ++ nl ++
  lit "        let args = [" ++ dq ++ lit "agent" ++ dq ++ lit ", " ++ dq ++ lit "add" ++ dq ++ lit ", agent.name, agent.url, agent.description ?? " ++ dq ++ dq ++ lit "]" ++ nl ++
  lit "        _ = try await processRequest(args: args)" ++ nl ++
  lit "    }" ++ nl.

Definition old_func : text :=
  lit "    func addAgent(agent: AgentConfig) async throws {" ++ nl ++
  lit "        try await requestWithBody(endpoint: " ++ dq ++ lit "/agents" ++ dq ++ lit ", method: " ++ dq ++ lit "POST" ++ dq ++ lit ", body: agent)" ++ nl ++
  lit "    }".

Definition pattern : Re.regex := Re.group (Re.chars old_func).

(** [add_func.strip('\n')] *)
Definition template : Re.template := [Re.TLit (Py.strip nl add_func)].

Definition patch (content : text) : option text :=
  Re.sub pattern template content.

Definition outcome (content : text) : Outcome :=
  sub_outcome pattern content.

Definition main : io unit :=
  content ← IO.read path;
  content ← IO.re_result (patch content);
  IO.write path content.

Definition swap : step :=
  Step outcome (fun content => IO.re_result (patch content)).

Definition steps : list step := [swap].

End fix_diane_client4.

(** *** [fix_diane_client9.py] *)

Module fix_diane_client9.

Definition path : string := "Diane/Diane/Services/DianeClient.swift".

Definition add_func : text :=
  nl ++
  lit "    func addAgent(agent: AgentConfig) async throws {" ++ nl ++
  lit "        // Local CLI only supports basic add right now: name url [description]" ++ nl ++
  lit "        var args = [" ++ dq ++ lit "agent" ++ dq ++ lit ", " ++ dq ++ lit "add" ++ dq ++ lit ", agent.name, agent.url]" ++ nl ++
  lit "        if let desc = agent.description, !desc.isEmpty {" ++ nl ++
  lit "            args.append(desc)" ++ nl ++
  lit "        }" ++ nl ++
  lit "        _ = try await processRequest(args: args)" ++ nl ++
  lit "    }" ++ nl.

(** The trailing [addAgent] that an earlier script appended after the
    closing brace of the class, compiled with [re.DOTALL]. *)
Definition cleanup_pattern : Re.regex :=
  Re.group (Re.chars (lit "    func addAgent(agent: AgentConfig) async throws {" ++ nl) ++
            [Re.AnyLazyStar] ++
            Re.chars (nl ++ lit "    }" ++ nl)) ++
  Re.chars (lit "}" ++ nl) ++
  [Re.EndAnchor].

Definition cleanup_template : Re.template := [Re.TLit (lit "}")].

Definition cleanup (content : text) : option text :=
  Re.sub cleanup_pattern cleanup_template content.

Definition signature : text :=
  lit "func addAgent(agent: AgentConfig)".

Definition marker : text :=
  lit "    // MARK: - Gallery" ++ nl.

Definition pattern : Re.regex := Re.group (Re.chars marker).

(** [add_func + r'\n\1'] *)
Definition template : Re.template := [Re.TLit add_func; Re.TLit nl; Re.TGroup 1].

Definition inject (content : text) : option text :=
  if negb (Py.contains signature content)
  then Re.sub pattern template content
  else Some content.

Definition patch (content : text) : option text :=
  content ← cleanup content;
  inject content.

Definition cleanup_outcome (content : text) : Outcome :=
  sub_outcome cleanup_pattern content.

Definition inject_outcome (content : text) : Outcome :=
  guarded_outcome signature (sub_outcome pattern) content.

Definition main : io unit :=
  content ← IO.read path;
  content ← IO.re_result (cleanup content);
  content ← IO.re_result (inject content);
  IO.write path content.

Definition cleanup_step : step :=
  Step cleanup_outcome (fun content => IO.re_result (cleanup content)).

Definition inject_step : step :=
  Step inject_outcome (fun content => IO.re_result (inject content)).

Definition steps : list step := [cleanup_step; inject_step].

End fix_diane_client9.

(** *** [fix_diane_client10.py] *)

Module fix_diane_client10.

Definition path : string := "Diane/Diane/Services/DianeClient.swift".

Definition add_func : text :=
  nl ++
  lit "    func addAgent(agent: AgentConfig) async throws {" ++ nl ++
  lit "        var args = [" ++ dq ++ lit "agent" ++ dq ++ lit ", " ++ dq ++ lit "add" ++ dq ++ lit ", agent.name, agent.url]" ++ nl ++
  lit "        if let desc = agent.description, !desc.isEmpty {" ++ nl ++
  lit "            args.append(desc)" ++ nl ++
  lit "        }" ++ nl ++
  lit "        _ = try await processRequest(args: args)" ++ nl ++
  lit "    }" ++ nl.

Definition signature : text :=
  lit "func addAgent(agent: AgentConfig)".

Definition marker : text :=
  lit "    // MARK: - Gallery" ++ nl.

Definition patch (content : text) : text :=
  if negb (Py.contains signature content)
  then Py.replace marker (add_func ++ nl ++ marker) content
  else content.

Definition outcome (content : text) : Outcome :=
  guarded_outcome signature (replace_outcome marker) content.

Definition main : io unit :=
  content ← IO.read path;
  IO.write path (patch content).

Definition insert : step :=
  Step outcome (fun content => mret (patch content)).

Definition steps : list step := [insert].

End fix_diane_client10.

(** *** [patch_agents_view.py] *)

Module patch_agents_view.

Definition path : string := "Diane/Diane/Views/AgentsView.swift".

Definition old_fields : text :=
  lit "            Form {" ++ nl ++
  lit "                TextField(" ++ dq ++ lit "Name (required)" ++ dq ++ lit ", text: $viewModel.newAgentName)" ++ nl ++
  lit "                TextField(" ++ dq ++ lit "URL (required)" ++ dq ++ lit ", text: $viewModel.newAgentURL)" ++ nl ++
  lit "                TextField(" ++ dq ++ lit "Description" ++ dq ++ lit ", text: $viewModel.newAgentDescription)" ++ nl ++
  lit "                TextField(" ++ dq ++ lit "Working Directory" ++ dq ++ lit ", text: $viewModel.newAgentWorkdir)" ++ nl ++
  lit "            }".

Definition new_fields : text :=
  lit "            Form {" ++ nl ++
  lit "                Section(" ++ dq ++ lit "Basic Settings" ++ dq ++ lit ") {" ++ nl ++
  lit "                    TextField(" ++ dq ++ lit "Name (required)" ++ dq ++ lit ", text: $viewModel.newAgentName)" ++ nl ++
  lit "                    TextField(" ++ dq ++ lit "URL (optional)" ++ dq ++ lit ", text: $viewModel.newAgentURL)" ++ nl ++
  lit "                    TextField(" ++ dq ++ lit "Description" ++ dq ++ lit ", text: $viewModel.newAgentDescription)" ++ nl ++
  lit "                    TextField(" ++ dq ++ lit "Working Directory" ++ dq ++ lit ", text: $viewModel.newAgentWorkdir)" ++ nl ++
  lit "                }" ++ nl ++
  lit "                " ++ nl ++
  lit "                Section(" ++ dq ++ lit "Workspace Configuration (Emergent Agents)" ++ dq ++ lit ") {" ++ nl ++
  lit "                    TextField(" ++ dq ++ lit "Base Image" ++ dq ++ lit ", text: $viewModel.newAgentBaseImage)" ++ nl ++
  lit "                    TextField(" ++ dq ++ lit "Repository URL" ++ dq ++ lit ", text: $viewModel.newAgentRepoURL)" ++ nl ++
  lit "                    TextField(" ++ dq ++ lit "Repository Branch" ++ dq ++ lit ", text: $viewModel.newAgentRepoBranch)" ++ nl ++
  lit "                    TextField(" ++ dq ++ lit "Provider (e.g. firecracker, e2b)" ++ dq ++ lit ", text: $viewModel.newAgentProvider)" ++ nl ++
  lit "                    // We simplify the setup commands here since StringArrayEditor requires more setup" ++ nl ++
  lit "                    // For now, emergent engine supports them but we don't block the UI update on it" ++ nl ++
  lit "                }" ++ nl ++
  lit "            }".

Definition old_disabled : text :=
  lit ".disabled(viewModel.newAgentName.isEmpty || viewModel.newAgentURL.isEmpty || viewModel.isInstalling)".

Definition new_disabled : text :=
  lit ".disabled(viewModel.newAgentName.isEmpty || viewModel.isInstalling)".

Definition update_fields (content : text) : io text :=
  if Py.contains old_fields content
  then mret (Py.replace old_fields new_fields content)
  else IO.print "Could not find fields block";; mret content.

Definition update_disabled (content : text) : io text :=
  if Py.contains old_disabled content
  then mret (Py.replace old_disabled new_disabled content)
  else IO.print "Could not find disabled block";; mret content.

Definition fields_outcome (content : text) : Outcome :=
  replace_outcome old_fields content.

Definition disabled_outcome (content : text) : Outcome :=
  replace_outcome old_disabled content.

Definition main : io unit :=
  content ← IO.read path;
  content ← update_fields content;
  content ← update_disabled content;
  IO.write path content;;
  IO.print "Python patch AgentsView complete".

Definition fields_step : step := Step fields_outcome update_fields.
Definition disabled_step : step := Step disabled_outcome update_disabled.

Definition steps : list step := [fields_step; disabled_step].

End patch_agents_view.

(** *** [patch_agents_view_model.py] *)

Module patch_agents_view_model.

Definition path : string := "Diane/Diane/ViewModels/AgentsViewModel.swift".

Definition old_props : text :=
  lit "    var showGallerySheet = false" ++ nl ++
  lit "    var newAgentURL = " ++ dq ++ dq ++ nl ++
  lit "    var newAgentDescription = " ++ dq ++ dq ++ nl ++
  lit "    var newAgentWorkdir = " ++ dq ++ dq ++ nl ++
  lit "    var newAgentCommand = " ++ dq ++ dq ++ nl ++
  lit "    var newAgentArgs = " ++ dq ++ dq.

Definition new_props : text :=
  lit "    var showGallerySheet = false" ++ nl ++
  lit "    var newAgentURL = " ++ dq ++ dq ++ nl ++
  lit "    var newAgentDescription = " ++ dq ++ dq ++ nl ++
  lit "    var newAgentWorkdir = " ++ dq ++ dq ++ nl ++
  lit "    var newAgentCommand = " ++ dq ++ dq ++ nl ++
  lit "    var newAgentArgs = " ++ dq ++ dq ++ nl ++
  lit "    " ++ nl ++
  lit "    // Workspace Config State" ++ nl ++
  lit "    var newAgentBaseImage = " ++ dq ++ dq ++ nl ++
  lit "    var newAgentRepoURL = " ++ dq ++ dq ++ nl ++
  lit "    var newAgentRepoBranch = " ++ dq ++ dq ++ nl ++
  lit "    var newAgentProvider = " ++ dq ++ dq ++ nl ++
  lit "    var newAgentSetupCommands = [String]()".

Definition old_add : text :=
  lit "            let agent = AgentConfig(" ++ nl ++
  lit "                name: newAgentName," ++ nl ++
  lit "                url: newAgentURL," ++ nl ++
  lit "                type: " ++ dq ++ lit "acp_agent" ++ dq ++ lit "," ++ nl ++
  lit "                command: newAgentCommand.isEmpty ? nil : newAgentCommand," ++ nl ++
  lit "                args: args.isEmpty ? nil : args," ++ nl ++
  lit "                env: nil," ++ nl ++
  lit "                workdir: newAgentWorkdir.isEmpty ? nil : newAgentWorkdir," ++ nl ++
  lit "                port: nil," ++ nl ++
  lit "                subAgent: nil," ++ nl ++
  lit "                enabled: true," ++ nl ++
  lit "                description: newAgentDescription.isEmpty ? nil : newAgentDescription," ++ nl ++
  lit "                tags: nil" ++ nl ++
  lit "            )".

Definition new_add : text :=
  lit "            var workspaceConfig: WorkspaceConfig? = nil" ++ nl ++
  lit "            if !newAgentBaseImage.isEmpty || !newAgentRepoURL.isEmpty || !newAgentSetupCommands.isEmpty {" ++ nl ++
  lit "                workspaceConfig = WorkspaceConfig(" ++ nl ++
  lit "                    baseImage: newAgentBaseImage.isEmpty ? nil : newAgentBaseImage," ++ nl ++
  lit "                    repoUrl: newAgentRepoURL.isEmpty ? nil : newAgentRepoURL," ++ nl ++
  lit "                    repoBranch: newAgentRepoBranch.isEmpty ? nil : newAgentRepoBranch," ++ nl ++
  lit "                    provider: newAgentProvider.isEmpty ? nil : newAgentProvider," ++ nl ++
  lit "                    setupCommands: newAgentSetupCommands.isEmpty ? nil : newAgentSetupCommands" ++ nl ++
  lit "                )" ++ nl ++
  lit "            }" ++ nl ++
  nl ++
  lit "            let agent = AgentConfig(" ++ nl ++
  lit "                name: newAgentName," ++ nl ++
  lit "                url: newAgentURL.isEmpty ? nil : newAgentURL," ++ nl ++
  lit "                type: " ++ dq ++ lit "acp_agent" ++ dq ++ lit "," ++ nl ++
  lit "                command: newAgentCommand.isEmpty ? nil : newAgentCommand," ++ nl ++
  lit "                args: args.isEmpty ? nil : args," ++ nl ++
  lit "                env: nil," ++ nl ++
  lit "                workdir: newAgentWorkdir.isEmpty ? nil : newAgentWorkdir," ++ nl ++
  lit "                port: nil," ++ nl ++
  lit "                subAgent: nil," ++ nl ++
  lit "                enabled: true," ++ nl ++
  lit "                description: newAgentDescription.isEmpty ? nil : newAgentDescription," ++ nl ++
  lit "                tags: nil," ++ nl ++
  lit "                workspaceConfig: workspaceConfig" ++ nl ++
  lit "            )".

Definition add_props (content : text) : io text :=
  if Py.contains old_props content
  then mret (Py.replace old_props new_props content)
  else IO.print "Could not find properties block";; mret content.

Definition add_config (content : text) : io text :=
  if Py.contains old_add content
  then mret (Py.replace old_add new_add content)
  else IO.print "Could not find agent creation block";; mret content.

Definition main : io unit :=
  content ← IO.read path;
  content ← add_props content;
  content ← add_config content;
  IO.write path content;;
  IO.print "Python patch complete".

Definition props_step : step := Step (replace_outcome old_props) add_props.
Definition config_step : step := Step (replace_outcome old_add) add_config.

Definition steps : list step := [props_step; config_step].

End patch_agents_view_model.

(** *** [patch_ios_agents_views.py] *)

Module patch_ios_agents_views.

Definition path : string := "Diane/Diane/Views/iOS/AgentsViews.swift".

(** The connection section up to its first closing brace, one group
    around all of it, compiled with [re.DOTALL]. *)
Definition pattern : Re.regex :=
  Re.group (Re.chars (lit "DetailSection(title: " ++ dq ++ lit "Connection" ++ dq ++ lit ") {") ++
            [Re.AnyLazyPlus] ++
            Re.chars (lit "}")).

(** The text of [replacement] after its leading [\1]. *)
Definition workspace_section : text :=
  nl ++
  lit "            " ++ nl ++
  lit "            if let wc = agent.workspaceConfig {" ++ nl ++
  lit "                DetailSection(title: " ++ dq ++ lit "Workspace Configuration" ++ dq ++ lit ") {" ++ nl ++
  lit "                    if let img = wc.baseImage, !img.isEmpty {" ++ nl ++
  lit "                        InfoRow(label: " ++ dq ++ lit "Base Image" ++ dq ++ lit ", value: img)" ++ nl ++
  lit "                    }" ++ nl ++
  lit "                    if let repo = wc.repoUrl, !repo.isEmpty {" ++ nl ++
  lit "                        InfoRow(label: " ++ dq ++ lit "Repo URL" ++ dq ++ lit ", value: repo)" ++ nl ++
  lit "                    }" ++ nl ++
  lit "                    if let branch = wc.repoBranch, !branch.isEmpty {" ++ nl ++
  lit "                        InfoRow(label: " ++ dq ++ lit "Repo Branch" ++ dq ++ lit ", value: branch)" ++ nl ++
  lit "                    }" ++ nl ++
  lit "                    if let provider = wc.provider, !provider.isEmpty {" ++ nl ++
  lit "                        InfoRow(label: " ++ dq ++ lit "Provider" ++ dq ++ lit ", value: provider)" ++ nl ++
  lit "                    }" ++ nl ++
  lit "                    if let commands = wc.setupCommands, !commands.isEmpty {" ++ nl ++
  lit "                        InfoRow(label: " ++ dq ++ lit "Setup Commands" ++ dq ++ lit ", value: commands.joined(separator: " ++ dq ++ lit ", " ++ dq ++ lit "))" ++ nl ++
  lit "                    }" ++ nl ++
  lit "                }" ++ nl ++
  lit "            }".

Definition replacement : Re.template := [Re.TGroup 1; Re.TLit workspace_section].

Definition patch (content : text) : option text :=
  Re.sub pattern replacement content.

Definition outcome (content : text) : Outcome :=
  sub_outcome pattern content.

Definition main : io unit :=
  content ← IO.read path;
  new_content ← IO.re_result (patch content);
  if bool_decide (new_content ≠ content)
  then IO.write path new_content;;
       IO.print "Patched AgentsViews.swift successfully"
  else IO.print "Could not find Connection section in AgentsViews.swift".

Definition insert : step :=
  Step outcome (fun content => IO.re_result (patch content)).

Definition steps : list step := [insert].

End patch_ios_agents_views.

(** *** [fix_http_client.py] *)

Module fix_http_client.

Definition path : string := "Diane/Diane/Services/DianeHTTPClient.swift".

Definition test_agent : text :=
  nl ++
  lit "    func testAgent(name: String) async throws -> AgentTestResult {" ++ nl ++
  lit "        let encodedName = name.addingPercentEncoding(withAllowedCharacters: .urlPathAllowed) ?? name" ++ nl ++
  lit "        let data = try await requestWithBody(" ++ dq ++ lit "/agents/\(encodedName)/test" ++ dq ++ lit ", method: " ++ dq ++ lit "POST" ++ dq ++ lit ", body: nil)" ++ nl ++
  lit "        return try decode(AgentTestResult.self, from: data)" ++ nl ++
  lit "    }" ++ nl.

Definition toggle_agent : text :=
  nl ++
  lit "    func toggleAgent(name: String, enabled: Bool) async throws {" ++ nl ++
  lit "        let encodedName = name.addingPercentEncoding(withAllowedCharacters: .urlPathAllowed) ?? name" ++ nl ++
  lit "        let body = [" ++ dq ++ lit "enabled" ++ dq ++ lit ": enabled]" ++ nl ++
  lit "        let bodyData = try JSONEncoder().encode(body)" ++ nl ++
  lit "        _ = try await requestWithBody(" ++ dq ++ lit "/agents/\(encodedName)/toggle" ++ dq ++ lit ", method: " ++ dq ++ lit "POST" ++ dq ++ lit ", body: bodyData)" ++ nl ++
  lit "    }" ++ nl.

Definition run_agent : text :=
  nl ++
  lit "    func runAgentPrompt(agentName: String, prompt: String, remoteAgentName: String?) async throws -> AgentRunResult {" ++ nl ++
  lit "        let encodedName = agentName.addingPercentEncoding(withAllowedCharacters: .urlPathAllowed) ?? agentName" ++ nl ++
  lit "        var body: [String: String] = [" ++ dq ++ lit "prompt" ++ dq ++ lit ": prompt]" ++ nl ++
  lit "        if let remoteAgent = remoteAgentName {" ++ nl ++
  lit "            body[" ++ dq ++ lit "agent_name" ++ dq ++ lit "] = remoteAgent" ++ nl ++
  lit "        }" ++ nl ++
  lit "        let bodyData = try JSONEncoder().encode(body)" ++ nl ++
  lit "        let data = try await requestWithBody(" ++ dq ++ lit "/agents/\(encodedName)/run" ++ dq ++ lit ", method: " ++ dq ++ lit "POST" ++ dq ++ lit ", body: bodyData)" ++ nl ++
  lit "        return try decodeGo(AgentRunResult.self, from: data)" ++ nl ++
  lit "    }" ++ nl.

Definition remove_agent : text :=
  nl ++
  lit "    func removeAgent(name: String) async throws {" ++ nl ++
  lit "        let encodedName = name.addingPercentEncoding(withAllowedCharacters: .urlPathAllowed) ?? name" ++ nl ++
  lit "        _ = try await requestWithBody(" ++ dq ++ lit "/agents/\(encodedName)" ++ dq ++ lit ", method: " ++ dq ++ lit "DELETE" ++ dq ++ lit ")" ++ nl ++
  lit "    }" ++ nl.

Definition update_agent : text :=
  nl ++
  lit "    func updateAgent(name: String, subAgent: String?, enabled: Bool?, description: String?, workdir: String?) async throws {" ++ nl ++
  lit "        let encodedName = name.addingPercentEncoding(withAllowedCharacters: .urlPathAllowed) ?? name" ++ nl ++
  lit "        var body: [String: Any] = [:]" ++ nl ++
  lit "        if let subAgent = subAgent {" ++ nl ++
  lit "            body[" ++ dq ++ lit "sub_agent" ++ dq ++ lit "] = subAgent" ++ nl ++
  lit "        }" ++ nl ++
  lit "        if let enabled = enabled {" ++ nl ++
  lit "            body[" ++ dq ++ lit "enabled" ++ dq ++ lit "] = enabled" ++ nl ++
  lit "        }" ++ nl ++
  lit "        if let description = description {" ++ nl ++
  lit "            body[" ++ dq ++ lit "description" ++ dq ++ lit "] = description" ++ nl ++
  lit "        }" ++ nl ++
  lit "        if let workdir = workdir {" ++ nl ++
  lit "            body[" ++ dq ++ lit "workdir" ++ dq ++ lit "] = workdir" ++ nl ++
  lit "        }" ++ nl ++
  lit "        " ++ nl ++
  lit "        guard !body.isEmpty else { return }" ++ nl ++
  lit "        let bodyData = try JSONSerialization.data(withJSONObject: body)" ++ nl ++
  lit "        _ = try await requestWithBody(" ++ dq ++ lit "/agents/\(encodedName)/update" ++ dq ++ lit ", method: " ++ dq ++ lit "POST" ++ dq ++ lit ", body: bodyData)" ++ nl ++
  lit "    }" ++ nl.

Definition test_agent_stub : text :=
  lit "    func testAgent(name: String) async throws -> AgentTestResult {" ++ nl ++
  lit "        throw DianeHTTPClientError.readOnlyMode" ++ nl ++
  lit "    }".

Definition toggle_agent_stub : text :=
  lit "    func toggleAgent(name: String, enabled: Bool) async throws {" ++ nl ++
  lit "        throw DianeHTTPClientError.readOnlyMode" ++ nl ++
  lit "    }".

Definition run_agent_stub : text :=
  lit "    func runAgentPrompt(agentName: String, prompt: String, remoteAgentName: String?) async throws -> AgentRunResult {" ++ nl ++
  lit "        throw DianeHTTPClientError.readOnlyMode" ++ nl ++
  lit "    }".

Definition remove_agent_stub : text :=
  lit "    func removeAgent(name: String) async throws {" ++ nl ++
  lit "        throw DianeHTTPClientError.readOnlyMode" ++ nl ++
  lit "    }".

Definition update_agent_stub : text :=
  lit "    func updateAgent(name: String, subAgent: String?, enabled: Bool?, description: String?, workdir: String?) async throws {" ++ nl ++
  lit "        throw DianeHTTPClientError.readOnlyMode" ++ nl ++
  lit "    }".

(** The five patterns have no group; each template is the new function
    with its outer line feeds stripped.  The templates hold the two
    characters [\(], which Python's template reader leaves as they are. *)
Definition sub_stub (stub new : text) (content : text) : option text :=
  Re.sub (Re.chars stub) [Re.TLit (Py.strip nl new)] content.

Definition stub_step (stub new : text) : step :=
  Step (sub_outcome (Re.chars stub))
       (fun content => IO.re_result (sub_stub stub new content)).

Definition main : io unit :=
  content ← IO.read path;
  content ← IO.re_result (sub_stub test_agent_stub test_agent content);
  content ← IO.re_result (sub_stub toggle_agent_stub toggle_agent content);
  content ← IO.re_result (sub_stub run_agent_stub run_agent content);
  content ← IO.re_result (sub_stub remove_agent_stub remove_agent content);
  content ← IO.re_result (sub_stub update_agent_stub update_agent content);
  IO.write path content.

Definition steps : list step :=
  [stub_step test_agent_stub test_agent;
   stub_step toggle_agent_stub toggle_agent;
   stub_step run_agent_stub run_agent;
   stub_step remove_agent_stub remove_agent;
   stub_step update_agent_stub update_agent].

End fix_http_client.

(** ** The scripts and their steps, by kind *)

Definition scripts : list script :=
  [Script fix_diane_client.path fix_diane_client.steps fix_diane_client.main;
   Script fix_diane_client2.path fix_diane_client2.steps fix_diane_client2.main;
   Script fix_diane_client3.path fix_diane_client3.steps fix_diane_client3.main;
   Script fix_diane_client4.path fix_diane_client4.steps fix_diane_client4.main;
   Script fix_diane_client9.path fix_diane_client9.steps fix_diane_client9.main;
   Script fix_diane_client10.path fix_diane_client10.steps fix_diane_client10.main;
   Script patch_agents_view.path patch_agents_view.steps patch_agents_view.main;
   Script patch_agents_view_model.path patch_agents_view_model.steps
          patch_agents_view_model.main;
   Script patch_ios_agents_views.path patch_ios_agents_views.steps
          patch_ios_agents_views.main;
   Script fix_http_client.path fix_http_client.steps fix_http_client.main].

(** The steps that replace the span they match. *)
Definition replace_steps : list replace_step :=
  [ReplaceStep fix_diane_client4.old_func
               (Py.strip nl fix_diane_client4.add_func) fix_diane_client4.swap;
   ReplaceStep patch_agents_view.old_fields patch_agents_view.new_fields
               patch_agents_view.fields_step;
   ReplaceStep patch_agents_view.old_disabled patch_agents_view.new_disabled
               patch_agents_view.disabled_step;
   ReplaceStep patch_agents_view_model.old_props patch_agents_view_model.new_props
               patch_agents_view_model.props_step;
   ReplaceStep patch_agents_view_model.old_add patch_agents_view_model.new_add
               patch_agents_view_model.config_step;
   ReplaceStep fix_http_client.test_agent_stub
               (Py.strip nl fix_http_client.test_agent)
               (fix_http_client.stub_step fix_http_client.test_agent_stub
                                          fix_http_client.test_agent);
   ReplaceStep fix_http_client.toggle_agent_stub
               (Py.strip nl fix_http_client.toggle_agent)
               (fix_http_client.stub_step fix_http_client.toggle_agent_stub
                                          fix_http_client.toggle_agent);
   ReplaceStep fix_http_client.run_agent_stub
               (Py.strip nl fix_http_client.run_agent)
               (fix_http_client.stub_step fix_http_client.run_agent_stub
                                          fix_http_client.run_agent);
   ReplaceStep fix_http_client.remove_agent_stub
               (Py.strip nl fix_http_client.remove_agent)
               (fix_http_client.stub_step fix_http_client.remove_agent_stub
                                          fix_http_client.remove_agent);
   ReplaceStep fix_http_client.update_agent_stub
               (Py.strip nl fix_http_client.update_agent)
               (fix_http_client.stub_step fix_http_client.update_agent_stub
                                          fix_http_client.update_agent)].

(** The steps that insert next to a literal marker. *)
Definition insert_steps : list insert_step :=
  [InsertStep after fix_diane_client.marker fix_diane_client.add_func
              fix_diane_client.insert;
   InsertStep before fix_diane_client2.marker (fix_diane_client2.add_func ++ nl)
              fix_diane_client2.insert;
   InsertStep before fix_diane_client9.marker (fix_diane_client9.add_func ++ nl)
              fix_diane_client9.inject_step;
   InsertStep before fix_diane_client10.marker (fix_diane_client10.add_func ++ nl)
              fix_diane_client10.insert].

(** [m] ends without an exception, hands on the text [t] and leaves
    every file as it was. *)
Definition runs_to (m : io text) (t : text) : Prop :=
  forall w, exists w', m w = (inr t, w') /\ IO.files w' = IO.files w.

(** A step is sound when it never raises, whatever the text, and hands
    the text on unchanged whenever its outcome is not [applied]. *)
Definition step_ok (st : step) : Prop :=
  (forall content, exists t, runs_to (step_run st content) t) /\
  (forall content, step_outcome st content <> applied ->
                   runs_to (step_run st content) content).

(** Every substitution of the scripts as a pair of an old and a new
    text: an insertion replaces its anchor by the anchor with the new
    text next to it. *)
Definition as_replace (i : insert_step) : replace_step :=
  ReplaceStep (is_anchor i) (adjacent (is_side i) (is_inserted i) (is_anchor i))
              (is_step i).

Definition substitutions : list replace_step :=
  replace_steps ++ map as_replace insert_steps.

(** What a substitution step does once its outcome is [applied]: its
    pattern occurs in the text and the step is [str.replace]. *)
Definition substitutes (rs : replace_step) : Prop :=
  rs_old rs <> [] /\
  forall content,
    step_outcome (rs_step rs) content = applied ->
    Py.contains (rs_old rs) content = true /\
    runs_to (step_run (rs_step rs) content)
            (Py.replace (rs_old rs) (rs_new rs) content).

(** A file system that holds one file. *)
Definition one_file (path : string) (content : text) : IO.world :=
  {| IO.files := {[ path := content ]}; IO.trace := [] |}.

(** The start of the [addAgent] function, as the patterns of
    [fix_diane_client9.py] spell it. *)
Definition add_agent_head : text :=
  lit "    func addAgent(agent: AgentConfig) async throws {" ++ nl.

(** A class body whose last member ends with its own closing brace: the
    marker, then the two closing lines. *)
Definition gallery_at_end : text :=
  fix_diane_client9.marker ++ lit "    }" ++ nl ++ lit "}" ++ nl.

(** The marker inside the class and an [addAgent] after it that runs to
    the end of the file. *)
Definition gallery_then_trailing : text :=
  fix_diane_client9.marker ++ add_agent_head ++
  lit "        return" ++ nl ++ lit "    }" ++ nl ++ lit "}" ++ nl.

(** ** Further scripts *)

(** *** [fix_diane_client6.py] *)

Module fix_diane_client6.

Definition path : string := "Diane/Diane/Services/DianeClient.swift".

Definition add_func : text :=
  nl ++
  lit "    func addAgent(agent: AgentConfig) async throws {" ++ nl ++
  lit "        // Local CLI only supports basic add right now: name url [description]" ++ nl ++
  lit "        var args = [" ++ dq ++ lit "agent" ++ dq ++ lit ", " ++ dq ++ lit "add" ++ dq ++ lit ", agent.name, agent.url]" ++ nl ++
  lit "        if let desc = agent.description, !desc.isEmpty {" ++ nl ++
  lit "            args.append(desc)" ++ nl ++
  lit "        }" ++ nl ++
  lit "        _ = try await processRequest(args: args)" ++ nl ++
  lit "    }" ++ nl.

Definition old_func : text :=
  lit "    func addAgent(agent: AgentConfig) async throws {" ++ nl ++
  lit "        let bodyData = try JSONEncoder().encode(agent)" ++ nl ++
  lit "        _ = try await request(" ++ dq ++ lit "/agents" ++ dq ++ lit ", method: " ++ dq ++ lit "POST" ++ dq ++ lit ", body: bodyData)" ++ nl ++
  lit "    }".

Definition pattern : Re.regex := Re.group (Re.chars old_func).

(** [add_func.strip('\n')] *)
Definition template : Re.template := [Re.TLit (Py.strip nl add_func)].

Definition patch (content : text) : option text :=
  Re.sub pattern template content.

Definition main : io unit :=
  content ← IO.read path;
  content ← IO.re_result (patch content);
  IO.write path content.

Definition swap : step :=
  Step (sub_outcome pattern) (fun content => IO.re_result (patch content)).

Definition steps : list step := [swap].

End fix_diane_client6.

(** *** [fix_diane_client7.py] *)

Module fix_diane_client7.

Definition path : string := "Diane/Diane/Services/DianeClient.swift".

Definition add_func : text :=
  nl ++
  lit "    func addAgent(agent: AgentConfig) async throws {" ++ nl ++
  lit "        let bodyData = try JSONEncoder().encode(agent)" ++ nl ++
  lit "        _ = try await request(" ++ dq ++ lit "/agents" ++ dq ++ lit ", method: " ++ dq ++ lit "POST" ++ dq ++ lit ", timeout: 10, body: bodyData)" ++ nl ++
  lit "    }" ++ nl.

Definition old_func : text :=
  lit "    func addAgent(agent: AgentConfig) async throws {" ++ nl ++
  lit "        // Local CLI only supports basic add right now: name url [description]" ++ nl ++
  lit "        var args = [" ++ dq ++ lit "agent" ++ dq ++ lit ", " ++ dq ++ lit "add" ++ dq ++ lit ", agent.name, agent.url]" ++ nl ++
  lit "        if let desc = agent.description, !desc.isEmpty {" ++ nl ++
  lit "            args.append(desc)" ++ nl ++
  lit "        }" ++ nl ++
  lit "        _ = try await processRequest(args: args)" ++ nl ++
  lit "    }".

Definition pattern : Re.regex := Re.group (Re.chars old_func).

(** [add_func.strip('\n')] *)
Definition template : Re.template := [Re.TLit (Py.strip nl add_func)].

Definition patch (content : text) : option text :=
  Re.sub pattern template content.

Definition main : io unit :=
  content ← IO.read path;
  content ← IO.re_result (patch content);
  IO.write path content.

Definition swap : step :=
  Step (sub_outcome pattern) (fun content => IO.re_result (patch content)).

Definition steps : list step := [swap].

End fix_diane_client7.

(** *** [fix_diane_client8.py] *)

Module fix_diane_client8.

Definition path : string := "Diane/Diane/Services/DianeClient.swift".

Definition add_func : text :=
  nl ++
  lit "    func addAgent(agent: AgentConfig) async throws {" ++ nl ++
  lit "        // Local CLI only supports basic add right now: name url [description]" ++ nl ++
  lit "        var args = [" ++ dq ++ lit "agent" ++ dq ++ lit ", " ++ dq ++ lit "add" ++ dq ++ lit ", agent.name, agent.url]" ++ nl ++
  lit "        if let desc = agent.description, !desc.isEmpty {" ++ nl ++
  lit "            args.append(desc)" ++ nl ++
  lit "        }" ++ nl ++
  lit "        _ = try await processRequest(args: args)" ++ nl ++
  lit "    }" ++ nl ++
  lit "}" ++ nl.

Definition old_func : text :=
  lit "    func addAgent(agent: AgentConfig) async throws {" ++ nl ++
  lit "        let bodyData = try JSONEncoder().encode(agent)" ++ nl ++
  lit "        _ = try await request(" ++ dq ++ lit "/agents" ++ dq ++ lit ", method: " ++ dq ++ lit "POST" ++ dq ++ lit ", timeout: 10, body: bodyData)" ++ nl ++
  lit "    }" ++ nl ++
  lit "}".

Definition pattern : Re.regex := Re.group (Re.chars old_func).

(** [add_func.strip('\n') + '\n'] *)
Definition template : Re.template := [Re.TLit (Py.strip nl add_func ++ nl)].

Definition patch (content : text) : option text :=
  Re.sub pattern template content.

Definition main : io unit :=
  content ← IO.read path;
  content ← IO.re_result (patch content);
  IO.write path content.

Definition swap : step :=
  Step (sub_outcome pattern) (fun content => IO.re_result (patch content)).

Definition steps : list step := [swap].

End fix_diane_client8.

(** *** [fix_http_client2.py] *)

Module fix_http_client2.

Definition client_path : string := "Diane/Diane/Services/DianeHTTPClient.swift".

Definition proto_path : string := "Diane/Diane/Services/DianeClientProtocol.swift".

Definition add_func : text :=
  nl ++
  lit "    func addAgent(agent: AgentConfig) async throws {" ++ nl ++
  lit "        let bodyData = try JSONEncoder().encode(agent)" ++ nl ++
  lit "        _ = try await requestWithBody(" ++ dq ++ lit "/agents" ++ dq ++ lit ", method: " ++ dq ++ lit "POST" ++ dq ++ lit ", body: bodyData)" ++ nl ++
  lit "    }" ++ nl.

Definition marker : text :=
  lit "    // MARK: - Agents" ++ nl.

Definition pattern : Re.regex := Re.group (Re.chars marker).

(** [r'\1' + add_func] *)
Definition template : Re.template := [Re.TGroup 1; Re.TLit add_func].

Definition declaration : text :=
  lit "    func addAgent(agent: AgentConfig) async throws" ++ nl.

(** The template of the protocol file: group 1, then the declaration
    and a line feed. *)
Definition proto_template : Re.template := [Re.TGroup 1; Re.TLit declaration].

Definition main : io unit :=
  content ← IO.read client_path;
  content ← IO.re_result (Re.sub pattern template content);
  IO.write client_path content;;
  proto ← IO.read proto_path;
  proto ← IO.re_result (Re.sub pattern proto_template proto);
  IO.write proto_path proto.

End fix_http_client2.

(** *** [fix_mock.py] *)

Module fix_mock.

Definition path : string := "Diane/DianeTests/TestHelpers/MockDianeClient.swift".

Definition add_func : text :=
  nl ++
  lit "    var mockAddAgent: (() throws -> Void)?" ++ nl ++
  lit "    func addAgent(agent: AgentConfig) async throws {" ++ nl ++
  lit "        if let mock = mockAddAgent {" ++ nl ++
  lit "            try mock()" ++ nl ++
  lit "        }" ++ nl ++
  lit "    }" ++ nl.

Definition marker : text :=
  lit "    // MARK: - Agents" ++ nl.

Definition pattern : Re.regex := Re.group (Re.chars marker).

(** [r'\1' + add_func] *)
Definition template : Re.template := [Re.TGroup 1; Re.TLit add_func].

Definition patch (content : text) : option text :=
  Re.sub pattern template content.

Definition main : io unit :=
  content ← IO.read path;
  content ← IO.re_result (patch content);
  IO.write path content.

Definition insert : step :=
  Step (sub_outcome pattern) (fun content => IO.re_result (patch content)).

Definition steps : list step := [insert].

End fix_mock.

(** *** [fix_install.py] *)

Module fix_install.

Definition path : string := "Diane/Diane/Services/DianeHTTPClient.swift".

Definition install_agent : text :=
  nl ++
  lit "    func installGalleryAgent(id: String, name: String?, workdir: String?, port: Int?) async throws -> GalleryInstallResponse {" ++ nl ++
  lit "        var body: [String: Any] = [:]" ++ nl ++
  lit "        if let name = name {" ++ nl ++
  lit "            body[" ++ dq ++ lit "name" ++ dq ++ lit "] = name" ++ nl ++
  lit "        }" ++ nl ++
  lit "        if let workdir = workdir {" ++ nl ++
  lit "            body[" ++ dq ++ lit "workdir" ++ dq ++ lit "] = workdir" ++ nl ++
  lit "        }" ++ nl ++
  lit "        if let port = port, port > 0 {" ++ nl ++
  lit "            body[" ++ dq ++ lit "port" ++ dq ++ lit "] = port" ++ nl ++
  lit "            body[" ++ dq ++ lit "type" ++ dq ++ lit "] = " ++ dq ++ lit "acp" ++ dq ++ nl ++
  lit "        }" ++ nl ++
  lit "        " ++ nl ++
  lit "        let bodyData = body.isEmpty ? nil : try JSONSerialization.data(withJSONObject: body)" ++ nl ++
  lit "        let data = try await requestWithBody(" ++ dq ++ lit "/gallery/\(id)/install" ++ dq ++ lit ", method: " ++ dq ++ lit "POST" ++ dq ++ lit ", body: bodyData)" ++ nl ++
  lit "        return try decode(GalleryInstallResponse.self, from: data)" ++ nl ++
  lit "    }" ++ nl.

Definition install_agent_stub : text :=
  lit "    func installGalleryAgent(id: String, name: String?, workdir: String?, port: Int?) async throws -> GalleryInstallResponse {" ++ nl ++
  lit "        throw DianeHTTPClientError.readOnlyMode" ++ nl ++
  lit "    }".

(** The pattern has no group; the template is the new function with its
    outer line feeds stripped.  It holds the two characters [\(], which
    Python's template reader leaves as they are. *)
Definition pattern : Re.regex := Re.chars install_agent_stub.

Definition template : Re.template := [Re.TLit (Py.strip nl install_agent)].

Definition patch (content : text) : option text :=
  Re.sub pattern template content.

Definition main : io unit :=
  content ← IO.read path;
  content ← IO.re_result (patch content);
  IO.write path content.

Definition swap : step :=
  Step (sub_outcome pattern) (fun content => IO.re_result (patch content)).

Definition steps : list step := [swap].

End fix_install.

(** *** [fix_vm.py] *)

Module fix_vm.

Definition path : string := "Diane/Diane/ViewModels/AgentsViewModel.swift".

Definition add_state : text :=
  nl ++
  lit "    var showGallerySheet = false" ++ nl ++
  lit "    var newAgentURL = " ++ dq ++ dq ++ nl ++
  lit "    var newAgentDescription = " ++ dq ++ dq ++ nl.

Definition add_func : text :=
  nl ++
  lit "    func addCustomAgent() async {" ++ nl ++
  lit "        isInstalling = true" ++ nl ++
  lit "        installError = nil" ++ nl ++
  lit "        " ++ nl ++
  lit "        do {" ++ nl ++
  lit "            let agent = AgentConfig(" ++ nl ++
  lit "                name: newAgentName," ++ nl ++
  lit "                url: newAgentURL," ++ nl ++
  lit "                type: " ++ dq ++ lit "acp" ++ dq ++ lit "," ++ nl ++
  lit "                command: nil," ++ nl ++
  lit "                args: nil," ++ nl ++
  lit "                env: nil," ++ nl ++
  lit "                workdir: newAgentWorkdir.isEmpty ? nil : newAgentWorkdir," ++ nl ++
  lit "                port: nil," ++ nl ++
  lit "                subAgent: nil," ++ nl ++
  lit "                enabled: true," ++ nl ++
  lit "                description: newAgentDescription.isEmpty ? nil : newAgentDescription," ++ nl ++
  lit "                tags: nil" ++ nl ++
  lit "            )" ++ nl ++
  lit "            " ++ nl ++
  lit "            try await client.addAgent(agent: agent)" ++ nl ++
  lit "            " ++ nl ++
  lit "            // Refresh" ++ nl ++
  lit "            agents = try await client.getAgents()" ++ nl ++
  lit "            showAddAgent = false" ++ nl ++
  lit "            " ++ nl ++
  lit "            // Reset" ++ nl ++
  lit "            newAgentName = " ++ dq ++ dq ++ nl ++
  lit "            newAgentURL = " ++ dq ++ dq ++ nl ++
  lit "            newAgentDescription = " ++ dq ++ dq ++ nl ++
  lit "            newAgentWorkdir = " ++ dq ++ dq ++ nl ++
  lit "        } catch {" ++ nl ++
  lit "            installError = error.localizedDescription" ++ nl ++
  lit "        }" ++ nl ++
  lit "        " ++ nl ++
  lit "        isInstalling = false" ++ nl ++
  lit "    }" ++ nl.

Definition state_marker : text :=
  lit "    var showAddAgent = false" ++ nl.

Definition state_pattern : Re.regex := Re.group (Re.chars state_marker).

(** [r'\1' + add_state] *)
Definition state_template : Re.template := [Re.TGroup 1; Re.TLit add_state].

Definition func_marker : text :=
  lit "    func startEditing() {" ++ nl.

Definition func_pattern : Re.regex := Re.group (Re.chars func_marker).

(** [add_func + r'\n\1'] *)
Definition func_template : Re.template :=
  [Re.TLit add_func; Re.TLit nl; Re.TGroup 1].

Definition add_to_state (content : text) : option text :=
  Re.sub state_pattern state_template content.

Definition add_custom_agent (content : text) : option text :=
  Re.sub func_pattern func_template content.

Definition main : io unit :=
  content ← IO.read path;
  content ← IO.re_result (add_to_state content);
  content ← IO.re_result (add_custom_agent content);
  IO.write path content.

Definition state_step : step :=
  Step (sub_outcome state_pattern)
       (fun content => IO.re_result (add_to_state content)).

Definition func_step : step :=
  Step (sub_outcome func_pattern)
       (fun content => IO.re_result (add_custom_agent content)).

Definition steps : list step := [state_step; func_step].

End fix_vm.

(** *** [update_agents_view_model.py] *)

Module update_agents_view_model.

Definition path : string := "Diane/Diane/ViewModels/AgentsViewModel.swift".

Definition edit_state : text :=
  nl ++
  lit "    // MARK: - Edit Agent State" ++ nl ++
  lit "    var showEditAgent = false" ++ nl ++
  lit "    var editAgentDescription = " ++ dq ++ dq ++ nl ++
  lit "    var editAgentWorkdir = " ++ dq ++ dq ++ nl ++
  lit "    var isEditing = false" ++ nl ++
  lit "    var editError: String?" ++ nl.

Definition edit_funcs : text :=
  nl ++
  lit "    func startEditing() {" ++ nl ++
  lit "        guard let agent = selectedAgent else { return }" ++ nl ++
  lit "        editAgentDescription = agent.description ?? " ++ dq ++ dq ++ nl ++
  lit "        editAgentWorkdir = agent.workdir ?? " ++ dq ++ dq ++ nl ++
  lit "        editError = nil" ++ nl ++
  lit "        showEditAgent = true" ++ nl ++
  lit "    }" ++ nl ++
  nl ++
  lit "    func saveEdit() async {" ++ nl ++
  lit "        guard let agent = selectedAgent else { return }" ++ nl ++
  lit "        " ++ nl ++
  lit "        isEditing = true" ++ nl ++
  lit "        editError = nil" ++ nl ++
  lit "        FileLogger.shared.info(" ++ dq ++ lit "Updating agent '\(agent.name)'" ++ dq ++ lit ", category: " ++ dq ++ lit "Agents" ++ dq ++ lit ")" ++ nl ++
  lit "        " ++ nl ++
  lit "        do {" ++ nl ++
  lit "            let newDesc = editAgentDescription.isEmpty ? nil : editAgentDescription" ++ nl ++
  lit "            let newWorkdir = editAgentWorkdir.isEmpty ? nil : editAgentWorkdir" ++ nl ++
  lit "            " ++ nl ++
  lit "            try await client.updateAgent(" ++ nl ++
  lit "                name: agent.name," ++ nl ++
  lit "                subAgent: nil," ++ nl ++
  lit "                enabled: nil," ++ nl ++
  lit "                description: newDesc," ++ nl ++
  lit "                workdir: newWorkdir" ++ nl ++
  lit "            )" ++ nl ++
  lit "            " ++ nl ++
  lit "            // Refresh" ++ nl ++
  lit "            agents = try await client.getAgents()" ++ nl ++
  lit "            if let updated = agents.first(where: { $0.name == agent.name }) {" ++ nl ++
  lit "                selectedAgent = updated" ++ nl ++
  lit "            }" ++ nl ++
  lit "            showEditAgent = false" ++ nl ++
  lit "        } catch {" ++ nl ++
  lit "            editError = error.localizedDescription" ++ nl ++
  lit "            FileLogger.shared.error(" ++ dq ++ lit "Failed to update agent '\(agent.name)': \(error.localizedDescription)" ++ dq ++ lit ", category: " ++ dq ++ lit "Agents" ++ dq ++ lit ")" ++ nl ++
  lit "        }" ++ nl ++
  lit "        " ++ nl ++
  lit "        isEditing = false" ++ nl ++
  lit "    }" ++ nl.

Definition state_marker : text :=
  lit "    var installError: String?" ++ nl.

Definition state_pattern : Re.regex := Re.group (Re.chars state_marker).

(** [r'\1\n' + edit_state] *)
Definition state_template : Re.template :=
  [Re.TGroup 1; Re.TLit nl; Re.TLit edit_state].

Definition helpers_marker : text :=
  lit "    // MARK: - Helpers" ++ nl.

Definition helpers_pattern : Re.regex := Re.group (Re.chars helpers_marker).

(** [edit_funcs + r'\n\1']; [edit_funcs] holds the two characters [\(],
    which Python's template reader leaves as they are. *)
Definition funcs_template : Re.template :=
  [Re.TLit edit_funcs; Re.TLit nl; Re.TGroup 1].

Definition add_edit_state (content : text) : option text :=
  Re.sub state_pattern state_template content.

Definition add_edit_funcs (content : text) : option text :=
  Re.sub helpers_pattern funcs_template content.

Definition main : io unit :=
  content ← IO.read path;
  content ← IO.re_result (add_edit_state content);
  content ← IO.re_result (add_edit_funcs content);
  IO.write path content.

Definition state_step : step :=
  Step (sub_outcome state_pattern)
       (fun content => IO.re_result (add_edit_state content)).

Definition funcs_step : step :=
  Step (sub_outcome helpers_pattern)
       (fun content => IO.re_result (add_edit_funcs content)).

Definition steps : list step := [state_step; funcs_step].

End update_agents_view_model.

(** *** [patch_agents_view_model2.py] *)

Module patch_agents_view_model2.

Definition path : string := "Diane/Diane/ViewModels/AgentsViewModel.swift".

Definition old_props : text :=
  lit "    var showGallerySheet = false" ++ nl ++
  lit "    var newAgentURL = " ++ dq ++ dq ++ nl ++
  lit "    var newAgentDescription = " ++ dq ++ dq ++ nl ++
  lit "    var galleryEntries: [GalleryEntry] = []".

Definition new_props : text :=
  lit "    var showGallerySheet = false" ++ nl ++
  lit "    var newAgentURL = " ++ dq ++ dq ++ nl ++
  lit "    var newAgentDescription = " ++ dq ++ dq ++ nl ++
  lit "    " ++ nl ++
  lit "    // Workspace Config State" ++ nl ++
  lit "    var newAgentBaseImage = " ++ dq ++ dq ++ nl ++
  lit "    var newAgentRepoURL = " ++ dq ++ dq ++ nl ++
  lit "    var newAgentRepoBranch = " ++ dq ++ dq ++ nl ++
  lit "    var newAgentProvider = " ++ dq ++ dq ++ nl ++
  lit "    var newAgentSetupCommands = [String]()" ++ nl ++
  lit "    " ++ nl ++
  lit "    var galleryEntries: [GalleryEntry] = []".

Definition old_add : text :=
  lit "            let agent = AgentConfig(" ++ nl ++
  lit "                name: newAgentName," ++ nl ++
  lit "                url: newAgentURL," ++ nl ++
  lit "                type: " ++ dq ++ lit "acp" ++ dq ++ lit "," ++ nl ++
  lit "                command: nil," ++ nl ++
  lit "                args: nil," ++ nl ++
  lit "                env: nil," ++ nl ++
  lit "                workdir: newAgentWorkdir.isEmpty ? nil : newAgentWorkdir," ++ nl ++
  lit "                port: nil," ++ nl ++
  lit "                subAgent: nil," ++ nl ++
  lit "                enabled: true," ++ nl ++
  lit "                description: newAgentDescription.isEmpty ? nil : newAgentDescription," ++ nl ++
  lit "                tags: nil" ++ nl ++
  lit "            )".

Definition new_add : text :=
  lit "            var workspaceConfig: WorkspaceConfig? = nil" ++ nl ++
  lit "            if !newAgentBaseImage.isEmpty || !newAgentRepoURL.isEmpty || !newAgentSetupCommands.isEmpty {" ++ nl ++
  lit "                workspaceConfig = WorkspaceConfig(" ++ nl ++
  lit "                    baseImage: newAgentBaseImage.isEmpty ? nil : newAgentBaseImage," ++ nl ++
  lit "                    repoUrl: newAgentRepoURL.isEmpty ? nil : newAgentRepoURL," ++ nl ++
  lit "                    repoBranch: newAgentRepoBranch.isEmpty ? nil : newAgentRepoBranch," ++ nl ++
  lit "                    provider: newAgentProvider.isEmpty ? nil : newAgentProvider," ++ nl ++
  lit "                    setupCommands: newAgentSetupCommands.isEmpty ? nil : newAgentSetupCommands" ++ nl ++
  lit "                )" ++ nl ++
  lit "            }" ++ nl ++
  nl ++
  lit "            let agent = AgentConfig(" ++ nl ++
  lit "                name: newAgentName," ++ nl ++
  lit "                url: newAgentURL.isEmpty ? nil : newAgentURL," ++ nl ++
  lit "                type: " ++ dq ++ lit "acp" ++ dq ++ lit "," ++ nl ++
  lit "                command: nil," ++ nl ++
  lit "                args: nil," ++ nl ++
  lit "                env: nil," ++ nl ++
  lit "                workdir: newAgentWorkdir.isEmpty ? nil : newAgentWorkdir," ++ nl ++
  lit "                port: nil," ++ nl ++
  lit "                subAgent: nil," ++ nl ++
  lit "                enabled: true," ++ nl ++
  lit "                description: newAgentDescription.isEmpty ? nil : newAgentDescription," ++ nl ++
  lit "                tags: nil," ++ nl ++
  lit "                workspaceConfig: workspaceConfig" ++ nl ++
  lit "            )".

Definition add_props (content : text) : io text :=
  if Py.contains old_props content
  then mret (Py.replace old_props new_props content)
  else IO.print "Could not find properties block";; mret content.

Definition add_config (content : text) : io text :=
  if Py.contains old_add content
  then mret (Py.replace old_add new_add content)
  else IO.print "Could not find agent creation block";; mret content.

Definition main : io unit :=
  content ← IO.read path;
  content ← add_props content;
  content ← add_config content;
  IO.write path content;;
  IO.print "Python patch 2 complete".

Definition props_step : step := Step (replace_outcome old_props) add_props.
Definition config_step : step := Step (replace_outcome old_add) add_config.

Definition steps : list step := [props_step; config_step].

End patch_agents_view_model2.

(** *** [patch_agents_view_model3.py] *)

Module patch_agents_view_model3.

Definition path : string := "Diane/Diane/ViewModels/AgentsViewModel.swift".

Definition old_reset : text :=
  lit "            // Reset" ++ nl ++
  lit "            newAgentName = " ++ dq ++ dq ++ nl ++
  lit "            newAgentURL = " ++ dq ++ dq ++ nl ++
  lit "            newAgentDescription = " ++ dq ++ dq ++ nl ++
  lit "            newAgentWorkdir = " ++ dq ++ dq ++ nl ++
  lit "        } catch {".

Definition new_reset : text :=
  lit "            // Reset" ++ nl ++
  lit "            newAgentName = " ++ dq ++ dq ++ nl ++
  lit "            newAgentURL = " ++ dq ++ dq ++ nl ++
  lit "            newAgentDescription = " ++ dq ++ dq ++ nl ++
  lit "            newAgentWorkdir = " ++ dq ++ dq ++ nl ++
  lit "            newAgentBaseImage = " ++ dq ++ dq ++ nl ++
  lit "            newAgentRepoURL = " ++ dq ++ dq ++ nl ++
  lit "            newAgentRepoBranch = " ++ dq ++ dq ++ nl ++
  lit "            newAgentProvider = " ++ dq ++ dq ++ nl ++
  lit "            newAgentSetupCommands = []" ++ nl ++
  lit "        } catch {".

Definition update_reset (content : text) : io text :=
  if Py.contains old_reset content
  then mret (Py.replace old_reset new_reset content)
  else IO.print "Could not find reset block";; mret content.

Definition main : io unit :=
  content ← IO.read path;
  content ← update_reset content;
  IO.write path content;;
  IO.print "Python patch 3 complete".

Definition reset_step : step := Step (replace_outcome old_reset) update_reset.

Definition steps : list step := [reset_step].

End patch_agents_view_model3.

(** ** Patterns with unescaped dots *)

(** The patterns of [fix_diane_client5.py] and [fix_diane_client12.py]
    are one group around literal characters and dots; they are compiled
    without [re.DOTALL], and their templates refer to no group. *)
Module Dot.

Inductive item : Type :=
| Lit (c : ascii)
| Any.

Definition pattern : Type := list item.

Definition lits (t : text) : pattern := map Lit t.

(** [.] stands for any character but a line feed. *)
Definition item_matches (i : item) (c : ascii) : bool :=
  match i with
  | Lit a => Ascii.eqb a c
  | Any => negb (Ascii.eqb c (ascii_of_nat 10))
  end.

(** Every item takes one character, so a match spans as many characters
    as the pattern has items. *)
Fixpoint match_here (p : pattern) (s : text) : bool :=
  match p, s with
  | [], _ => true
  | _ :: _, [] => false
  | i :: p', c :: s' => item_matches i c && match_here p' s'
  end.

Fixpoint search (p : pattern) (s : text) : bool :=
  match_here p s ||
  match s with
  | [] => false
  | _ :: s' => search p s'
  end.

Definition sub_at (p : pattern) (new : text) (t : text) : option (nat * text) :=
  if match_here p t then Some (length p, new) else None.

(** [re.sub(p, new, s)] for a template [new] without escapes. *)
Definition sub (p : pattern) (new : text) (s : text) : text :=
  Py.scan (sub_at p new) s 0.

End Dot.

(** *** [fix_diane_client5.py] *)

Module fix_diane_client5.

Definition path : string := "Diane/Diane/Services/DianeClient.swift".

Definition add_func : text :=
  nl ++
  lit "    func addAgent(agent: AgentConfig) async throws {" ++ nl ++
  lit "        let bodyData = try JSONEncoder().encode(agent)" ++ nl ++
  lit "        _ = try await request(" ++ dq ++ lit "/agents" ++ dq ++ lit ", method: " ++ dq ++ lit "POST" ++ dq ++ lit ", body: bodyData)" ++ nl ++
  lit "    }" ++ nl.

(** The pattern: one group around the old function, its dots left
    unescaped. *)
Definition pattern : Dot.pattern :=
  Dot.lits (lit "    func addAgent(agent: AgentConfig) async throws {" ++ nl ++
            lit "        let args = [" ++ dq ++ lit "agent" ++ dq ++ lit ", " ++ dq ++ lit "add" ++ dq ++ lit ", agent") ++
  [Dot.Any] ++
  Dot.lits (lit "name, agent") ++
  [Dot.Any] ++
  Dot.lits (lit "url, agent") ++
  [Dot.Any] ++
  Dot.lits (lit "description ?? " ++ dq ++ dq ++ lit "]" ++ nl ++
            lit "        _ = try await processRequest(args: args)" ++ nl ++
            lit "    }").

(** [re.sub(pattern, add_func.strip('\n'), content)] *)
Definition patch (content : text) : text :=
  Dot.sub pattern (Py.strip nl add_func) content.

Definition main : io unit :=
  content ← IO.read path;
  IO.write path (patch content).

Definition outcome (content : text) : Outcome :=
  if Dot.search pattern content then applied else not_found.

Definition swap : step :=
  Step outcome (fun content => mret (patch content)).

Definition steps : list step := [swap].

End fix_diane_client5.

(** *** [fix_diane_client12.py] *)

Module fix_diane_client12.

Definition path : string := "Diane/Diane/Services/DianeClient.swift".

Definition add_func : text :=
  nl ++
  lit "    func addAgent(agent: AgentConfig) async throws {" ++ nl ++
  lit "        let bodyData = try JSONEncoder().encode(agent)" ++ nl ++
  lit "        _ = try await request(" ++ dq ++ lit "/agents" ++ dq ++ lit ", method: " ++ dq ++ lit "POST" ++ dq ++ lit ", timeout: 10, body: bodyData)" ++ nl ++
  lit "    }" ++ nl.

(** The pattern: one group around the old function, its dots left
    unescaped. *)
Definition pattern : Dot.pattern :=
  Dot.lits (lit "    func addAgent(agent: AgentConfig) async throws {" ++ nl ++
            lit "        var args = [" ++ dq ++ lit "agent" ++ dq ++ lit ", " ++ dq ++ lit "add" ++ dq ++ lit ", agent") ++
  [Dot.Any] ++
  Dot.lits (lit "name, agent") ++
  [Dot.Any] ++
  Dot.lits (lit "url]" ++ nl ++
            lit "        if let desc = agent") ++
  [Dot.Any] ++
  Dot.lits (lit "description, !desc") ++
  [Dot.Any] ++
  Dot.lits (lit "isEmpty {" ++ nl ++
            lit "            args") ++
  [Dot.Any] ++
  Dot.lits (lit "append(desc)" ++ nl ++
            lit "        }" ++ nl ++
            lit "        _ = try await processRequest(args: args)" ++ nl ++
            lit "    }").

(** [re.sub(pattern, add_func.strip('\n'), content)] *)
Definition patch (content : text) : text :=
  Dot.sub pattern (Py.strip nl add_func) content.

Definition main : io unit :=
  content ← IO.read path;
  IO.write path (patch content).

Definition outcome (content : text) : Outcome :=
  if Dot.search pattern content then applied else not_found.

Definition swap : step :=
  Step outcome (fun content => mret (patch content)).

Definition steps : list step := [swap].

End fix_diane_client12.

(** ** Texts that cannot overlap *)

(** One of the two texts starts the other. *)
Definition comparable (x y : text) : bool :=
  Py.startswith x y || Py.startswith y x.

(** Some non-empty end of [x] is comparable with [y]: an occurrence of
    [x] can run into an occurrence of [y]. *)
Fixpoint suffix_clash (x y : text) : bool :=
  match x with
  | [] => false
  | _ :: x' => comparable x y || suffix_clash x' y
  end.

(** No occurrence of [old] shares a character with an occurrence of
    [new], in any text. *)
Definition no_overlap (old new : text) : bool :=
  negb (suffix_clash old new) && negb (suffix_clash new old).

(** A sequence of [str.replace] calls, each on the result of the one
    before. *)
Fixpoint replace_all (rules : list (text * text)) (s : text) : text :=
  match rules with
  | [] => s
  | (old, new) :: rules' => replace_all rules' (Py.replace old new s)
  end.

(** Each rule has a non-empty old text that overlaps neither its own new
    text nor the new text of any later rule; [seen] holds the old texts
    of the rules before. *)
Fixpoint chain_ok (seen : list text) (rules : list (text * text)) : bool :=
  match rules with
  | [] => true
  | (old, new) :: rules' =>
      negb (bool_decide (old = [])) &&
      forallb (fun o => no_overlap o new) (old :: seen) &&
      chain_ok (old :: seen) rules'
  end.

Definition rules_of (steps : list replace_step) : list (text * text) :=
  map (fun rs => (rs_old rs, rs_new rs)) steps.

(** The replace-span steps of each script that is made of such steps
    only. *)
Definition fix_diane_client4_rules : list replace_step :=
  [ReplaceStep fix_diane_client4.old_func
               (Py.strip nl fix_diane_client4.add_func) fix_diane_client4.swap].

Definition patch_agents_view_rules : list replace_step :=
  [ReplaceStep patch_agents_view.old_fields patch_agents_view.new_fields
               patch_agents_view.fields_step;
   ReplaceStep patch_agents_view.old_disabled patch_agents_view.new_disabled
               patch_agents_view.disabled_step].

Definition patch_agents_view_model_rules : list replace_step :=
  [ReplaceStep patch_agents_view_model.old_props patch_agents_view_model.new_props
               patch_agents_view_model.props_step;
   ReplaceStep patch_agents_view_model.old_add patch_agents_view_model.new_add
               patch_agents_view_model.config_step].

Definition fix_http_client_rules : list replace_step :=
  [ReplaceStep fix_http_client.test_agent_stub
               (Py.strip nl fix_http_client.test_agent)
               (fix_http_client.stub_step fix_http_client.test_agent_stub
                                          fix_http_client.test_agent);
   ReplaceStep fix_http_client.toggle_agent_stub
               (Py.strip nl fix_http_client.toggle_agent)
               (fix_http_client.stub_step fix_http_client.toggle_agent_stub
                                          fix_http_client.toggle_agent);
   ReplaceStep fix_http_client.run_agent_stub
               (Py.strip nl fix_http_client.run_agent)
               (fix_http_client.stub_step fix_http_client.run_agent_stub
                                          fix_http_client.run_agent);
   ReplaceStep fix_http_client.remove_agent_stub
               (Py.strip nl fix_http_client.remove_agent)
               (fix_http_client.stub_step fix_http_client.remove_agent_stub
                                          fix_http_client.remove_agent);
   ReplaceStep fix_http_client.update_agent_stub
               (Py.strip nl fix_http_client.update_agent)
               (fix_http_client.stub_step fix_http_client.update_agent_stub
                                          fix_http_client.update_agent)].

(** The steps of the other scripts whose steps substitute whatever the
    text holds, as pairs of an old and a new text: an insertion replaces
    its marker by the marker with the new text next to it. *)
Definition fix_diane_client_rules : list replace_step :=
  [ReplaceStep fix_diane_client.marker
               (fix_diane_client.marker ++ fix_diane_client.add_func)
               fix_diane_client.insert].

Definition fix_diane_client6_rules : list replace_step :=
  [ReplaceStep fix_diane_client6.old_func
               (Py.strip nl fix_diane_client6.add_func) fix_diane_client6.swap].

Definition fix_diane_client7_rules : list replace_step :=
  [ReplaceStep fix_diane_client7.old_func
               (Py.strip nl fix_diane_client7.add_func) fix_diane_client7.swap].

Definition fix_diane_client8_rules : list replace_step :=
  [ReplaceStep fix_diane_client8.old_func
               (Py.strip nl fix_diane_client8.add_func ++ nl)
               fix_diane_client8.swap].

Definition fix_mock_rules : list replace_step :=
  [ReplaceStep fix_mock.marker (fix_mock.marker ++ fix_mock.add_func)
               fix_mock.insert].

Definition fix_install_rules : list replace_step :=
  [ReplaceStep fix_install.install_agent_stub
               (Py.strip nl fix_install.install_agent) fix_install.swap].

Definition fix_vm_rules : list replace_step :=
  [ReplaceStep fix_vm.state_marker (fix_vm.state_marker ++ fix_vm.add_state)
               fix_vm.state_step;
   ReplaceStep fix_vm.func_marker
               ((fix_vm.add_func ++ nl) ++ fix_vm.func_marker)
               fix_vm.func_step].

Definition update_agents_view_model_rules : list replace_step :=
  [ReplaceStep update_agents_view_model.state_marker
               (update_agents_view_model.state_marker ++ nl ++
                update_agents_view_model.edit_state)
               update_agents_view_model.state_step;
   ReplaceStep update_agents_view_model.helpers_marker
               ((update_agents_view_model.edit_funcs ++ nl) ++
                update_agents_view_model.helpers_marker)
               update_agents_view_model.funcs_step].

Definition patch_agents_view_model2_rules : list replace_step :=
  [ReplaceStep patch_agents_view_model2.old_props
               patch_agents_view_model2.new_props
               patch_agents_view_model2.props_step;
   ReplaceStep patch_agents_view_model2.old_add patch_agents_view_model2.new_add
               patch_agents_view_model2.config_step].

Definition patch_agents_view_model3_rules : list replace_step :=
  [ReplaceStep patch_agents_view_model3.old_reset
               patch_agents_view_model3.new_reset
               patch_agents_view_model3.reset_step].

(** The further scripts that patch one file. *)
Definition further_scripts : list script :=
  [Script fix_diane_client6.path fix_diane_client6.steps fix_diane_client6.main;
   Script fix_diane_client7.path fix_diane_client7.steps fix_diane_client7.main;
   Script fix_diane_client8.path fix_diane_client8.steps fix_diane_client8.main;
   Script fix_mock.path fix_mock.steps fix_mock.main;
   Script fix_install.path fix_install.steps fix_install.main;
   Script fix_vm.path fix_vm.steps fix_vm.main;
   Script update_agents_view_model.path update_agents_view_model.steps
          update_agents_view_model.main;
   Script patch_agents_view_model2.path patch_agents_view_model2.steps
          patch_agents_view_model2.main;
   Script patch_agents_view_model3.path patch_agents_view_model3.steps
          patch_agents_view_model3.main].

(** The scripts whose pattern holds unescaped dots. *)
Definition dotted_scripts : list script :=
  [Script fix_diane_client5.path fix_diane_client5.steps fix_diane_client5.main;
   Script fix_diane_client12.path fix_diane_client12.steps
          fix_diane_client12.main].

Definition all_scripts : list script :=
  scripts ++ further_scripts ++ dotted_scripts.

(** The scripts whose steps all substitute whatever the text holds, each
    with its steps. *)
Definition plain_scripts : list (script * list replace_step) :=
  [(Script fix_diane_client.path fix_diane_client.steps fix_diane_client.main,
    fix_diane_client_rules);
   (Script fix_diane_client4.path fix_diane_client4.steps fix_diane_client4.main,
    fix_diane_client4_rules);
   (Script patch_agents_view.path patch_agents_view.steps patch_agents_view.main,
    patch_agents_view_rules);
   (Script patch_agents_view_model.path patch_agents_view_model.steps
           patch_agents_view_model.main,
    patch_agents_view_model_rules);
   (Script fix_http_client.path fix_http_client.steps fix_http_client.main,
    fix_http_client_rules);
   (Script fix_diane_client6.path fix_diane_client6.steps fix_diane_client6.main,
    fix_diane_client6_rules);
   (Script fix_diane_client7.path fix_diane_client7.steps fix_diane_client7.main,
    fix_diane_client7_rules);
   (Script fix_diane_client8.path fix_diane_client8.steps fix_diane_client8.main,
    fix_diane_client8_rules);
   (Script fix_mock.path fix_mock.steps fix_mock.main, fix_mock_rules);
   (Script fix_install.path fix_install.steps fix_install.main,
    fix_install_rules);
   (Script fix_vm.path fix_vm.steps fix_vm.main, fix_vm_rules);
   (Script update_agents_view_model.path update_agents_view_model.steps
           update_agents_view_model.main,
    update_agents_view_model_rules);
   (Script patch_agents_view_model2.path patch_agents_view_model2.steps
           patch_agents_view_model2.main,
    patch_agents_view_model2_rules);
   (Script patch_agents_view_model3.path patch_agents_view_model3.steps
           patch_agents_view_model3.main,
    patch_agents_view_model3_rules)].

(** Among them, the scripts whose old texts can overlap neither their own
    new text nor the new text of a later step. *)
Definition replace_only : list (script * list replace_step) :=
  [(Script fix_diane_client4.path fix_diane_client4.steps fix_diane_client4.main,
    fix_diane_client4_rules);
   (Script patch_agents_view.path patch_agents_view.steps patch_agents_view.main,
    patch_agents_view_rules);
   (Script fix_http_client.path fix_http_client.steps fix_http_client.main,
    fix_http_client_rules);
   (Script fix_diane_client6.path fix_diane_client6.steps fix_diane_client6.main,
    fix_diane_client6_rules);
   (Script fix_diane_client7.path fix_diane_client7.steps fix_diane_client7.main,
    fix_diane_client7_rules);
   (Script fix_diane_client8.path fix_diane_client8.steps fix_diane_client8.main,
    fix_diane_client8_rules);
   (Script fix_install.path fix_install.steps fix_install.main,
    fix_install_rules);
   (Script patch_agents_view_model2.path patch_agents_view_model2.steps
           patch_agents_view_model2.main,
    patch_agents_view_model2_rules);
   (Script patch_agents_view_model3.path patch_agents_view_model3.steps
           patch_agents_view_model3.main,
    patch_agents_view_model3_rules)].

(** A step that is [str.replace] on every text. *)
Definition always_replaces (rs : replace_step) : Prop :=
  rs_old rs <> [] /\
  forall content,
    runs_to (step_run (rs_step rs) content)
            (Py.replace (rs_old rs) (rs_new rs) content).

(** A second run of the script ends normally and leaves every file as
    the first run left it. *)
Definition rerun_noop (sc : script) : Prop :=
  forall w content,
    IO.files w !! script_path sc = Some content ->
    exists w1 w2,
      script_main sc w = (inr tt, w1) /\
      script_main sc w1 = (inr tt, w2) /\
      IO.files w2 = IO.files w1.

(** The scripts that guard their insertion with the signature of what
    they insert. *)
Definition guarded_scripts : list script :=
  [Script fix_diane_client2.path fix_diane_client2.steps fix_diane_client2.main;
   Script fix_diane_client10.path fix_diane_client10.steps fix_diane_client10.main].

(** The old text [o] of one of the rules feeds itself: its new text is
    longer and holds it, no rule shortens a text, and no other rule's old
    text can overlap [o]. *)
Definition feeds (o : text) (rules : list (text * text)) : bool :=
  existsb (fun r => bool_decide (fst r = o)) rules &&
  forallb (fun r =>
             negb (bool_decide (fst r = [])) &&
             (length (fst r) <=? length (snd r)) &&
             (if bool_decide (fst r = o)
              then Py.contains o (snd r) && (length o <? length (snd r))
              else no_overlap o (fst r)))
          rules.

(** The scripts with a step whose old text is kept inside its new text,
    each with its steps and that old text. *)
Definition self_feeding : list (script * list replace_step * text) :=
  [(Script fix_diane_client.path fix_diane_client.steps fix_diane_client.main,
    fix_diane_client_rules, fix_diane_client.marker);
   (Script fix_mock.path fix_mock.steps fix_mock.main,
    fix_mock_rules, fix_mock.marker);
   (Script fix_vm.path fix_vm.steps fix_vm.main,
    fix_vm_rules, fix_vm.state_marker);
   (Script fix_vm.path fix_vm.steps fix_vm.main,
    fix_vm_rules, fix_vm.func_marker);
   (Script update_agents_view_model.path update_agents_view_model.steps
           update_agents_view_model.main,
    update_agents_view_model_rules, update_agents_view_model.state_marker);
   (Script update_agents_view_model.path update_agents_view_model.steps
           update_agents_view_model.main,
    update_agents_view_model_rules, update_agents_view_model.helpers_marker);
   (Script patch_agents_view_model.path patch_agents_view_model.steps
           patch_agents_view_model.main,
    patch_agents_view_model_rules, patch_agents_view_model.old_props)].

(** The file writes among the events of a run, in order. *)
Definition writes_of (evs : list IO.event) : list (string * text) :=
  omap (fun e => match e with
                 | IO.Written p t => Some (p, t)
                 | IO.Printed _ => None
                 end) evs.

(** The scripts that end with an unconditional [open(path, 'w')]: all
    but [patch_ios_agents_views.py]. *)
Definition unconditional_writers : list script :=
  [Script fix_diane_client.path fix_diane_client.steps fix_diane_client.main;
   Script fix_diane_client2.path fix_diane_client2.steps fix_diane_client2.main;
   Script fix_diane_client3.path fix_diane_client3.steps fix_diane_client3.main;
   Script fix_diane_client4.path fix_diane_client4.steps fix_diane_client4.main;
   Script fix_diane_client9.path fix_diane_client9.steps fix_diane_client9.main;
   Script fix_diane_client10.path fix_diane_client10.steps fix_diane_client10.main;
   Script patch_agents_view.path patch_agents_view.steps patch_agents_view.main;
   Script patch_agents_view_model.path patch_agents_view_model.steps
          patch_agents_view_model.main;
   Script fix_http_client.path fix_http_client.steps fix_http_client.main]
  ++ further_scripts ++ dotted_scripts.

(** ** Checks of the primitives against Python *)


Example replace_ex1 : Py.replace (lit "aa") (lit "b") (lit "aaa") = lit "ba".
Proof. reflexivity. Qed.
Example replace_ex2 : Py.replace (lit "") (lit "-") (lit "abc") = lit "-a-b-c-".
Proof. reflexivity. Qed.
Example rsplit_ex1 : Py.rsplit1 (lit "}") (lit "a}b}c") = [lit "a}b"; lit "c"].
Proof. reflexivity. Qed.
Example rsplit_ex2 : Py.rsplit1 (lit "}") (lit "abc") = [lit "abc"].
Proof. reflexivity. Qed.
Example sub_ex1 :
  Re.sub (Re.group (Re.chars (lit "P") ++ [Re.AnyLazyPlus] ++ Re.chars (lit "}")))
         [Re.TGroup 1; Re.TLit (lit "!")] (lit "P}}P}xP}") = Some (lit "P}}!P}xP}!").
Proof. reflexivity. Qed.
Example sub_ex2 :
  Re.sub (Re.chars (lit "a") ++ [Re.EndAnchor]) [Re.TLit (lit "X")] (lit "a" ++ nl ++ lit "a" ++ nl)
  = Some (lit "a" ++ nl ++ lit "X" ++ nl).
Proof. reflexivity. Qed.
Example sub_ex3 :
  Re.sub [Re.EndAnchor] [Re.TLit (lit "X")] (lit "a" ++ nl) = Some (lit "aX" ++ nl ++ lit "X").
Proof. reflexivity. Qed.
Example sub_ex4 : Re.sub (Re.chars (lit "ab")) [Re.TGroup 1] (lit "zz") = None.
Proof. reflexivity. Qed.
Example strip_ex : Py.strip nl (nl ++ lit "a" ++ nl ++ lit "b" ++ nl ++ nl) = lit "a" ++ nl ++ lit "b".
Proof. reflexivity. Qed.

(** ** Lemmas on the string primitives *)

Section Primitives.

Implicit Types (p old new sub s t pre post : text) (m : text -> option (nat * text)).

Lemma startswith_app p k : Py.startswith p (p ++ k) = true.
Proof.
  induction p as [|a p IH]; simpl; [done|].
  rewrite Ascii.eqb_refl. exact IH.
Qed.

Lemma startswith_prefix p s : Py.startswith p s = true -> exists k, s = p ++ k.
Proof.
  revert s. induction p as [|a p IH]; intros s H.
  - by exists s.
  - destruct s as [|b s]; simpl in H; [done|].
    apply andb_prop in H as [Hab Hps].
    apply Ascii.eqb_eq in Hab as ->.
    destruct (IH _ Hps) as [k ->]. by exists k.
Qed.

Lemma startswith_take p s : Py.startswith p s = true -> take (length p) s = p.
Proof.
  intros H. destruct (startswith_prefix _ _ H) as [k ->].
  by rewrite take_app_length.
Qed.

Lemma contains_startswith sub s :
  Py.startswith sub s = true -> Py.contains sub s = true.
Proof. intros H. destruct s; simpl; by rewrite H. Qed.

Lemma contains_intro sub pre post : Py.contains sub (pre ++ sub ++ post) = true.
Proof.
  induction pre as [|c pre IH].
  - rewrite app_nil_l. apply contains_startswith, startswith_app.
  - simpl. rewrite IH. apply orb_true_r.
Qed.

(** The first occurrence: nothing matches at any position before it. *)
Lemma contains_first sub s :
  Py.contains sub s = true ->
  exists pre post, s = pre ++ sub ++ post /\
    forall j, j < length pre -> Py.startswith sub (drop j s) = false.
Proof.
  induction s as [|c s IH]; intros H.
  - simpl in H. rewrite orb_false_r in H.
    destruct (startswith_prefix _ _ H) as [k Hk].
    exists [], k. split; [done|]. simpl. lia.
  - destruct (Py.startswith sub (c :: s)) eqn:E.
    + destruct (startswith_prefix _ _ E) as [k Hk].
      exists [], k. split; [done|]. simpl. lia.
    + cbn [Py.contains] in H. rewrite E in H. simpl in H.
      destruct (IH H) as (pre & post & -> & Hfirst).
      exists (c :: pre), post. split; [done|].
      intros [|j] Hj; [exact E|].
      simpl in Hj. apply Hfirst. lia.
Qed.

Lemma contains_false_drop sub s j :
  Py.contains sub s = false -> Py.startswith sub (drop j s) = false.
Proof.
  revert j. induction s as [|c s IH]; intros j H.
  - rewrite drop_nil. simpl in H. by rewrite orb_false_r in H.
  - cbn [Py.contains] in H. apply orb_false_elim in H as [H0 H1].
    destruct j as [|j]; [exact H0|]. by apply IH.
Qed.

Lemma contains_false_app sub pre post :
  Py.contains sub (pre ++ sub ++ post) = false -> False.
Proof. rewrite contains_intro. done. Qed.

Lemma scan_ext m m' s k :
  (forall t, m t = m' t) -> Py.scan m s k = Py.scan m' s k.
Proof.
  intros E. revert k. induction s as [|c s IH]; intros k; simpl.
  - by rewrite E.
  - destruct k as [|k]; [|apply IH].
    rewrite E. destruct (m' (c :: s)) as [[[|n] r]|]; by rewrite IH.
Qed.

Lemma scan_skip m s k :
  k <= length s -> Py.scan m s k = Py.scan m (drop k s) 0.
Proof.
  revert k. induction s as [|c s IH]; intros [|k] Hk; simpl in *; try done; try lia.
  apply IH. lia.
Qed.

Lemma scan_none m s :
  (forall j, m (drop j s) = None) -> Py.scan m s 0 = s.
Proof.
  induction s as [|c s IH]; intros H; simpl.
  - by rewrite (H 0 : m [] = None).
  - rewrite (H 0 : m (c :: s) = None). f_equal.
    apply IH. intros j. apply (H (S j)).
Qed.

Lemma scan_first m pre t n r :
  (forall j, j < length pre -> m (drop j (pre ++ t)) = None) ->
  m t = Some (n, r) -> 0 < n -> n <= length t ->
  Py.scan m (pre ++ t) 0 = pre ++ r ++ Py.scan m (drop n t) 0.
Proof.
  intros Hpre Hm Hn Hlen. induction pre as [|c pre IH].
  - destruct t as [|c t]; [simpl in Hlen; lia|].
    destruct n as [|n]; [lia|].
    simpl. rewrite Hm. f_equal. apply scan_skip. simpl in Hlen. lia.
  - pose proof (Hpre 0 ltac:(simpl; lia)) as H0. simpl in H0.
    simpl. rewrite H0. f_equal.
    apply IH. intros j Hj. apply (Hpre (S j)). simpl. lia.
Qed.

Lemma replace_absent old new s :
  Py.contains old s = false -> Py.replace old new s = s.
Proof.
  intros H. apply scan_none. intros j. unfold Py.replace_at.
  by rewrite (contains_false_drop _ _ j H).
Qed.

Lemma replace_first old new pre post :
  old <> [] ->
  (forall j, j < length pre -> Py.startswith old (drop j (pre ++ old ++ post)) = false) ->
  Py.replace old new (pre ++ old ++ post) = pre ++ new ++ Py.replace old new post.
Proof.
  intros Hold Hfirst. unfold Py.replace.
  rewrite (scan_first _ pre (old ++ post) (length old) new).
  - by rewrite drop_app_length.
  - intros j Hj. unfold Py.replace_at. by rewrite Hfirst.
  - unfold Py.replace_at. by rewrite startswith_app.
  - destruct old; [done|simpl; lia].
  - rewrite length_app. lia.
Qed.

Lemma first_no_contains old pre post :
  old <> [] ->
  (forall j, j < length pre -> Py.startswith old (drop j (pre ++ old ++ post)) = false) ->
  Py.contains old pre = false.
Proof.
  intros Hold Hfirst. destruct (Py.contains old pre) eqn:E; [|done].
  destruct (contains_first _ _ E) as (a & b & -> & _).
  specialize (Hfirst (length a)).
  rewrite <- !app_assoc, drop_app_length, startswith_app in Hfirst.
  rewrite !length_app in Hfirst.
  destruct old; [done|]. simpl in Hfirst. discriminate Hfirst. lia.
Qed.

Lemma join_cons sep x parts :
  parts <> [] -> Py.join sep (x :: parts) = x ++ sep ++ Py.join sep parts.
Proof. by destruct parts. Qed.

(** [s.replace(old, new)] is [new.join(s.split(old))]: the text falls
    into the pieces between the occurrences of [old], which are kept,
    and the occurrences, each of which is replaced. *)
Lemma replace_join old new s :
  old <> [] ->
  exists parts,
    s = Py.join old parts /\
    Py.replace old new s = Py.join new parts /\
    Forall (fun x => Py.contains old x = false) parts /\
    (if Py.contains old s then 2 <= length parts else parts = [s]).
Proof.
  intros Hold.
  remember (length s) as n eqn:Hn. revert s Hn.
  induction n as [n IH] using lt_wf_ind. intros s ->.
  destruct (Py.contains old s) eqn:E.
  - destruct (contains_first _ _ E) as (pre & post & -> & Hfirst).
    destruct (IH (length post)) with (s := post) as (parts & Hs & Hr & Hall & Hlen).
    { rewrite !length_app. destruct old; [done|simpl; lia]. }
    { done. }
    assert (parts <> []) as Hne.
    { destruct (Py.contains old post); [|by rewrite Hlen].
      destruct parts; [simpl in Hlen; lia|done]. }
    exists (pre :: parts). repeat split.
    + rewrite join_cons by done. by rewrite <- Hs.
    + rewrite replace_first, join_cons by done. by rewrite Hr.
    + constructor; [|done]. by eapply first_no_contains.
    + destruct parts; [done|]. simpl. lia.
  - exists [s]. repeat split; [by apply replace_absent|by repeat constructor].
Qed.

End Primitives.

(** ** Lemmas on the regular expressions *)

Section Regex.

Implicit Types (p s t : text) (r : Re.regex) (tm : Re.template).

Lemma match_here_chars p t :
  Re.match_here (Re.chars p) t =
  if Py.startswith p t then Some (length p, None) else None.
Proof.
  revert t. induction p as [|a p IH]; intros t; [done|].
  destruct t as [|b t]; [done|]. cbn [Re.chars map Re.match_here Py.startswith].
  destruct (Ascii.eqb a b); [|done]. fold (Re.chars p). rewrite IH. simpl.
  by destruct (Py.startswith p t).
Qed.

Lemma match_here_group_chars p t :
  Re.match_here (Re.group (Re.chars p)) t =
  if Py.startswith p t then Some (length p, Some (length p)) else None.
Proof.
  revert t. induction p as [|a p IH]; intros t; [done|].
  destruct t as [|b t]; [done|].
  change (Re.group (Re.chars (a :: p))) with (Re.Chr a :: Re.group (Re.chars p)).
  cbn [Re.match_here Py.startswith].
  destruct (Ascii.eqb a b); [|done]. rewrite IH. simpl.
  by destruct (Py.startswith p t).
Qed.

Lemma sub_at_group_chars p tm t :
  Re.sub_at (Re.group (Re.chars p)) tm t = Py.replace_at p (Re.expand tm p) t.
Proof.
  unfold Re.sub_at, Py.replace_at. rewrite match_here_group_chars.
  destruct (Py.startswith p t) eqn:E; [|done]. simpl.
  by rewrite (startswith_take _ _ E).
Qed.

Lemma sub_at_chars p tm t :
  Re.sub_at (Re.chars p) tm t = Py.replace_at p (Re.expand tm []) t.
Proof.
  unfold Re.sub_at, Py.replace_at. rewrite match_here_chars.
  destruct (Py.startswith p t); [|done]. simpl. by rewrite take_0.
Qed.

(** A pattern that is one group around literal characters: [re.sub] is
    [str.replace] with the template filled in. *)
Lemma sub_group_chars p tm s :
  forallb (Re.titem_ok (Re.groups (Re.group (Re.chars p)))) tm = true ->
  Re.sub (Re.group (Re.chars p)) tm s = Some (Py.replace p (Re.expand tm p) s).
Proof.
  intros Hok. unfold Re.sub. rewrite Hok. f_equal.
  apply scan_ext, sub_at_group_chars.
Qed.

Lemma sub_chars p tm s :
  forallb (Re.titem_ok (Re.groups (Re.chars p))) tm = true ->
  Re.sub (Re.chars p) tm s = Some (Py.replace p (Re.expand tm []) s).
Proof.
  intros Hok. unfold Re.sub. rewrite Hok. f_equal.
  apply scan_ext, sub_at_chars.
Qed.

Lemma search_false r s j :
  Re.search r s = false -> Re.match_here r (drop j s) = None.
Proof.
  revert j. induction s as [|c s IH]; intros j H.
  - rewrite drop_nil. simpl in H. by destruct (Re.match_here r []).
  - cbn [Re.search] in H. destruct (Re.match_here r (c :: s)) eqn:E; [done|].
    destruct j as [|j]; [exact E|]. by apply IH.
Qed.

Lemma search_group_chars p s :
  Re.search (Re.group (Re.chars p)) s = Py.contains p s.
Proof.
  induction s as [|c s IH]; cbn [Re.search Py.contains];
    rewrite match_here_group_chars; destruct (Py.startswith p _); try done.
Qed.

Lemma search_chars p s : Re.search (Re.chars p) s = Py.contains p s.
Proof.
  induction s as [|c s IH]; cbn [Re.search Py.contains];
    rewrite match_here_chars; destruct (Py.startswith p _); try done.
Qed.

(** A pattern that matches nowhere: [re.sub] gives the text back. *)
Lemma sub_not_found r tm s :
  forallb (Re.titem_ok (Re.groups r)) tm = true ->
  Re.search r s = false -> Re.sub r tm s = Some s.
Proof.
  intros Hok H. unfold Re.sub. rewrite Hok. f_equal.
  apply scan_none. intros j. unfold Re.sub_at.
  by rewrite (search_false _ _ j H).
Qed.

End Regex.

(** ** Matches of any pattern *)

Section RegexGeneral.

Implicit Types (r : Re.regex) (t pre : text) (tm : Re.template).

Lemma bump_some x n g :
  Re.bump x = Some (n, g) ->
  exists n' g', x = Some (n', g') /\ n = S n' /\ g = S <$> g'.
Proof.
  destruct x as [[n' g']|]; [|done]. simpl. intros [= <- <-]. by exists n', g'.
Qed.

(** A match never runs past the end of the text, and its group never
    past the end of the match. *)
Lemma match_here_bound r t n g :
  Re.match_here r t = Some (n, g) ->
  n <= length t /\ forall k, g = Some k -> k <= n.
Proof.
  revert t n g. induction r as [|i r IH]; intros t n g H.
  - injection H as <- <-. split; [lia|done].
  - destruct i; cbn [Re.match_here] in H.
    + destruct t as [|c' t]; [done|]. destruct (Ascii.eqb c c'); [|done].
      apply bump_some in H as (n' & g' & H & -> & ->).
      destruct (IH _ _ _ H) as [Hn Hg]. split; [simpl; lia|].
      intros k Hk. destruct g' as [k'|]; [|done]. injection Hk as <-.
      specialize (Hg k' eq_refl). lia.
    + revert n g H. induction t as [|c t IHt]; intros n g H.
      * destruct (Re.match_here r []) as [x|] eqn:E; [|done].
        injection H as ->. by apply IH.
      * destruct (Re.match_here r (c :: t)) as [x|] eqn:E.
        { injection H as ->. by apply IH. }
        apply bump_some in H as (n' & g' & H & -> & ->).
        destruct (IHt _ _ H) as [Hn Hg]. split; [simpl; lia|].
        intros k Hk. destruct g' as [k'|]; [|done]. injection Hk as <-.
        specialize (Hg k' eq_refl). lia.
    + destruct t as [|c0 t]; [done|].
      apply bump_some in H as (n' & g' & H & -> & ->).
      assert (n' <= length t /\ forall k, g' = Some k -> k <= n') as [Hn Hg].
      { clear c0. revert n' g' H. induction t as [|c t IHt]; intros n g H.
        - destruct (Re.match_here r []) as [x|] eqn:E; [|done].
          injection H as ->. by apply IH.
        - destruct (Re.match_here r (c :: t)) as [x|] eqn:E.
          { injection H as ->. by apply IH. }
          apply bump_some in H as (n' & g' & H & -> & ->).
          destruct (IHt _ _ H) as [Hn Hg]. split; [simpl; lia|].
          intros k Hk. destruct g' as [k'|]; [|done]. injection Hk as <-.
          specialize (Hg k' eq_refl). lia. }
      split; [simpl; lia|].
      intros k Hk. destruct g' as [k'|]; [|done]. injection Hk as <-.
      specialize (Hg k' eq_refl). lia.
    + destruct (Re.match_here r t) as [[n' g']|] eqn:E; [|done].
      injection H as <- <-. destruct (IH _ _ _ E) as [Hn _].
      split; [done|]. intros k [= <-]. lia.
    + destruct (Re.at_end t); [|done]. by apply IH.
Qed.

(** The first match of a pattern: the text before it is kept, the match
    is replaced by the template, and the substitution goes on after the
    match. *)
Lemma sub_first r tm pre t n g :
  forallb (Re.titem_ok (Re.groups r)) tm = true ->
  (forall j, j < length pre -> Re.match_here r (drop j (pre ++ t)) = None) ->
  Re.match_here r t = Some (n, g) -> 0 < n ->
  Re.sub r tm (pre ++ t) =
  Some (pre ++ Re.expand tm (take (default 0 g) t) ++
        Py.scan (Re.sub_at r tm) (drop n t) 0).
Proof.
  intros Hok Hpre Hm Hn. unfold Re.sub. rewrite Hok. f_equal.
  apply (scan_first _ pre t n).
  - intros j Hj. unfold Re.sub_at. by rewrite Hpre.
  - unfold Re.sub_at. by rewrite Hm.
  - done.
  - by destruct (match_here_bound _ _ _ _ Hm).
Qed.

(** A group around the whole pattern spans the whole match. *)
Lemma match_here_group r t n g :
  forallb (fun i => negb (Re.is_group_end i)) r = true ->
  Re.match_here (Re.group r) t = Some (n, g) -> g = Some n.
Proof.
  revert t n g. induction r as [|i r IH]; intros t n g Hr H.
  - by injection H as <- <-.
  - cbn [forallb] in Hr. apply andb_prop in Hr as [Hi Hr].
    change (Re.group (i :: r)) with (i :: Re.group r) in H.
    destruct i; cbn [Re.match_here] in H; [| | |done|].
    + destruct t as [|c' t]; [done|]. destruct (Ascii.eqb c c'); [|done].
      apply bump_some in H as (n' & g' & H & -> & ->).
      by rewrite (IH _ _ _ Hr H).
    + revert n g H. induction t as [|c t IHt]; intros n g H.
      * destruct (Re.match_here (Re.group r) []) as [[n' g']|] eqn:E; [|done].
        injection H as <- <-. by apply (IH _ _ _ Hr E).
      * destruct (Re.match_here (Re.group r) (c :: t)) as [[n' g']|] eqn:E.
        { injection H as <- <-. by apply (IH _ _ _ Hr E). }
        apply bump_some in H as (n' & g' & H & -> & ->).
        by rewrite (IHt _ _ H).
    + destruct t as [|c0 t]; [done|].
      apply bump_some in H as (n' & g' & H & -> & ->).
      enough (g' = Some n') as -> by done.
      clear c0. revert n' g' H. induction t as [|c t IHt]; intros n g H.
      * destruct (Re.match_here (Re.group r) []) as [[n' g']|] eqn:E; [|done].
        injection H as <- <-. by apply (IH _ _ _ Hr E).
      * destruct (Re.match_here (Re.group r) (c :: t)) as [[n' g']|] eqn:E.
        { injection H as <- <-. by apply (IH _ _ _ Hr E). }
        apply bump_some in H as (n' & g' & H & -> & ->).
        by rewrite (IHt _ _ H).
    + destruct (Re.at_end t); [|done]. by apply (IH t).
Qed.

(** [patch_ios_agents_views.py] inserts after a pattern that is not a
    literal: at the first match the matched section is kept as it is,
    the workspace section follows it at once, and the text before the
    match is untouched. *)
Lemma patch_ios_agents_views_keeps_section pre t n g :
  (forall j, j < length pre ->
     Re.match_here patch_ios_agents_views.pattern (drop j (pre ++ t)) = None) ->
  Re.match_here patch_ios_agents_views.pattern t = Some (n, g) ->
  exists rest,
    patch_ios_agents_views.patch (pre ++ t) =
    Some (pre ++ take n t ++ patch_ios_agents_views.workspace_section ++ rest).
Proof.
  intros Hpre Hm.
  assert (g = Some n) as ->.
  { unfold patch_ios_agents_views.pattern in Hm.
    eapply match_here_group; [|exact Hm]. by vm_compute. }
  assert (0 < n) as Hn.
  { destruct n; [|lia]. exfalso. destruct t as [|c t]; [done|].
    unfold patch_ios_agents_views.pattern in Hm.
    cbn [Re.group Re.chars lit list_ascii_of_string map app Re.match_here] in Hm.
    destruct (Ascii.eqb _ c); [|done].
    by apply bump_some in Hm as (? & ? & _ & ? & _). }
  eexists. unfold patch_ios_agents_views.patch.
  rewrite (sub_first _ _ pre t n (Some n)); [|by vm_compute|done..].
  cbn [default patch_ios_agents_views.replacement Re.expand].
  by rewrite app_nil_r, <- !app_assoc.
Qed.

End RegexGeneral.

(** ** What each step computes *)

Section Steps.

Implicit Types (content old new t : text) (w : IO.world).

Lemma re_result_runs t : runs_to (IO.re_result (Some t)) t.
Proof. intros w. by exists w. Qed.

Lemma mret_runs t : runs_to (mret t) t.
Proof. intros w. by exists w. Qed.

Lemma guarded_replace_runs old new msg content :
  runs_to (if Py.contains old content
           then mret (Py.replace old new content)
           else IO.print msg;; mret content)
          (Py.replace old new content).
Proof.
  destruct (Py.contains old content) eqn:E.
  - apply mret_runs.
  - rewrite (replace_absent _ _ _ E). intros w. eexists. split; done.
Qed.

Lemma fix_diane_client_patch content :
  fix_diane_client.patch content =
  Some (Py.replace fix_diane_client.marker
          (fix_diane_client.marker ++ fix_diane_client.add_func) content).
Proof.
  unfold fix_diane_client.patch, fix_diane_client.pattern, fix_diane_client.template.
  rewrite sub_group_chars by (by vm_compute).
  cbn [Re.expand]. by rewrite app_nil_r.
Qed.

Lemma fix_diane_client2_patch content :
  fix_diane_client2.patch content =
  Some (if Py.contains fix_diane_client2.signature content then content
        else Py.replace fix_diane_client2.marker
               ((fix_diane_client2.add_func ++ nl) ++ fix_diane_client2.marker)
               content).
Proof.
  unfold fix_diane_client2.patch, fix_diane_client2.pattern, fix_diane_client2.template.
  destruct (Py.contains _ content); [done|]. cbn [negb].
  rewrite sub_group_chars by (by vm_compute).
  cbn [Re.expand]. by rewrite app_nil_r, <- app_assoc.
Qed.

Lemma fix_diane_client4_patch content :
  fix_diane_client4.patch content =
  Some (Py.replace fix_diane_client4.old_func
          (Py.strip nl fix_diane_client4.add_func) content).
Proof.
  unfold fix_diane_client4.patch, fix_diane_client4.pattern, fix_diane_client4.template.
  rewrite sub_group_chars by (by vm_compute).
  cbn [Re.expand]. by rewrite app_nil_r.
Qed.

Lemma fix_diane_client9_inject content :
  fix_diane_client9.inject content =
  Some (if Py.contains fix_diane_client9.signature content then content
        else Py.replace fix_diane_client9.marker
               ((fix_diane_client9.add_func ++ nl) ++ fix_diane_client9.marker)
               content).
Proof.
  unfold fix_diane_client9.inject, fix_diane_client9.pattern, fix_diane_client9.template.
  destruct (Py.contains _ content); [done|]. cbn [negb].
  rewrite sub_group_chars by (by vm_compute).
  cbn [Re.expand]. by rewrite app_nil_r, <- app_assoc.
Qed.

Lemma fix_diane_client9_cleanup_total content :
  fix_diane_client9.cleanup content =
  Some (Py.scan (Re.sub_at fix_diane_client9.cleanup_pattern
                   fix_diane_client9.cleanup_template) content 0).
Proof. done. Qed.

Lemma fix_diane_client10_patch content :
  fix_diane_client10.patch content =
  if Py.contains fix_diane_client10.signature content then content
  else Py.replace fix_diane_client10.marker
         ((fix_diane_client10.add_func ++ nl) ++ fix_diane_client10.marker)
         content.
Proof.
  unfold fix_diane_client10.patch.
  destruct (Py.contains _ content); [done|]. cbn [negb].
  by rewrite <- app_assoc.
Qed.

Lemma patch_ios_agents_views_patch_total content :
  patch_ios_agents_views.patch content =
  Some (Py.scan (Re.sub_at patch_ios_agents_views.pattern
                   patch_ios_agents_views.replacement) content 0).
Proof. done. Qed.

Lemma fix_http_client_sub_stub stub new content :
  fix_http_client.sub_stub stub new content =
  Some (Py.replace stub (Py.strip nl new) content).
Proof.
  unfold fix_http_client.sub_stub. rewrite sub_chars by done.
  cbn [Re.expand]. by rewrite app_nil_r.
Qed.

End Steps.

(** ** The steps by kind *)

Section Tables.

Implicit Types (content old new t : text) (rs : replace_step) (i : insert_step).

Lemma runs_to_ext (m : io text) t t' : t = t' -> runs_to m t -> runs_to m t'.
Proof. by intros ->. Qed.

Lemma runs_to_inj (m : io text) t t' : runs_to m t -> runs_to m t' -> t = t'.
Proof.
  intros H H'. destruct (H (IO.World ∅ [])) as (w1 & E & _).
  destruct (H' (IO.World ∅ [])) as (w2 & E' & _). congruence.
Qed.

Lemma sub_outcome_group_chars p content :
  sub_outcome (Re.group (Re.chars p)) content = replace_outcome p content.
Proof. unfold sub_outcome, replace_outcome. by rewrite search_group_chars. Qed.

Lemma sub_outcome_chars p content :
  sub_outcome (Re.chars p) content = replace_outcome p content.
Proof. unfold sub_outcome, replace_outcome. by rewrite search_chars. Qed.

Lemma replace_outcome_applied old content :
  replace_outcome old content = applied -> Py.contains old content = true.
Proof. unfold replace_outcome. by destruct (Py.contains old content). Qed.

Lemma guarded_outcome_applied sig o content :
  guarded_outcome sig o content = applied ->
  Py.contains sig content = false /\ o content = applied.
Proof. unfold guarded_outcome. by destruct (Py.contains sig content). Qed.

Lemma stub_step_substitutes stub new :
  stub <> [] ->
  substitutes (ReplaceStep stub (Py.strip nl new) (fix_http_client.stub_step stub new)).
Proof.
  intros Hne. split; [done|]. intros content H.
  cbn [rs_step rs_old rs_new fix_http_client.stub_step step_outcome step_run] in *.
  rewrite sub_outcome_chars in H. split; [by apply replace_outcome_applied|].
  rewrite fix_http_client_sub_stub. apply re_result_runs.
Qed.

Lemma guarded_step_substitutes old new msg :
  old <> [] ->
  substitutes (ReplaceStep old new
    (Step (replace_outcome old)
          (fun content =>
             if Py.contains old content
             then mret (Py.replace old new content)
             else IO.print msg;; mret content))).
Proof.
  intros Hne. split; [done|]. intros content H.
  cbn [rs_step rs_old rs_new step_outcome step_run] in *.
  split; [by apply replace_outcome_applied|]. apply guarded_replace_runs.
Qed.

Lemma replace_steps_substitute rs : In rs replace_steps -> substitutes rs.
Proof.
  unfold replace_steps. intros H.
  repeat (destruct H as [<-|H]); [| | | | | | | | | |exfalso; exact H].
  - split; [by vm_compute|]. intros content H.
    cbn [rs_step rs_old rs_new fix_diane_client4.swap step_outcome step_run] in *.
    unfold fix_diane_client4.outcome, fix_diane_client4.pattern in H.
    rewrite sub_outcome_group_chars in H.
    split; [by apply replace_outcome_applied|].
    rewrite fix_diane_client4_patch. apply re_result_runs.
  - apply guarded_step_substitutes; by vm_compute.
  - apply guarded_step_substitutes; by vm_compute.
  - apply guarded_step_substitutes; by vm_compute.
  - apply guarded_step_substitutes; by vm_compute.
  - apply stub_step_substitutes; by vm_compute.
  - apply stub_step_substitutes; by vm_compute.
  - apply stub_step_substitutes; by vm_compute.
  - apply stub_step_substitutes; by vm_compute.
  - apply stub_step_substitutes; by vm_compute.
Qed.

Lemma insert_steps_substitute i : In i insert_steps -> substitutes (as_replace i).
Proof.
  unfold insert_steps. intros H.
  repeat (destruct H as [<-|H]); [| | | |exfalso; exact H];
    (split; [by vm_compute|]); intros content H;
    cbn [as_replace is_anchor is_side is_inserted is_step adjacent
         rs_step rs_old rs_new step_outcome step_run
         fix_diane_client.insert fix_diane_client2.insert
         fix_diane_client9.inject_step fix_diane_client10.insert] in *.
  - unfold fix_diane_client.outcome, fix_diane_client.pattern in H.
    rewrite sub_outcome_group_chars in H.
    split; [by apply replace_outcome_applied|].
    rewrite fix_diane_client_patch. apply re_result_runs.
  - unfold fix_diane_client2.outcome, fix_diane_client2.pattern in H.
    apply guarded_outcome_applied in H as [Hsig H].
    rewrite sub_outcome_group_chars in H.
    split; [by apply replace_outcome_applied|].
    rewrite fix_diane_client2_patch, Hsig. apply re_result_runs.
  - unfold fix_diane_client9.inject_outcome, fix_diane_client9.pattern in H.
    apply guarded_outcome_applied in H as [Hsig H].
    rewrite sub_outcome_group_chars in H.
    split; [by apply replace_outcome_applied|].
    rewrite fix_diane_client9_inject, Hsig. apply re_result_runs.
  - unfold fix_diane_client10.outcome in H.
    apply guarded_outcome_applied in H as [Hsig H].
    split; [by apply replace_outcome_applied|].
    rewrite fix_diane_client10_patch, Hsig. apply mret_runs.
Qed.

Lemma substitutions_substitute rs : In rs substitutions -> substitutes rs.
Proof.
  unfold substitutions. intros H. apply in_app_or in H as [H|H].
  - by apply replace_steps_substitute.
  - apply in_map_iff in H as (i & <- & Hi). by apply insert_steps_substitute.
Qed.

End Tables.

(** ** Substitution: which occurrences, and what stays *)

(** C4, as the specification states it, fails on the disabled-state step
    of [patch_agents_view.py]: on a text that holds the old modifier
    twice, the step rewrites both occurrences; its result is not the text
    with the first occurrence rewritten and the second left as it was. *)
Lemma first_occurrence_only_refuted :
  let old := patch_agents_view.old_disabled in
  let new := patch_agents_view.new_disabled in
  patch_agents_view.disabled_outcome (old ++ old) = applied /\
  runs_to (patch_agents_view.update_disabled (old ++ old)) (new ++ new) /\
  ~ runs_to (patch_agents_view.update_disabled (old ++ old)) (new ++ old).
Proof.
  cbv zeta.
  assert (runs_to (patch_agents_view.update_disabled
                     (patch_agents_view.old_disabled ++
                      patch_agents_view.old_disabled))
                  (patch_agents_view.new_disabled ++
                   patch_agents_view.new_disabled)) as Hrun.
  { eapply runs_to_ext; [|apply guarded_replace_runs]. by vm_compute. }
  split; [by vm_compute|]. split; [exact Hrun|].
  intros Hbad. pose proof (runs_to_inj _ _ _ Hrun Hbad) as E.
  apply app_inv_head in E. by vm_compute in E.
Qed.

(** C4 (amended): a step whose pattern occurs more than once substitutes
    at every non-overlapping occurrence, taken in document order from the
    first: the text before the first occurrence is kept, the first
    occurrence is substituted, and the text after it is substituted in
    the same way, so that later occurrences are rewritten as well. *)
Theorem substitutes_every_occurrence rs (pre post : text) :
  In rs substitutions ->
  (forall j, j < length pre ->
     Py.startswith (rs_old rs) (drop j (pre ++ rs_old rs ++ post)) = false) ->
  step_outcome (rs_step rs) (pre ++ rs_old rs ++ post) = applied ->
  runs_to (step_run (rs_step rs) (pre ++ rs_old rs ++ post))
          (pre ++ rs_new rs ++ Py.replace (rs_old rs) (rs_new rs) post).
Proof.
  intros Hin Hfirst Happlied.
  destruct (substitutions_substitute rs Hin) as [Hne Hrun].
  destruct (Hrun _ Happlied) as [_ Hto].
  eapply runs_to_ext; [|exact Hto]. by apply replace_first.
Qed.

Lemma substitutes_every_occurrence_witness :
  let rs := ReplaceStep patch_agents_view.old_disabled
              patch_agents_view.new_disabled patch_agents_view.disabled_step in
  runs_to (step_run (rs_step rs) ([] ++ rs_old rs ++ rs_old rs))
          ([] ++ rs_new rs ++ Py.replace (rs_old rs) (rs_new rs) (rs_old rs)).
Proof.
  cbv zeta.
  apply (substitutes_every_occurrence
           (ReplaceStep patch_agents_view.old_disabled
              patch_agents_view.new_disabled patch_agents_view.disabled_step)
           [] patch_agents_view.old_disabled).
  - unfold substitutions, replace_steps. apply in_or_app. left.
    simpl. right. right. left. reflexivity.
  - simpl. intros j Hj. lia.
  - by vm_compute.
Defined.

(** C5: when a replace-span step applies, the text falls into the pieces
    around the matched spans; the output is the same pieces, byte for
    byte and in the same order, with the rendered template in the place
    of each matched span. *)
Theorem replace_span_keeps_outside rs (content : text) :
  In rs replace_steps ->
  step_outcome (rs_step rs) content = applied ->
  exists parts,
    2 <= length parts /\
    content = Py.join (rs_old rs) parts /\
    Forall (fun x => Py.contains (rs_old rs) x = false) parts /\
    runs_to (step_run (rs_step rs) content) (Py.join (rs_new rs) parts).
Proof.
  intros Hin Happlied.
  destruct (replace_steps_substitute rs Hin) as [Hne Hrun].
  destruct (Hrun _ Happlied) as [Hocc Hto].
  destruct (replace_join (rs_old rs) (rs_new rs) content Hne)
    as (parts & Hc & Hr & Hall & Hlen).
  rewrite Hocc in Hlen. exists parts. repeat split; try done.
  by rewrite <- Hr.
Qed.

Lemma replace_span_keeps_outside_witness :
  let rs := ReplaceStep patch_agents_view_model.old_add
              patch_agents_view_model.new_add patch_agents_view_model.config_step in
  exists parts,
    2 <= length parts /\
    lit "a" ++ rs_old rs ++ lit "b" = Py.join (rs_old rs) parts /\
    Forall (fun x => Py.contains (rs_old rs) x = false) parts /\
    runs_to (step_run (rs_step rs) (lit "a" ++ rs_old rs ++ lit "b"))
            (Py.join (rs_new rs) parts).
Proof.
  cbv zeta.
  apply (replace_span_keeps_outside
           (ReplaceStep patch_agents_view_model.old_add
              patch_agents_view_model.new_add patch_agents_view_model.config_step)).
  - unfold replace_steps. simpl. do 4 right. left. reflexivity.
  - by vm_compute.
Defined.

(** C6: when an insert-adjacent step applies, the anchor still stands in
    the output at each place where it stood, unmodified, with the new
    text immediately before or after it and the pieces around the
    anchors unchanged. *)
Theorem insert_keeps_anchor i (content : text) :
  In i insert_steps ->
  step_outcome (is_step i) content = applied ->
  exists parts,
    2 <= length parts /\
    content = Py.join (is_anchor i) parts /\
    Forall (fun x => Py.contains (is_anchor i) x = false) parts /\
    runs_to (step_run (is_step i) content)
            (Py.join (adjacent (is_side i) (is_inserted i) (is_anchor i)) parts).
Proof.
  intros Hin Happlied.
  destruct (insert_steps_substitute i Hin) as [Hne Hrun].
  destruct (Hrun _ Happlied) as [Hocc Hto].
  destruct (replace_join (is_anchor i)
              (adjacent (is_side i) (is_inserted i) (is_anchor i)) content Hne)
    as (parts & Hc & Hr & Hall & Hlen).
  cbn [as_replace rs_old rs_new rs_step] in *.
  rewrite Hocc in Hlen. exists parts. repeat split; try done.
  by rewrite <- Hr.
Qed.

Lemma insert_keeps_anchor_witness :
  let i := InsertStep before fix_diane_client10.marker
             (fix_diane_client10.add_func ++ nl) fix_diane_client10.insert in
  exists parts,
    2 <= length parts /\
    lit "class A {" ++ nl ++ is_anchor i ++ lit "}" = Py.join (is_anchor i) parts /\
    Forall (fun x => Py.contains (is_anchor i) x = false) parts /\
    runs_to (step_run (is_step i) (lit "class A {" ++ nl ++ is_anchor i ++ lit "}"))
            (Py.join (adjacent (is_side i) (is_inserted i) (is_anchor i)) parts).
Proof.
  cbv zeta.
  apply (insert_keeps_anchor
           (InsertStep before fix_diane_client10.marker
              (fix_diane_client10.add_func ++ nl) fix_diane_client10.insert)).
  - unfold insert_steps. simpl. do 3 right. left. reflexivity.
  - by vm_compute.
Defined.

(** ** Scripts as pipelines of steps *)

Section Pipelines.

Implicit Types (content t : text) (w : IO.world) (st : step) (sc : script).

Ltac run_io H :=
  repeat match type of H with
  | context [if Py.contains ?a ?b then _ else _] => destruct (Py.contains a b)
  | context [let (_, _) := ?x in _] => destruct x as [[?|?] ?]; [discriminate H|]
  end.

Ltac unfold_scripts :=
  unfold fix_diane_client.main, fix_diane_client.steps, fix_diane_client.insert,
    fix_diane_client2.main, fix_diane_client2.steps, fix_diane_client2.insert,
    fix_diane_client3.main, fix_diane_client3.steps, fix_diane_client3.append,
    fix_diane_client4.main, fix_diane_client4.steps, fix_diane_client4.swap,
    fix_diane_client9.main, fix_diane_client9.steps, fix_diane_client9.cleanup_step,
    fix_diane_client9.inject_step,
    fix_diane_client10.main, fix_diane_client10.steps, fix_diane_client10.insert,
    patch_agents_view.main, patch_agents_view.steps, patch_agents_view.fields_step,
    patch_agents_view.disabled_step, patch_agents_view.update_fields,
    patch_agents_view.update_disabled,
    patch_agents_view_model.main, patch_agents_view_model.steps,
    patch_agents_view_model.props_step, patch_agents_view_model.config_step,
    patch_agents_view_model.add_props, patch_agents_view_model.add_config,
    patch_ios_agents_views.main, patch_ios_agents_views.steps,
    patch_ios_agents_views.insert,
    fix_http_client.main, fix_http_client.steps, fix_http_client.stub_step in *.

Lemma main_after_steps sc w content final w1 :
  In sc scripts ->
  IO.files w !! script_path sc = Some content ->
  run_steps (script_steps sc) content w = (inr final, w1) ->
  IO.files w1 = IO.files w ->
  exists w', script_main sc w = (inr tt, w') /\
             IO.files w' = <[script_path sc := final]> (IO.files w).
Proof.
  unfold scripts. intros Hin Hfile Hrun Hfiles.
  repeat (destruct Hin as [<-|Hin]); [| | | | | | | | | |exfalso; exact Hin];
    cbn [script_path script_steps script_main] in *;
    unfold_scripts; cbn [run_steps step_run] in Hrun;
    unfold mbind, mret, IO.io_bind, IO.io_ret, IO.read, IO.print in *;
    rewrite Hfile; cbn beta iota in *;
    run_io Hrun; cbn beta iota in *; injection Hrun as ? ?; subst final w1.
  all: try (unfold IO.write; cbn beta iota; eexists; split; [reflexivity|];
            cbn [IO.files]; by rewrite ?Hfiles).
  case_bool_decide as Hne; unfold IO.write; cbn beta iota;
    (eexists; split; [reflexivity|]); cbn [IO.files]; rewrite ?Hfiles; [done|].
  subst. symmetry. by apply insert_id.
Qed.


Lemma sub_step_ok r tm :
  forallb (Re.titem_ok (Re.groups r)) tm = true ->
  step_ok (Step (sub_outcome r) (fun content => IO.re_result (Re.sub r tm content))).
Proof.
  intros Hok. split; intros content; cbn [step_outcome step_run].
  - unfold Re.sub. rewrite Hok. eexists. apply re_result_runs.
  - intros H. rewrite sub_not_found; [apply re_result_runs|done|].
    unfold sub_outcome in H. by destruct (Re.search r content).
Qed.

Lemma guarded_sub_step_ok sig r tm :
  forallb (Re.titem_ok (Re.groups r)) tm = true ->
  step_ok (Step (guarded_outcome sig (sub_outcome r))
             (fun content =>
                IO.re_result (if negb (Py.contains sig content)
                              then Re.sub r tm content
                              else Some content))).
Proof.
  intros Hok. split; intros content; cbn [step_outcome step_run];
    unfold guarded_outcome; destruct (Py.contains sig content); cbn [negb].
  - eexists. apply re_result_runs.
  - apply (sub_step_ok r tm Hok).
  - intros _. apply re_result_runs.
  - apply (sub_step_ok r tm Hok).
Qed.

Lemma print_step_ok old new msg :
  step_ok (Step (replace_outcome old)
             (fun content =>
                if Py.contains old content
                then mret (Py.replace old new content)
                else IO.print msg;; mret content)).
Proof.
  split; intros content; cbn [step_outcome step_run].
  - eexists. apply guarded_replace_runs.
  - intros H. eapply runs_to_ext; [|apply guarded_replace_runs].
    apply replace_absent. unfold replace_outcome in H.
    by destruct (Py.contains old content).
Qed.

Lemma fix_diane_client10_insert_ok : step_ok fix_diane_client10.insert.
Proof.
  split; intros content; cbn [fix_diane_client10.insert step_outcome step_run].
  - eexists. apply mret_runs.
  - intros H. eapply runs_to_ext; [|apply mret_runs].
    rewrite fix_diane_client10_patch.
    unfold fix_diane_client10.outcome, guarded_outcome, replace_outcome in H.
    destruct (Py.contains fix_diane_client10.signature content); [done|].
    apply replace_absent.
    by destruct (Py.contains fix_diane_client10.marker content).
Qed.

Lemma fix_diane_client3_append_ok : step_ok fix_diane_client3.append.
Proof.
  split; intros content; cbn [fix_diane_client3.append step_outcome step_run].
  - eexists. apply mret_runs.
  - done.
Qed.

Lemma steps_ok sc st : In sc scripts -> In st (script_steps sc) -> step_ok st.
Proof.
  unfold scripts. intros Hsc Hst.
  repeat (destruct Hsc as [<-|Hsc]); [| | | | | | | | | |exfalso; exact Hsc];
    cbn [script_steps] in Hst.
  - destruct Hst as [<-|[]].
    apply (sub_step_ok fix_diane_client.pattern fix_diane_client.template).
    by vm_compute.
  - destruct Hst as [<-|[]].
    apply (guarded_sub_step_ok fix_diane_client2.signature
             fix_diane_client2.pattern fix_diane_client2.template).
    by vm_compute.
  - destruct Hst as [<-|[]]. apply fix_diane_client3_append_ok.
  - destruct Hst as [<-|[]].
    apply (sub_step_ok fix_diane_client4.pattern fix_diane_client4.template).
    by vm_compute.
  - destruct Hst as [<-|[<-|[]]].
    + apply (sub_step_ok fix_diane_client9.cleanup_pattern
               fix_diane_client9.cleanup_template).
      by vm_compute.
    + apply (guarded_sub_step_ok fix_diane_client9.signature
               fix_diane_client9.pattern fix_diane_client9.template).
      by vm_compute.
  - destruct Hst as [<-|[]]. apply fix_diane_client10_insert_ok.
  - destruct Hst as [<-|[<-|[]]]; apply print_step_ok.
  - destruct Hst as [<-|[<-|[]]]; apply print_step_ok.
  - destruct Hst as [<-|[]].
    apply (sub_step_ok patch_ios_agents_views.pattern
             patch_ios_agents_views.replacement).
    by vm_compute.
  - repeat (destruct Hst as [<-|Hst]); [| | | | |exfalso; exact Hst];
      apply sub_step_ok; by vm_compute.
Qed.

(** A pipeline of sound steps never raises and leaves the files alone. *)
Lemma run_steps_total steps content :
  Forall step_ok steps -> exists t, runs_to (run_steps steps content) t.
Proof.
  intros Hall. revert content. induction Hall as [|st steps [Hst _] _ IH];
    intros content.
  - exists content. apply mret_runs.
  - destruct (Hst content) as [t Ht]. destruct (IH t) as [t' Ht'].
    exists t'. intros w. cbn [run_steps]. unfold mbind, IO.io_bind.
    destruct (Ht w) as (w1 & -> & Hf1). destruct (Ht' w1) as (w2 & -> & Hf2).
    exists w2. split; [done|]. by rewrite Hf2.
Qed.

End Pipelines.

(** ** Outcomes that change nothing, and patterns that do not match *)

(** C3: when the outcome of a step is [not_found] or [skipped], the
    text the step hands on is the text it was given, and no file is
    changed. *)
Theorem noop_preserves_text sc st (content : text) :
  In sc scripts -> In st (script_steps sc) ->
  step_outcome st content = not_found \/ step_outcome st content = skipped ->
  runs_to (step_run st content) content.
Proof.
  intros Hsc Hst Hout. destruct (steps_ok sc st Hsc Hst) as [_ Hnoop].
  apply Hnoop. by destruct Hout as [-> | ->].
Qed.

Lemma noop_preserves_text_witness :
  runs_to (step_run patch_agents_view.fields_step (lit "struct AgentsView {}"))
          (lit "struct AgentsView {}").
Proof.
  apply (noop_preserves_text
           (Script patch_agents_view.path patch_agents_view.steps
                   patch_agents_view.main)).
  - unfold scripts. simpl. do 6 right. left. reflexivity.
  - simpl. left. reflexivity.
  - left. by vm_compute.
Defined.

(** C7: whatever the text of the file, and so also when no pattern
    matches, no step of a script raises: every step is run, in order, on
    the text the step before it left, whatever that step's outcome, and
    the script ends normally with the last text in the file. *)
Theorem not_found_never_raises sc (w : IO.world) (content : text) :
  In sc scripts ->
  IO.files w !! script_path sc = Some content ->
  exists final w1 w',
    run_steps (script_steps sc) content w = (inr final, w1) /\
    script_main sc w = (inr tt, w') /\
    IO.files w' = <[script_path sc := final]> (IO.files w).
Proof.
  intros Hsc Hfile.
  destruct (run_steps_total (script_steps sc) content) as [final Hfinal].
  { apply Forall_forall. intros st Hst. apply list_elem_of_In in Hst.
    by apply (steps_ok sc). }
  destruct (Hfinal w) as (w1 & Hrun & Hfiles).
  destruct (main_after_steps sc w content final w1 Hsc Hfile Hrun Hfiles)
    as (w' & Hmain & Hw').
  by exists final, w1, w'.
Qed.

Lemma not_found_never_raises_witness :
  let sc := Script patch_agents_view.path patch_agents_view.steps
                   patch_agents_view.main in
  let w := one_file patch_agents_view.path (lit "struct AgentsView {}") in
  exists final w1 w',
    run_steps (script_steps sc) (lit "struct AgentsView {}") w = (inr final, w1) /\
    script_main sc w = (inr tt, w') /\
    IO.files w' = <[script_path sc := final]> (IO.files w).
Proof.
  cbv zeta.
  apply (not_found_never_raises
           (Script patch_agents_view.path patch_agents_view.steps
                   patch_agents_view.main)).
  - unfold scripts. simpl. do 6 right. left. reflexivity.
  - apply lookup_singleton_eq.
Defined.

(** ** Running a script twice *)

Section Guarded.

Implicit Types (sig old new content : text).

Lemma contains_middle sig new (a b : text) :
  Py.contains sig new = true -> Py.contains sig (a ++ new ++ b) = true.
Proof.
  intros H. destruct (contains_first _ _ H) as (x & y & -> & _).
  replace (a ++ (x ++ sig ++ y) ++ b) with ((a ++ x) ++ sig ++ (y ++ b))
    by (by rewrite <- !app_assoc).
  apply contains_intro.
Qed.

(** An insertion guarded by the signature of what it inserts does
    nothing the second time. *)
Lemma guarded_replace_idempotent sig old new content :
  old <> [] -> Py.contains sig new = true ->
  let f x := if Py.contains sig x then x else Py.replace old new x in
  f (f content) = f content.
Proof.
  intros Hne Hsig f. unfold f.
  destruct (Py.contains sig content) eqn:E; [by rewrite E|].
  destruct (Py.contains old content) eqn:Eold.
  - destruct (contains_first _ _ Eold) as (pre & post & -> & Hfirst).
    rewrite replace_first by done.
    by rewrite (contains_middle sig new pre _ Hsig).
  - rewrite (replace_absent _ _ _ Eold), E. by apply replace_absent.
Qed.

Lemma fix_diane_client2_idempotent content :
  fix_diane_client2.patch content ≫= fix_diane_client2.patch =
  fix_diane_client2.patch content.
Proof.
  rewrite (fix_diane_client2_patch content). cbn [mbind option_bind].
  rewrite fix_diane_client2_patch. f_equal.
  apply (guarded_replace_idempotent fix_diane_client2.signature
           fix_diane_client2.marker); by vm_compute.
Qed.

Lemma fix_diane_client10_idempotent content :
  fix_diane_client10.patch (fix_diane_client10.patch content) =
  fix_diane_client10.patch content.
Proof.
  rewrite (fix_diane_client10_patch content), fix_diane_client10_patch.
  apply (guarded_replace_idempotent fix_diane_client10.signature
           fix_diane_client10.marker); by vm_compute.
Qed.

End Guarded.

(** C1: [fix_diane_client.py] has no guard.  On a file that is just the
    marker line the first run inserts the function, and the second run,
    whose outcome is [applied] again and not [skipped], inserts it a
    second time: the text after the second run is not the text after the
    first. *)
Theorem fix_diane_client_second_run_inserts_again :
  let first := fix_diane_client.marker ++ fix_diane_client.add_func in
  fix_diane_client.outcome fix_diane_client.marker = applied /\
  fix_diane_client.patch fix_diane_client.marker = Some first /\
  fix_diane_client.outcome first = applied /\
  fix_diane_client.patch first = Some (first ++ fix_diane_client.add_func) /\
  first ++ fix_diane_client.add_func <> first.
Proof.
  cbv zeta. repeat split; by vm_compute.
Qed.

(** C9: the guard of [fix_diane_client9.py] does not make the script
    idempotent, because the cleanup substitution runs before it.  On a
    class whose last member closes just before the closing brace of the
    class, the first run inserts the function before the marker; on the
    second run the cleanup pattern matches from the inserted function to
    the end of the file and only a brace is left. *)
Theorem fix_diane_client9_not_idempotent :
  let first :=
    fix_diane_client9.add_func ++ nl ++ fix_diane_client9.marker ++
    lit "    }" ++ nl ++ lit "}" ++ nl in
  fix_diane_client9.patch gallery_at_end = Some first /\
  fix_diane_client9.patch first = Some (nl ++ lit "}") /\
  fix_diane_client9.patch gallery_at_end ≫= fix_diane_client9.patch <>
  fix_diane_client9.patch gallery_at_end.
Proof.
  cbv zeta. split; [by vm_compute|]. split; [by vm_compute|].
  intros H. by vm_compute in H.
Qed.

(** ** Writing the file back *)

Section Writes.

Implicit Types (w : IO.world) (content : text).

(** [fix_diane_client.py] writes the file on every run. *)
Lemma fix_diane_client_always_writes w content :
  IO.files w !! fix_diane_client.path = Some content ->
  exists t w',
    fix_diane_client.patch content = Some t /\
    fix_diane_client.main w = (inr tt, w') /\
    IO.trace w' = IO.trace w ++ [IO.Written fix_diane_client.path t].
Proof.
  intros Hfile. rewrite fix_diane_client_patch. eexists _, _.
  split; [reflexivity|].
  unfold fix_diane_client.main, mbind, IO.io_bind, IO.read.
  rewrite Hfile, fix_diane_client_patch. done.
Qed.

(** [patch_ios_agents_views.py] writes the file only when the text has
    changed. *)
Lemma patch_ios_agents_views_writes_changes_only w content :
  IO.files w !! patch_ios_agents_views.path = Some content ->
  exists t w',
    patch_ios_agents_views.patch content = Some t /\
    patch_ios_agents_views.main w = (inr tt, w') /\
    (t = content ->
     IO.files w' = IO.files w /\
     IO.trace w' =
       IO.trace w ++
       [IO.Printed "Could not find Connection section in AgentsViews.swift"]) /\
    (t <> content ->
     IO.trace w' =
       IO.trace w ++
       [IO.Written patch_ios_agents_views.path t;
        IO.Printed "Patched AgentsViews.swift successfully"]).
Proof.
  intros Hfile. rewrite patch_ios_agents_views_patch_total.
  unfold patch_ios_agents_views.main, mbind, IO.io_bind, IO.read.
  rewrite Hfile, patch_ios_agents_views_patch_total. cbn beta iota.
  unfold IO.re_result. cbn beta iota.
  case_bool_decide as Hne; eexists _, _; (split; [reflexivity|]);
    (split; [reflexivity|]); split; try done.
  intros _. cbn [IO.write IO.print IO.trace]. by rewrite <- app_assoc.
Qed.

End Writes.

(** C2: [fix_diane_client.py] opens the file for writing and writes it
    whatever the substitution did.  On a file without the marker the
    outcome is [not_found] and the file is written all the same, with the
    text it already held; [patch_ios_agents_views.py], on a file without
    its pattern, writes nothing. *)
Theorem fix_diane_client_writes_when_not_found :
  let content := lit "import Foundation" ++ nl in
  fix_diane_client.outcome content = not_found /\
  (exists w',
     fix_diane_client.main (one_file fix_diane_client.path content) = (inr tt, w') /\
     IO.trace w' = [IO.Written fix_diane_client.path content] /\
     IO.wrote fix_diane_client.path w' = true) /\
  (exists w',
     patch_ios_agents_views.main (one_file patch_ios_agents_views.path content)
       = (inr tt, w') /\
     IO.wrote patch_ios_agents_views.path w' = false).
Proof.
  cbv zeta. split; [by vm_compute|]. split.
  - eexists. split; [by vm_compute|]. split; by vm_compute.
  - eexists. split; [by vm_compute|]. by vm_compute.
Qed.

(** ** The two substitutions of [fix_diane_client9.py] *)

(** C8, as the specification states it, fails on [fix_diane_client9.py]:
    on a file whose trailing [addAgent] the cleanup pattern matches, the
    cleanup substitutes and the insertion that follows substitutes as
    well. *)
Lemma stops_at_first_match_refuted :
  let cleaned := fix_diane_client9.marker ++ lit "}" in
  fix_diane_client9.cleanup_outcome gallery_then_trailing = applied /\
  fix_diane_client9.cleanup gallery_then_trailing = Some cleaned /\
  fix_diane_client9.inject_outcome cleaned = applied /\
  fix_diane_client9.patch gallery_then_trailing =
    Some (fix_diane_client9.add_func ++ nl ++ cleaned) /\
  fix_diane_client9.patch gallery_then_trailing <>
    fix_diane_client9.cleanup gallery_then_trailing.
Proof. cbv zeta. repeat split; by vm_compute. Qed.

(** C8 (amended): the two substitutions of [fix_diane_client9.py] are
    evaluated strictly in the declared order, and evaluation does not
    stop at the first that matches.  The cleanup runs first and changes
    nothing when its pattern is not found; the guarded insertion is then
    evaluated on the text the cleanup left, whatever the cleanup did: it
    substitutes at the marker when its outcome on that text is [applied]
    and leaves the text as it is otherwise. *)
Theorem fix_diane_client9_runs_both_steps (content : text) :
  exists cleaned,
    fix_diane_client9.cleanup content = Some cleaned /\
    (fix_diane_client9.cleanup_outcome content = not_found -> cleaned = content) /\
    fix_diane_client9.patch content = fix_diane_client9.inject cleaned /\
    (fix_diane_client9.inject_outcome cleaned = applied ->
     fix_diane_client9.patch content =
       Some (Py.replace fix_diane_client9.marker
               ((fix_diane_client9.add_func ++ nl) ++ fix_diane_client9.marker)
               cleaned)) /\
    (fix_diane_client9.inject_outcome cleaned <> applied ->
     fix_diane_client9.patch content = Some cleaned).
Proof.
  eexists. split; [apply fix_diane_client9_cleanup_total|].
  split; [|split; [|split]].
  - intros H. apply scan_none. intros j. unfold Re.sub_at.
    rewrite search_false; [done|].
    unfold fix_diane_client9.cleanup_outcome, sub_outcome in H.
    by destruct (Re.search _ content).
  - unfold fix_diane_client9.patch.
    by rewrite fix_diane_client9_cleanup_total.
  - intros H. unfold fix_diane_client9.patch.
    rewrite fix_diane_client9_cleanup_total. cbn [mbind option_bind].
    rewrite fix_diane_client9_inject.
    apply guarded_outcome_applied in H as [-> _]. done.
  - intros H. unfold fix_diane_client9.patch.
    rewrite fix_diane_client9_cleanup_total. cbn [mbind option_bind].
    rewrite fix_diane_client9_inject.
    unfold fix_diane_client9.inject_outcome, guarded_outcome in H.
    destruct (Py.contains fix_diane_client9.signature _); [done|].
    f_equal. apply replace_absent.
    unfold fix_diane_client9.pattern in H. rewrite sub_outcome_group_chars in H.
    unfold replace_outcome in H.
    by destruct (Py.contains fix_diane_client9.marker _).
Qed.

Lemma fix_diane_client9_runs_both_steps_witness :
  fix_diane_client9.patch gallery_then_trailing =
  Some (Py.replace fix_diane_client9.marker
          ((fix_diane_client9.add_func ++ nl) ++ fix_diane_client9.marker)
          (fix_diane_client9.marker ++ lit "}")).
Proof.
  destruct (fix_diane_client9_runs_both_steps gallery_then_trailing)
    as (cleaned & Hclean & _ & _ & Happlied & _).
  assert (cleaned = fix_diane_client9.marker ++ lit "}") as ->.
  { assert (fix_diane_client9.cleanup gallery_then_trailing =
            Some (fix_diane_client9.marker ++ lit "}")) as E by (by vm_compute).
    rewrite E in Hclean. by injection Hclean. }
  apply Happlied. by vm_compute.
Defined.

(** ** [fix_diane_client3.py] *)

Section Append.

Lemma rfind_char (c : ascii) (s : text) :
  match Py.rfind [c] s with
  | None => Py.contains [c] s = false
  | Some i => exists rest, s = take i s ++ c :: rest /\ Py.contains [c] rest = false
  end.
Proof.
  induction s as [|a s IH]; [done|]. cbn [Py.rfind].
  destruct (Py.rfind [c] s) as [i|].
  - destruct IH as (rest & Hs & Hrest). exists rest. split; [|done].
    cbn [take app]. by f_equal.
  - cbn [Py.contains]. rewrite IH, orb_false_r.
    destruct (Py.startswith [c] (a :: s)) eqn:E; [|done].
    exists s. split; [|done]. simpl in E. rewrite andb_true_r in E.
    apply Ascii.eqb_eq in E. by subst.
Qed.

End Append.

(** C10: [fix_diane_client3.py] returns the text up to its last closing
    brace, or the whole text when it has none, followed by the fixed
    [addAgent] block, which ends with a closing brace and a line feed.
    Nothing is checked before, so the block is appended on every run and
    the output is never the input. *)
Theorem fix_diane_client3_always_appends (content : text) :
  (exists kept,
     fix_diane_client3.patch content = kept ++ fix_diane_client3.add_func /\
     ((Py.contains (lit "}") content = false /\ kept = content) \/
      (exists rest, content = kept ++ lit "}" ++ rest /\
                    Py.contains (lit "}") rest = false))) /\
  fix_diane_client3.patch content <> content /\
  (exists body, fix_diane_client3.add_func = body ++ lit "}" ++ nl) /\
  step_outcome fix_diane_client3.append content = applied.
Proof.
  unfold fix_diane_client3.patch, Py.rsplit1.
  pose proof (rfind_char "}"%char content) as H.
  change [("}"%char)] with (lit "}") in H.
  destruct (Py.rfind (lit "}") content) as [i|].
  - destruct H as (rest & Hs & Hrest).
    remember (take i content) as kept eqn:Hk.
    split; [|split; [|split]].
    + exists kept. split; [done|]. right. by exists rest.
    + intros E. rewrite Hs in E. apply app_inv_head in E. by vm_compute in E.
    + exists (take (length fix_diane_client3.add_func - 2)
                   fix_diane_client3.add_func).
      by vm_compute.
    + done.
  - split; [|split; [|split]].
    + exists content. split; [done|]. by left.
    + intros E. apply (f_equal length) in E. rewrite length_app in E.
      vm_compute (length fix_diane_client3.add_func) in E. lia.
    + exists (take (length fix_diane_client3.add_func - 2)
                   fix_diane_client3.add_func).
      by vm_compute.
    + done.
Qed.

(** * Further properties of the scripts *)

(** ** Overlap checks *)

Section Overlap.

Implicit Types (x y old new a b c d s : text).

Lemma startswith_app_eq x y u v :
  x ++ u = y ++ v -> comparable x y = true.
Proof.
  intros H. unfold comparable.
  apply app_eq_app in H as [l [[-> _]|[-> _]]]; rewrite startswith_app;
    [apply orb_true_r|done].
Qed.

Lemma suffix_clash_false x y pre x' :
  suffix_clash x y = false -> x = pre ++ x' -> x' <> [] ->
  comparable x' y = false.
Proof.
  revert x. induction pre as [|c pre IH]; intros x H -> Hne; simpl in *.
  - destruct x'; [done|]. simpl in H. by apply orb_false_elim in H as [H _].
  - apply orb_false_elim in H as [_ H]. by apply (IH _ H).
Qed.

(** Where [old] and [new] cannot overlap, an occurrence of [old] in a
    text around an occurrence of [new] lies wholly before it or wholly
    after it. *)
Lemma no_overlap_split old new a b c d :
  no_overlap old new = true ->
  a ++ new ++ b = c ++ old ++ d ->
  (exists e, a = c ++ old ++ e) \/ (exists e, c = a ++ new ++ e).
Proof.
  unfold no_overlap. intros H E.
  apply andb_prop in H as [H1 H2].
  apply negb_true_iff in H1, H2.
  apply app_eq_app in E as [l [[-> E]|[-> E]]].
  - (* the occurrence of [old] starts at or before that of [new] *)
    apply app_eq_app in E as [l2 [[-> E]|[-> E]]].
    + destruct l2 as [|z l2].
      * left. exists []. by rewrite !app_nil_r.
      * exfalso.
        pose proof (suffix_clash_false _ _ l (z :: l2) H1 eq_refl) as Hc.
        rewrite (startswith_app_eq _ _ _ _ (eq_sym E)) in Hc. by specialize (Hc ltac:(done)).
    + left. by exists l2.
  - (* it starts after *)
    apply app_eq_app in E as [l2 [[-> E]|[-> E]]].
    + destruct l2 as [|z l2].
      * right. exists []. by rewrite !app_nil_r.
      * exfalso.
        pose proof (suffix_clash_false _ _ l (z :: l2) H2 eq_refl) as Hc.
        rewrite (startswith_app_eq _ _ _ _ (eq_sym E)) in Hc. by specialize (Hc ltac:(done)).
    + right. by exists l2.
Qed.

End Overlap.

Section Rerun.

Implicit Types (x y o old new a b c d s : text) (parts : list text).

Lemma contains_app_l sub a b :
  Py.contains sub a = true -> Py.contains sub (a ++ b) = true.
Proof.
  intros H. destruct (contains_first _ _ H) as (p & q & -> & _).
  rewrite <- !app_assoc. apply contains_intro.
Qed.

Lemma contains_app_r sub a b :
  Py.contains sub b = true -> Py.contains sub (a ++ b) = true.
Proof.
  intros H. destruct (contains_first _ _ H) as (p & q & -> & _).
  rewrite app_assoc. apply contains_intro.
Qed.

Lemma contains_join_part sub sep parts p :
  In p parts -> Py.contains sub p = true ->
  Py.contains sub (Py.join sep parts) = true.
Proof.
  induction parts as [|q parts IH]; [done|]. intros Hin Hp.
  destruct parts as [|q' parts].
  - destruct Hin as [->|[]]. exact Hp.
  - rewrite join_cons by done. destruct Hin as [->|Hin].
    + by apply contains_app_l.
    + apply contains_app_r, contains_app_r. by apply IH.
Qed.

(** Pieces free of [old], joined by a text that [old] cannot overlap:
    the result is free of [old]. *)
Lemma join_free old new parts :
  no_overlap old new = true -> old <> [] ->
  Forall (fun p => Py.contains old p = false) parts ->
  Py.contains old (Py.join new parts) = false.
Proof.
  intros Hno Hold Hall. induction Hall as [|p parts Hp Hall IH].
  - by destruct old.
  - destruct parts as [|q parts]; [exact Hp|].
    rewrite join_cons by done.
    destruct (Py.contains old (p ++ new ++ Py.join new (q :: parts))) eqn:E;
      [|done].
    destruct (contains_first _ _ E) as (c & d & Hcd & _).
    destruct (no_overlap_split _ _ _ _ _ _ Hno Hcd) as [[e ->]|[e ->]].
    + by rewrite contains_intro in Hp.
    + rewrite <- !app_assoc in Hcd. do 2 apply app_inv_head in Hcd.
      rewrite Hcd, contains_intro in IH. done.
Qed.

Lemma replace_removes old new s :
  old <> [] -> no_overlap old new = true ->
  Py.contains old (Py.replace old new s) = false.
Proof.
  intros Hold Hno.
  destruct (replace_join old new s Hold) as (parts & _ & -> & Hall & _).
  by apply join_free.
Qed.

Lemma replace_keeps_absent o old new s :
  o <> [] -> old <> [] -> no_overlap o new = true ->
  Py.contains o s = false ->
  Py.contains o (Py.replace old new s) = false.
Proof.
  intros Ho Hold Hno Hs.
  destruct (replace_join old new s Hold) as (parts & -> & -> & _ & _).
  apply join_free; [done..|]. apply Forall_forall. intros p Hp.
  apply list_elem_of_In in Hp.
  destruct (Py.contains o p) eqn:E; [|done].
  by rewrite (contains_join_part _ _ _ _ Hp E) in Hs.
Qed.

(** After a chain of replacements whose texts cannot overlap, none of
    the old texts is left. *)
Lemma replace_all_clean rules seen s :
  chain_ok seen rules = true ->
  Forall (fun o => o <> [] /\ Py.contains o s = false) seen ->
  Forall (fun o => Py.contains o (replace_all rules s) = false)
         (seen ++ map fst rules).
Proof.
  revert seen s. induction rules as [|[old new] rules IH]; intros seen s Hok Hseen.
  - rewrite app_nil_r. eapply Forall_impl; [exact Hseen|]. by intros o [_ Ho].
  - cbn [chain_ok] in Hok.
    apply andb_prop in Hok as [Hok Hrest]. apply andb_prop in Hok as [Hne Hov].
    apply negb_true_iff, bool_decide_eq_false in Hne.
    cbn [forallb] in Hov. apply andb_prop in Hov as [Hself Hseenov].
    cbn [replace_all map fst].
    assert (Forall (fun o => o <> [] /\
                             Py.contains o (Py.replace old new s) = false)
                   (old :: seen)) as Hnext.
    { constructor; [split; [done|by apply replace_removes]|].
      rewrite forallb_forall in Hseenov. apply Forall_forall.
      intros o Ho. rewrite Forall_forall in Hseen.
      destruct (Hseen o Ho) as [Hone Hos]. split; [done|].
      apply replace_keeps_absent; try done.
      apply Hseenov. by apply list_elem_of_In. }
    specialize (IH _ _ Hrest Hnext).
    apply Forall_forall. intros o Ho. rewrite Forall_forall in IH. apply IH.
    apply elem_of_app in Ho as [Ho|Ho].
    + apply elem_of_app. left. apply elem_of_cons. by right.
    + apply elem_of_cons in Ho as [->|Ho]; apply elem_of_app.
      * left. apply elem_of_cons. by left.
      * by right.
Qed.

Lemma replace_all_absent rules s :
  Forall (fun o => Py.contains o s = false) (map fst rules) ->
  replace_all rules s = s.
Proof.
  induction rules as [|[old new] rules IH]; [done|]. intros H.
  apply Forall_cons in H as [Ho H]. cbn [replace_all].
  rewrite replace_absent by done. by apply IH.
Qed.

Lemma replace_all_idempotent rules s :
  chain_ok [] rules = true ->
  replace_all rules (replace_all rules s) = replace_all rules s.
Proof.
  intros Hok. apply replace_all_absent.
  by apply (replace_all_clean rules [] s Hok).
Qed.

End Rerun.

Section Growth.

Implicit Types (x y o old new a b c d s : text) (parts : list text).

Lemma length_join_le old new parts :
  length old <= length new ->
  length (Py.join old parts) <= length (Py.join new parts).
Proof.
  intros Hlen. induction parts as [|p parts IH]; [done|].
  destruct parts as [|q parts]; [done|].
  rewrite (join_cons old p), (join_cons new p) by done.
  rewrite !length_app. lia.
Qed.

Lemma length_join_lt old new parts :
  length old < length new -> 2 <= length parts ->
  length (Py.join old parts) < length (Py.join new parts).
Proof.
  intros Hlen Hparts. destruct parts as [|p [|q parts]]; simpl in Hparts; try lia.
  rewrite (join_cons old p), (join_cons new p) by done.
  rewrite !length_app.
  pose proof (length_join_le old new (q :: parts)). lia.
Qed.

(** A replacement by a longer text never shortens the text, and
    lengthens it when the old text occurs. *)
Lemma replace_length_le old new s :
  old <> [] -> length old <= length new ->
  length s <= length (Py.replace old new s).
Proof.
  intros Hold Hlen.
  destruct (replace_join old new s Hold) as (parts & Hs & -> & _ & _).
  rewrite Hs at 1. by apply length_join_le.
Qed.

Lemma replace_length_lt old new s :
  old <> [] -> length old < length new -> Py.contains old s = true ->
  length s < length (Py.replace old new s).
Proof.
  intros Hold Hlen Hocc.
  destruct (replace_join old new s Hold) as (parts & Hs & -> & _ & Hparts).
  rewrite Hocc in Hparts. rewrite Hs at 1. by apply length_join_lt.
Qed.

(** Where the new text holds the old one, the old text is still there
    after the replacement. *)
Lemma replace_keeps_old old new s :
  old <> [] -> Py.contains old new = true -> Py.contains old s = true ->
  Py.contains old (Py.replace old new s) = true.
Proof.
  intros Hold Hnew Hocc.
  destruct (contains_first _ _ Hocc) as (pre & post & -> & Hfirst).
  rewrite replace_first by done. by apply contains_middle.
Qed.

(** An occurrence of [o] survives the replacement of a text it cannot
    overlap. *)
Lemma replace_keeps_present o old new s :
  old <> [] -> no_overlap o old = true -> Py.contains o s = true ->
  Py.contains o (Py.replace old new s) = true.
Proof.
  intros Hold Hno Hocc.
  destruct (replace_join old new s Hold) as (parts & -> & -> & _ & _).
  destruct (contains_first _ _ Hocc) as (c & d & Hcd & _). clear Hocc.
  revert c Hcd. induction parts as [|p parts IH]; intros c Hcd.
  - simpl in *. destruct c; [|done]. destruct o; [|done].
    by destruct d.
  - destruct parts as [|q parts].
    + simpl in *. rewrite Hcd. apply contains_intro.
    + rewrite join_cons in * by done.
      destruct (no_overlap_split _ _ _ _ _ _ Hno Hcd) as [[e ->]|[e ->]].
      * rewrite <- !app_assoc. apply contains_intro.
      * rewrite <- !app_assoc in Hcd. do 2 apply app_inv_head in Hcd.
        apply contains_app_r, contains_app_r. by apply (IH e).
Qed.

End Growth.

(** ** The further scripts, step by step *)

Section FurtherSteps.

Implicit Types (content t : text).

Lemma fix_diane_client6_patch x :
  fix_diane_client6.patch x =
  Some (Py.replace fix_diane_client6.old_func
          (Py.strip nl fix_diane_client6.add_func) x).
Proof.
  unfold fix_diane_client6.patch, fix_diane_client6.pattern,
    fix_diane_client6.template.
  rewrite sub_group_chars by (by vm_compute).
  cbn [Re.expand]. by rewrite app_nil_r.
Qed.

Lemma fix_diane_client7_patch x :
  fix_diane_client7.patch x =
  Some (Py.replace fix_diane_client7.old_func
          (Py.strip nl fix_diane_client7.add_func) x).
Proof.
  unfold fix_diane_client7.patch, fix_diane_client7.pattern,
    fix_diane_client7.template.
  rewrite sub_group_chars by (by vm_compute).
  cbn [Re.expand]. by rewrite app_nil_r.
Qed.

Lemma fix_diane_client8_patch x :
  fix_diane_client8.patch x =
  Some (Py.replace fix_diane_client8.old_func
          (Py.strip nl fix_diane_client8.add_func ++ nl) x).
Proof.
  unfold fix_diane_client8.patch, fix_diane_client8.pattern,
    fix_diane_client8.template.
  rewrite sub_group_chars by (by vm_compute).
  cbn [Re.expand]. by rewrite app_nil_r.
Qed.

Lemma fix_mock_patch content :
  fix_mock.patch content =
  Some (Py.replace fix_mock.marker (fix_mock.marker ++ fix_mock.add_func) content).
Proof.
  unfold fix_mock.patch, fix_mock.pattern, fix_mock.template.
  rewrite sub_group_chars by (by vm_compute).
  cbn [Re.expand]. by rewrite app_nil_r.
Qed.

Lemma fix_install_patch content :
  fix_install.patch content =
  Some (Py.replace fix_install.install_agent_stub
          (Py.strip nl fix_install.install_agent) content).
Proof.
  unfold fix_install.patch, fix_install.pattern, fix_install.template.
  rewrite sub_chars by done.
  cbn [Re.expand]. by rewrite app_nil_r.
Qed.

Lemma fix_vm_add_to_state content :
  fix_vm.add_to_state content =
  Some (Py.replace fix_vm.state_marker (fix_vm.state_marker ++ fix_vm.add_state)
          content).
Proof.
  unfold fix_vm.add_to_state, fix_vm.state_pattern, fix_vm.state_template.
  rewrite sub_group_chars by (by vm_compute).
  cbn [Re.expand]. by rewrite app_nil_r.
Qed.

Lemma fix_vm_add_custom_agent content :
  fix_vm.add_custom_agent content =
  Some (Py.replace fix_vm.func_marker
          ((fix_vm.add_func ++ nl) ++ fix_vm.func_marker) content).
Proof.
  unfold fix_vm.add_custom_agent, fix_vm.func_pattern, fix_vm.func_template.
  rewrite sub_group_chars by (by vm_compute).
  cbn [Re.expand]. by rewrite app_nil_r, <- app_assoc.
Qed.

Lemma update_agents_view_model_add_edit_state content :
  update_agents_view_model.add_edit_state content =
  Some (Py.replace update_agents_view_model.state_marker
          (update_agents_view_model.state_marker ++ nl ++
           update_agents_view_model.edit_state) content).
Proof.
  unfold update_agents_view_model.add_edit_state,
    update_agents_view_model.state_pattern,
    update_agents_view_model.state_template.
  rewrite sub_group_chars by (by vm_compute).
  cbn [Re.expand]. by rewrite app_nil_r.
Qed.

Lemma update_agents_view_model_add_edit_funcs content :
  update_agents_view_model.add_edit_funcs content =
  Some (Py.replace update_agents_view_model.helpers_marker
          ((update_agents_view_model.edit_funcs ++ nl) ++
           update_agents_view_model.helpers_marker) content).
Proof.
  unfold update_agents_view_model.add_edit_funcs,
    update_agents_view_model.helpers_pattern,
    update_agents_view_model.funcs_template.
  rewrite sub_group_chars by (by vm_compute).
  cbn [Re.expand]. by rewrite app_nil_r, <- app_assoc.
Qed.

End FurtherSteps.

(** ** Scripts that are chains of [str.replace] *)

Section Plain.

Implicit Types (content t : text) (w : IO.world) (sc : script) (rs : replace_step).

Lemma run_steps_cons_runs st steps content t t' :
  runs_to (step_run st content) t ->
  runs_to (run_steps steps t) t' ->
  runs_to (run_steps (st :: steps) content) t'.
Proof.
  intros H1 H2 w. cbn [run_steps]. unfold mbind, IO.io_bind.
  destruct (H1 w) as (w1 & -> & Hf1). destruct (H2 w1) as (w2 & -> & Hf2).
  exists w2. split; [done|]. by rewrite Hf2.
Qed.

Lemma run_steps_replace_all (l : list replace_step) content :
  (forall rs, In rs l -> always_replaces rs) ->
  runs_to (run_steps (map rs_step l) content) (replace_all (rules_of l) content).
Proof.
  revert content. induction l as [|rs l IH]; intros content Hl.
  - apply mret_runs.
  - cbn [map rules_of replace_all]. eapply run_steps_cons_runs.
    + apply Hl. by left.
    + apply IH. intros rs' Hrs'. apply Hl. by right.
Qed.

Lemma sub_always_replaces old new o (f : text -> option text) :
  old <> [] ->
  (forall content, f content = Some (Py.replace old new content)) ->
  always_replaces (ReplaceStep old new (Step o (fun content => IO.re_result (f content)))).
Proof.
  intros Hold Hf. split; [done|]. intros content.
  cbn [rs_step rs_old rs_new step_run]. rewrite Hf. apply re_result_runs.
Qed.

Lemma guarded_always_replaces old new o msg :
  old <> [] ->
  always_replaces
    (ReplaceStep old new
       (Step o (fun content =>
                  if Py.contains old content
                  then mret (Py.replace old new content)
                  else IO.print msg;; mret content))).
Proof.
  intros Hold. split; [done|]. intros content.
  cbn [rs_step rs_old rs_new step_run]. apply guarded_replace_runs.
Qed.

End Plain.

Section PlainScripts.

Implicit Types (content t : text) (w : IO.world) (sc : script) (rs : replace_step).

(** Every step of these scripts is [str.replace] on every text: a
    literal pattern of [re.sub] is replaced wherever it occurs, and a
    guarded [str.replace] skips only what it would leave as it is. *)
Lemma plain_steps_replace sc l rs :
  In (sc, l) plain_scripts -> In rs l -> always_replaces rs.
Proof.
  unfold plain_scripts. intros H Hrs.
  repeat (destruct H as [[= <- <-]|H]);
    [| | | | | | | | | | | | | |exfalso; exact H].
  - destruct Hrs as [<-|[]].
    apply sub_always_replaces; [by vm_compute|apply fix_diane_client_patch].
  - destruct Hrs as [<-|[]].
    apply sub_always_replaces; [by vm_compute|apply fix_diane_client4_patch].
  - destruct Hrs as [<-|[<-|[]]];
      apply guarded_always_replaces; by vm_compute.
  - destruct Hrs as [<-|[<-|[]]];
      apply guarded_always_replaces; by vm_compute.
  - destruct Hrs as [<-|[<-|[<-|[<-|[<-|[]]]]]];
      (apply sub_always_replaces;
       [by vm_compute|apply fix_http_client_sub_stub]).
  - destruct Hrs as [<-|[]].
    apply sub_always_replaces; [by vm_compute|apply fix_diane_client6_patch].
  - destruct Hrs as [<-|[]].
    apply sub_always_replaces; [by vm_compute|apply fix_diane_client7_patch].
  - destruct Hrs as [<-|[]].
    apply sub_always_replaces; [by vm_compute|apply fix_diane_client8_patch].
  - destruct Hrs as [<-|[]].
    apply sub_always_replaces; [by vm_compute|apply fix_mock_patch].
  - destruct Hrs as [<-|[]].
    apply sub_always_replaces; [by vm_compute|apply fix_install_patch].
  - destruct Hrs as [<-|[<-|[]]]; apply sub_always_replaces;
      [by vm_compute|apply fix_vm_add_to_state
      |by vm_compute|apply fix_vm_add_custom_agent].
  - destruct Hrs as [<-|[<-|[]]]; apply sub_always_replaces;
      [by vm_compute|apply update_agents_view_model_add_edit_state
      |by vm_compute|apply update_agents_view_model_add_edit_funcs].
  - destruct Hrs as [<-|[<-|[]]];
      apply guarded_always_replaces; by vm_compute.
  - destruct Hrs as [<-|[]].
    apply guarded_always_replaces; by vm_compute.
Qed.

Lemma plain_steps_match sc l :
  In (sc, l) plain_scripts -> script_steps sc = map rs_step l.
Proof.
  unfold plain_scripts. intros H.
  repeat (destruct H as [[= <- <-]|H]);
    [| | | | | | | | | | | | | |exfalso; exact H]; reflexivity.
Qed.

(** The steps of such a script compute the chain of its replacements. *)
Lemma plain_steps_run sc l content :
  In (sc, l) plain_scripts ->
  runs_to (run_steps (script_steps sc) content) (replace_all (rules_of l) content).
Proof.
  intros H. rewrite (plain_steps_match sc l H).
  apply run_steps_replace_all. intros rs. by apply (plain_steps_replace sc l).
Qed.

End PlainScripts.

(** ** Whole runs *)

Section Runs.

Implicit Types (content t final : text) (w : IO.world) (sc : script).

Lemma writes_of_app evs evs' :
  writes_of (evs ++ evs') = writes_of evs ++ writes_of evs'.
Proof. apply omap_app. Qed.

(** A run that reads the file, makes one or two [re.sub] calls and writes
    the file back. *)
Lemma read_sub_write path (f : text -> option text) w content t :
  IO.files w !! path = Some content ->
  f content = Some t ->
  (content ← IO.read path;
   content ← IO.re_result (f content);
   IO.write path content) w =
  (inr tt, IO.World (<[path := t]> (IO.files w))
                    (IO.trace w ++ [IO.Written path t])).
Proof.
  intros Hfile Hf. unfold mbind, IO.io_bind, IO.read. rewrite Hfile.
  cbn beta iota. by rewrite Hf.
Qed.

Lemma read_sub_sub_write path (f g : text -> option text) w content t u :
  IO.files w !! path = Some content ->
  f content = Some t -> g t = Some u ->
  (content ← IO.read path;
   content ← IO.re_result (f content);
   content ← IO.re_result (g content);
   IO.write path content) w =
  (inr tt, IO.World (<[path := u]> (IO.files w))
                    (IO.trace w ++ [IO.Written path u])).
Proof.
  intros Hfile Hf Hg. unfold mbind, IO.io_bind, IO.read. rewrite Hfile.
  cbn beta iota. unfold IO.re_result. rewrite Hf. cbn beta iota. by rewrite Hg.
Qed.

Lemma read_write_main path (f : text -> text) w content :
  IO.files w !! path = Some content ->
  (content ← IO.read path; IO.write path (f content)) w =
  (inr tt, IO.World (<[path := f content]> (IO.files w))
                    (IO.trace w ++ [IO.Written path (f content)])).
Proof.
  intros Hfile. unfold mbind, IO.io_bind, IO.read. by rewrite Hfile.
Qed.

(** A guarded [str.replace]: it may print, it writes nothing. *)
Lemma guarded_replace_io old new msg content w :
  exists w',
    (if Py.contains old content
     then mret (Py.replace old new content)
     else IO.print msg;; mret content) w
      = (inr (Py.replace old new content), w') /\
    IO.files w' = IO.files w /\
    writes_of (IO.trace w') = writes_of (IO.trace w).
Proof.
  destruct (Py.contains old content) eqn:E.
  - by exists w.
  - rewrite (replace_absent _ _ _ E). eexists. split; [reflexivity|].
    split; [done|]. cbn [IO.trace]. rewrite writes_of_app. apply app_nil_r.
Qed.

(** What a run of one of the further scripts leaves: the text its steps
    compute, written once to the file of the script. *)
Lemma further_main sc w content final :
  In sc further_scripts ->
  IO.files w !! script_path sc = Some content ->
  runs_to (run_steps (script_steps sc) content) final ->
  exists w',
    script_main sc w = (inr tt, w') /\
    IO.files w' = <[script_path sc := final]> (IO.files w) /\
    writes_of (IO.trace w') = writes_of (IO.trace w) ++ [(script_path sc, final)].
Proof.
  unfold further_scripts. intros Hsc Hfile Hrun.
  repeat (destruct Hsc as [<-|Hsc]); [| | | | | | | | |exfalso; exact Hsc];
    cbn [script_path script_main script_steps] in *.
  - rewrite (runs_to_inj _ _ _ Hrun
               (plain_steps_run _ fix_diane_client6_rules content
                  ltac:(unfold plain_scripts; do 5 right; by left))).
    cbn [rules_of map replace_all fix_diane_client6_rules rs_old rs_new].
    eexists. split.
    { apply (read_sub_write _ fix_diane_client6.patch _ content); [done|].
      apply fix_diane_client6_patch. }
    cbn [IO.files IO.trace]. split; [done|]. by rewrite writes_of_app.
  - rewrite (runs_to_inj _ _ _ Hrun
               (plain_steps_run _ fix_diane_client7_rules content
                  ltac:(unfold plain_scripts; do 6 right; by left))).
    cbn [rules_of map replace_all fix_diane_client7_rules rs_old rs_new].
    eexists. split.
    { apply (read_sub_write _ fix_diane_client7.patch _ content); [done|].
      apply fix_diane_client7_patch. }
    cbn [IO.files IO.trace]. split; [done|]. by rewrite writes_of_app.
  - rewrite (runs_to_inj _ _ _ Hrun
               (plain_steps_run _ fix_diane_client8_rules content
                  ltac:(unfold plain_scripts; do 7 right; by left))).
    cbn [rules_of map replace_all fix_diane_client8_rules rs_old rs_new].
    eexists. split.
    { apply (read_sub_write _ fix_diane_client8.patch _ content); [done|].
      apply fix_diane_client8_patch. }
    cbn [IO.files IO.trace]. split; [done|]. by rewrite writes_of_app.
  - rewrite (runs_to_inj _ _ _ Hrun
               (plain_steps_run _ fix_mock_rules content
                  ltac:(unfold plain_scripts; do 8 right; by left))).
    cbn [rules_of map replace_all fix_mock_rules rs_old rs_new].
    eexists. split.
    { apply (read_sub_write _ fix_mock.patch _ content); [done|].
      apply fix_mock_patch. }
    cbn [IO.files IO.trace]. split; [done|]. by rewrite writes_of_app.
  - rewrite (runs_to_inj _ _ _ Hrun
               (plain_steps_run _ fix_install_rules content
                  ltac:(unfold plain_scripts; do 9 right; by left))).
    cbn [rules_of map replace_all fix_install_rules rs_old rs_new].
    eexists. split.
    { apply (read_sub_write _ fix_install.patch _ content); [done|].
      apply fix_install_patch. }
    cbn [IO.files IO.trace]. split; [done|]. by rewrite writes_of_app.
  - rewrite (runs_to_inj _ _ _ Hrun
               (plain_steps_run _ fix_vm_rules content
                  ltac:(unfold plain_scripts; do 10 right; by left))).
    cbn [rules_of map replace_all fix_vm_rules rs_old rs_new].
    eexists. split.
    { eapply (read_sub_sub_write _ fix_vm.add_to_state fix_vm.add_custom_agent
               _ content _ _ Hfile (fix_vm_add_to_state _)).
      apply fix_vm_add_custom_agent. }
    cbn [IO.files IO.trace]. split; [done|]. by rewrite writes_of_app.
  - rewrite (runs_to_inj _ _ _ Hrun
               (plain_steps_run _ update_agents_view_model_rules content
                  ltac:(unfold plain_scripts; do 11 right; by left))).
    cbn [rules_of map replace_all update_agents_view_model_rules rs_old rs_new].
    eexists. split.
    { eapply (read_sub_sub_write _ update_agents_view_model.add_edit_state
               update_agents_view_model.add_edit_funcs
               _ content _ _ Hfile (update_agents_view_model_add_edit_state _)).
      apply update_agents_view_model_add_edit_funcs. }
    cbn [IO.files IO.trace]. split; [done|]. by rewrite writes_of_app.
  - rewrite (runs_to_inj _ _ _ Hrun
               (plain_steps_run _ patch_agents_view_model2_rules content
                  ltac:(unfold plain_scripts; do 12 right; by left))).
    cbn [rules_of map replace_all patch_agents_view_model2_rules rs_old rs_new].
    unfold patch_agents_view_model2.main, patch_agents_view_model2.add_props,
      patch_agents_view_model2.add_config.
    unfold mbind at 1 2 3 4. unfold IO.io_bind at 1 2 3 4. unfold IO.read.
    rewrite Hfile. cbn beta iota.
    destruct (guarded_replace_io patch_agents_view_model2.old_props
                patch_agents_view_model2.new_props
                "Could not find properties block" content w)
      as (w1 & -> & Hf1 & Ht1).
    cbn beta iota.
    destruct (guarded_replace_io patch_agents_view_model2.old_add
                patch_agents_view_model2.new_add
                "Could not find agent creation block"
                (Py.replace patch_agents_view_model2.old_props
                   patch_agents_view_model2.new_props content) w1)
      as (w2 & -> & Hf2 & Ht2).
    cbn beta iota. unfold IO.write, IO.print. cbn beta iota.
    eexists. split; [reflexivity|]. cbn [IO.files IO.trace].
    split; [by rewrite Hf2, Hf1|].
    rewrite !writes_of_app, Ht2, Ht1. cbn [writes_of omap]. by rewrite app_nil_r.
  - rewrite (runs_to_inj _ _ _ Hrun
               (plain_steps_run _ patch_agents_view_model3_rules content
                  ltac:(unfold plain_scripts; do 13 right; by left))).
    cbn [rules_of map replace_all patch_agents_view_model3_rules rs_old rs_new].
    unfold patch_agents_view_model3.main, patch_agents_view_model3.update_reset.
    unfold mbind at 1 2 3. unfold IO.io_bind at 1 2 3. unfold IO.read.
    rewrite Hfile. cbn beta iota.
    destruct (guarded_replace_io patch_agents_view_model3.old_reset
                patch_agents_view_model3.new_reset
                "Could not find reset block" content w)
      as (w1 & -> & Hf1 & Ht1).
    cbn beta iota. unfold IO.write, IO.print. cbn beta iota.
    eexists. split; [reflexivity|]. cbn [IO.files IO.trace].
    split; [by rewrite Hf1|].
    rewrite !writes_of_app, Ht1. cbn [writes_of omap]. by rewrite app_nil_r.
Qed.

(** The same for the two scripts with dotted patterns. *)
Lemma dotted_main sc w content :
  In sc dotted_scripts ->
  IO.files w !! script_path sc = Some content ->
  exists w' final,
    runs_to (run_steps (script_steps sc) content) final /\
    script_main sc w = (inr tt, w') /\
    IO.files w' = <[script_path sc := final]> (IO.files w) /\
    writes_of (IO.trace w') = writes_of (IO.trace w) ++ [(script_path sc, final)].
Proof.
  unfold dotted_scripts. intros Hsc Hfile.
  repeat (destruct Hsc as [<-|Hsc]); [| |exfalso; exact Hsc];
    cbn [script_path script_main script_steps] in *.
  - exists (IO.World (<[fix_diane_client5.path := fix_diane_client5.patch content]>
                       (IO.files w))
                     (IO.trace w ++ [IO.Written fix_diane_client5.path
                                       (fix_diane_client5.patch content)])),
           (fix_diane_client5.patch content).
    split; [|split; [by apply read_write_main|]].
    + eapply (run_steps_cons_runs fix_diane_client5.swap []); apply mret_runs.
    + cbn [IO.files IO.trace]. split; [done|]. by rewrite writes_of_app.
  - exists (IO.World (<[fix_diane_client12.path := fix_diane_client12.patch content]>
                       (IO.files w))
                     (IO.trace w ++ [IO.Written fix_diane_client12.path
                                       (fix_diane_client12.patch content)])),
           (fix_diane_client12.patch content).
    split; [|split; [by apply read_write_main|]].
    + eapply (run_steps_cons_runs fix_diane_client12.swap []); apply mret_runs.
    + cbn [IO.files IO.trace]. split; [done|]. by rewrite writes_of_app.
Qed.

End Runs.

Section AllScripts.

Implicit Types (content t final : text) (w : IO.world) (sc : script).

Lemma further_scripts_plain sc :
  In sc further_scripts -> exists l, In (sc, l) plain_scripts.
Proof.
  unfold further_scripts, plain_scripts. intros H.
  repeat (destruct H as [<-|H]); [| | | | | | | | |exfalso; exact H];
    eexists;
    [do 5 right|do 6 right|do 7 right|do 8 right|do 9 right|do 10 right
    |do 11 right|do 12 right|do 13 right]; by left.
Qed.

(** Every script ends normally when its file is there, and leaves in it
    the text its steps compute. *)
Lemma script_runs sc w content :
  In sc all_scripts ->
  IO.files w !! script_path sc = Some content ->
  exists w' final,
    runs_to (run_steps (script_steps sc) content) final /\
    script_main sc w = (inr tt, w') /\
    IO.files w' = <[script_path sc := final]> (IO.files w).
Proof.
  unfold all_scripts. intros Hsc Hfile.
  apply in_app_or in Hsc as [Hsc|Hsc]; [|apply in_app_or in Hsc as [Hsc|Hsc]].
  - destruct (run_steps_total (script_steps sc) content) as [final Hfinal].
    { apply Forall_forall. intros st Hst. apply list_elem_of_In in Hst.
      by apply (steps_ok sc). }
    destruct (Hfinal w) as (w1 & Hrun & Hfiles).
    destruct (main_after_steps sc w content final w1 Hsc Hfile Hrun Hfiles)
      as (w' & Hmain & Hw').
    by exists w', final.
  - destruct (further_scripts_plain sc Hsc) as [l Hl].
    pose proof (plain_steps_run sc l content Hl) as Hrun.
    destruct (further_main sc w content _ Hsc Hfile Hrun) as (w' & Hmain & Hw' & _).
    by eexists w', _.
  - destruct (dotted_main sc w content Hsc Hfile) as (w' & final & Hr & Hm & Hw' & _).
    by exists w', final.
Qed.

(** A script whose steps, run on their own result, hand it on
    unchanged, leaves the file on a second run as the first run left
    it. *)
Lemma rerun_from_steps sc :
  In sc all_scripts ->
  (forall content, exists t,
      runs_to (run_steps (script_steps sc) content) t /\
      runs_to (run_steps (script_steps sc) t) t) ->
  rerun_noop sc.
Proof.
  intros Hsc Hsteps w content Hfile.
  destruct (Hsteps content) as (t & H1 & H2).
  destruct (script_runs sc w content Hsc Hfile) as (w1 & t1 & Hr1 & Hmain1 & Hw1).
  rewrite (runs_to_inj _ _ _ Hr1 H1) in Hw1.
  assert (IO.files w1 !! script_path sc = Some t) as Hfile1.
  { rewrite Hw1. apply lookup_insert_eq. }
  destruct (script_runs sc w1 t Hsc Hfile1) as (w2 & t2 & Hr2 & Hmain2 & Hw2).
  rewrite (runs_to_inj _ _ _ Hr2 H2) in Hw2.
  exists w1, w2. repeat split; try done.
  rewrite Hw2. by apply insert_id.
Qed.

Lemma plain_scripts_all sc l : In (sc, l) plain_scripts -> In sc all_scripts.
Proof.
  unfold plain_scripts, all_scripts, scripts, further_scripts. intros H.
  apply in_or_app.
  repeat (destruct H as [[= <- <-]|H]);
    [| | | | | | | | | | | | | |exfalso; exact H];
    [left; by left
    |left; do 3 right; by left
    |left; do 6 right; by left
    |left; do 7 right; by left
    |left; do 9 right; by left
    |right; apply in_or_app; left; by left
    |right; apply in_or_app; left; do 1 right; by left
    |right; apply in_or_app; left; do 2 right; by left
    |right; apply in_or_app; left; do 3 right; by left
    |right; apply in_or_app; left; do 4 right; by left
    |right; apply in_or_app; left; do 5 right; by left
    |right; apply in_or_app; left; do 6 right; by left
    |right; apply in_or_app; left; do 7 right; by left
    |right; apply in_or_app; left; do 8 right; by left].
Qed.

Lemma replace_only_plain sc l : In (sc, l) replace_only -> In (sc, l) plain_scripts.
Proof.
  unfold replace_only, plain_scripts. intros H.
  repeat (destruct H as [[= <- <-]|H]); [| | | | | | | | |exfalso; exact H];
    [do 1 right|do 2 right|do 4 right|do 5 right|do 6 right|do 7 right
    |do 9 right|do 12 right|do 13 right]; by left.
Qed.

Lemma replace_only_chain_ok sc l :
  In (sc, l) replace_only -> chain_ok [] (rules_of l) = true.
Proof.
  unfold replace_only. intros H.
  repeat (destruct H as [[= <- <-]|H]); [| | | | | | | | |exfalso; exact H];
    by vm_compute.
Qed.

End AllScripts.

(** X1: the scripts made of substitutions whose old texts can overlap
    neither their own new text nor the new text of a later step are safe
    to run again: the second run ends normally and leaves every file as
    the first run left it. *)
Theorem replace_scripts_rerun sc l :
  In (sc, l) replace_only -> rerun_noop sc.
Proof.
  intros H. pose proof (replace_only_plain sc l H) as Hp.
  apply rerun_from_steps; [by apply (plain_scripts_all sc l)|].
  intros content. exists (replace_all (rules_of l) content). split.
  - by apply plain_steps_run.
  - rewrite <- (replace_all_idempotent (rules_of l) content) at 2
      by (by apply (replace_only_chain_ok sc)).
    by apply plain_steps_run.
Qed.

Lemma replace_scripts_rerun_witness :
  exists w1 w2,
    patch_agents_view_model3.main
      (one_file patch_agents_view_model3.path
         (lit "do {" ++ nl ++ patch_agents_view_model3.old_reset ++ lit " }"))
      = (inr tt, w1) /\
    patch_agents_view_model3.main w1 = (inr tt, w2) /\
    IO.files w2 = IO.files w1.
Proof.
  apply (replace_scripts_rerun
           (Script patch_agents_view_model3.path patch_agents_view_model3.steps
                   patch_agents_view_model3.main)
           patch_agents_view_model3_rules
           ltac:(unfold replace_only; do 8 right; by left)
           (one_file patch_agents_view_model3.path
              (lit "do {" ++ nl ++ patch_agents_view_model3.old_reset ++ lit " }"))
           (lit "do {" ++ nl ++ patch_agents_view_model3.old_reset ++ lit " }")).
  apply lookup_singleton_eq.
Defined.

(** X2: the two scripts that guard their insertion with the signature of
    what they insert are safe to run again. *)
Theorem guarded_scripts_rerun sc :
  In sc guarded_scripts -> rerun_noop sc.
Proof.
  unfold guarded_scripts. intros H.
  repeat (destruct H as [<-|H]); [| |exfalso; exact H];
    (apply rerun_from_steps;
     [unfold all_scripts, scripts; apply in_or_app; left; simpl; tauto|]);
    intros content; cbn [script_steps].
  - unfold fix_diane_client2.steps.
    pose proof (fix_diane_client2_idempotent content) as Hidem.
    destruct (fix_diane_client2.patch content) as [t|] eqn:E;
      [|by rewrite fix_diane_client2_patch in E].
    cbn [mbind option_bind] in Hidem. exists t.
    split; (eapply (run_steps_cons_runs fix_diane_client2.insert []);
            [cbn [fix_diane_client2.insert step_run]|apply mret_runs]).
    + rewrite E. apply re_result_runs.
    + rewrite Hidem. apply re_result_runs.
  - unfold fix_diane_client10.steps.
    exists (fix_diane_client10.patch content).
    split; (eapply (run_steps_cons_runs fix_diane_client10.insert []);
            [cbn [fix_diane_client10.insert step_run]|apply mret_runs]).
    + apply mret_runs.
    + rewrite fix_diane_client10_idempotent. apply mret_runs.
Qed.

Lemma guarded_scripts_rerun_witness :
  exists w1 w2,
    fix_diane_client10.main
      (one_file fix_diane_client10.path
         (lit "class DianeClient {" ++ nl ++ fix_diane_client10.marker ++ lit "}"))
      = (inr tt, w1) /\
    fix_diane_client10.main w1 = (inr tt, w2) /\
    IO.files w2 = IO.files w1.
Proof.
  apply (guarded_scripts_rerun
           (Script fix_diane_client10.path fix_diane_client10.steps
                   fix_diane_client10.main)
           ltac:(unfold guarded_scripts; right; by left)
           (one_file fix_diane_client10.path
              (lit "class DianeClient {" ++ nl ++ fix_diane_client10.marker ++ lit "}"))
           (lit "class DianeClient {" ++ nl ++ fix_diane_client10.marker ++ lit "}")).
  apply lookup_singleton_eq.
Defined.


Section Feeding.

Implicit Types (o old new s content : text) (rules : list (text * text)).

Lemma feeds_rule o old new s :
  old <> [] -> length old <= length new ->
  (if bool_decide (old = o)
   then Py.contains o new && (length o <? length new)
   else no_overlap o old) = true ->
  Py.contains o s = true ->
  Py.contains o (Py.replace old new s) = true /\
  length s <= length (Py.replace old new s) /\
  (old = o -> length s < length (Py.replace old new s)).
Proof.
  intros Hold Hlen Hc Hs. case_bool_decide as Ho.
  - subst o. apply andb_prop in Hc as [Hin Hlt]. apply Nat.ltb_lt in Hlt.
    split; [by apply replace_keeps_old|].
    split; [by apply replace_length_le|].
    intros _. by apply replace_length_lt.
  - split; [by apply replace_keeps_present|].
    split; [by apply replace_length_le|done].
Qed.

(** Where [o] feeds itself in a chain of replacements, the chain keeps
    [o] in every text that holds it and makes that text longer. *)
Lemma replace_all_feeds o rules s :
  forallb (fun r =>
             negb (bool_decide (fst r = [])) &&
             (length (fst r) <=? length (snd r)) &&
             (if bool_decide (fst r = o)
              then Py.contains o (snd r) && (length o <? length (snd r))
              else no_overlap o (fst r)))
          rules = true ->
  Py.contains o s = true ->
  Py.contains o (replace_all rules s) = true /\
  length s <= length (replace_all rules s) /\
  (existsb (fun r => bool_decide (fst r = o)) rules = true ->
   length s < length (replace_all rules s)).
Proof.
  revert s. induction rules as [|[old new] rules IH]; intros s Hall Hs.
  - by repeat split.
  - cbn [forallb fst snd] in Hall.
    apply andb_prop in Hall as [Hr Hall]. apply andb_prop in Hr as [Hr Hc].
    apply andb_prop in Hr as [Hne Hle].
    apply negb_true_iff, bool_decide_eq_false in Hne. apply Nat.leb_le in Hle.
    destruct (feeds_rule o old new s Hne Hle Hc Hs) as (Hs1 & Hl1 & Hlt1).
    destruct (IH _ Hall Hs1) as (Hs2 & Hl2 & Hlt2).
    cbn [replace_all existsb fst]. split; [done|]. split; [lia|].
    intros He. apply orb_prop in He as [He|He].
    + apply bool_decide_eq_true in He. specialize (Hlt1 He). lia.
    + specialize (Hlt2 He). lia.
Qed.

Lemma self_feeding_plain sc l o :
  In (sc, l, o) self_feeding ->
  In (sc, l) plain_scripts /\ feeds o (rules_of l) = true.
Proof.
  unfold self_feeding, plain_scripts. intros H.
  repeat (destruct H as [[= <- <- <-]|H]); [| | | | | | |exfalso; exact H];
    (split; [|by vm_compute]);
    [idtac|do 8 right|do 10 right|do 10 right|do 11 right|do 11 right
    |do 3 right]; by left.
Qed.

End Feeding.

(** X3: a script with a step that keeps the text it looks for (an
    insertion next to a marker, or a replacement whose new text holds
    the old one) is not safe to run again: every run on a file that
    holds that text makes the file longer and leaves the text in it, so
    the next run lengthens the file again. *)
Theorem self_feeding_scripts_grow sc l o (w : IO.world) (content : text) :
  In (sc, l, o) self_feeding ->
  IO.files w !! script_path sc = Some content ->
  Py.contains o content = true ->
  exists w1 w2 t1 t2,
    script_main sc w = (inr tt, w1) /\
    IO.files w1 !! script_path sc = Some t1 /\
    script_main sc w1 = (inr tt, w2) /\
    IO.files w2 !! script_path sc = Some t2 /\
    Py.contains o t1 = true /\
    length content < length t1 /\ length t1 < length t2.
Proof.
  intros H Hfile Ho.
  destruct (self_feeding_plain sc l o H) as [Hp Hfeeds].
  pose proof (plain_scripts_all sc l Hp) as Hsc.
  unfold feeds in Hfeeds. apply andb_prop in Hfeeds as [Hex Hall].
  destruct (script_runs sc w content Hsc Hfile) as (w1 & t1 & Hr1 & Hmain1 & Hw1).
  rewrite (runs_to_inj _ _ _ Hr1 (plain_steps_run sc l content Hp)) in Hw1.
  clear t1 Hr1. set (t1 := replace_all (rules_of l) content) in *.
  assert (IO.files w1 !! script_path sc = Some t1) as Hfile1.
  { rewrite Hw1. apply lookup_insert_eq. }
  destruct (script_runs sc w1 t1 Hsc Hfile1) as (w2 & t2 & Hr2 & Hmain2 & Hw2).
  rewrite (runs_to_inj _ _ _ Hr2 (plain_steps_run sc l t1 Hp)) in Hw2.
  clear t2 Hr2.
  destruct (replace_all_feeds o (rules_of l) content Hall Ho) as (Ho1 & _ & Hlt1).
  destruct (replace_all_feeds o (rules_of l) t1 Hall Ho1) as (_ & _ & Hlt2).
  exists w1, w2, t1, (replace_all (rules_of l) t1).
  repeat split; try done.
  - rewrite Hw2. apply lookup_insert_eq.
  - by apply Hlt1.
  - by apply Hlt2.
Qed.

Lemma self_feeding_scripts_grow_witness :
  exists w1 w2 t1 t2,
    fix_vm.main (one_file fix_vm.path (lit "class VM {" ++ nl ++ fix_vm.func_marker))
      = (inr tt, w1) /\
    IO.files w1 !! fix_vm.path = Some t1 /\
    fix_vm.main w1 = (inr tt, w2) /\
    IO.files w2 !! fix_vm.path = Some t2 /\
    Py.contains fix_vm.func_marker t1 = true /\
    length (lit "class VM {" ++ nl ++ fix_vm.func_marker) < length t1 /\
    length t1 < length t2.
Proof.
  apply (self_feeding_scripts_grow
           (Script fix_vm.path fix_vm.steps fix_vm.main) fix_vm_rules
           fix_vm.func_marker
           (one_file fix_vm.path (lit "class VM {" ++ nl ++ fix_vm.func_marker))
           (lit "class VM {" ++ nl ++ fix_vm.func_marker)).
  - unfold self_feeding. do 3 right. by left.
  - apply lookup_singleton_eq.
  - by vm_compute.
Defined.

(** X4: a script whose file is missing raises [FileNotFoundError] for
    that file; nothing is written and nothing is printed. *)
Theorem missing_file_raises sc (w : IO.world) :
  In sc all_scripts ->
  IO.files w !! script_path sc = None ->
  script_main sc w = (inl (IO.FileNotFoundError (script_path sc)), w).
Proof.
  unfold all_scripts, scripts, further_scripts, dotted_scripts. intros Hsc Hfile.
  apply in_app_or in Hsc as [Hsc|Hsc]; [|apply in_app_or in Hsc as [Hsc|Hsc]].
  - repeat (destruct Hsc as [<-|Hsc]); [| | | | | | | | | |exfalso; exact Hsc];
      cbn [script_path script_main] in *;
      unfold fix_diane_client.main, fix_diane_client2.main, fix_diane_client3.main,
        fix_diane_client4.main, fix_diane_client9.main, fix_diane_client10.main,
        patch_agents_view.main, patch_agents_view_model.main,
        patch_ios_agents_views.main, fix_http_client.main;
      unfold mbind, IO.io_bind, IO.read; by rewrite Hfile.
  - repeat (destruct Hsc as [<-|Hsc]); [| | | | | | | | |exfalso; exact Hsc];
      cbn [script_path script_main] in *;
      unfold fix_diane_client6.main, fix_diane_client7.main, fix_diane_client8.main,
        fix_mock.main, fix_install.main, fix_vm.main,
        update_agents_view_model.main, patch_agents_view_model2.main,
        patch_agents_view_model3.main;
      unfold mbind, IO.io_bind, IO.read; by rewrite Hfile.
  - repeat (destruct Hsc as [<-|Hsc]); [| |exfalso; exact Hsc];
      cbn [script_path script_main] in *;
      unfold fix_diane_client5.main, fix_diane_client12.main;
      unfold mbind, IO.io_bind, IO.read; by rewrite Hfile.
Qed.

Lemma missing_file_raises_witness :
  script_main
    (Script fix_diane_client3.path fix_diane_client3.steps fix_diane_client3.main)
    (IO.World ∅ []) =
  (inl (IO.FileNotFoundError fix_diane_client3.path), IO.World ∅ []).
Proof.
  apply (missing_file_raises
           (Script fix_diane_client3.path fix_diane_client3.steps
                   fix_diane_client3.main)).
  - unfold all_scripts, scripts. apply in_or_app. left. do 2 right. by left.
  - apply lookup_empty.
Defined.

(** X5: a script changes no file but its own: after a run every other
    path holds what it held before. *)
Theorem other_files_untouched sc (w : IO.world) (content : text) (p : string) :
  In sc all_scripts ->
  IO.files w !! script_path sc = Some content ->
  p <> script_path sc ->
  exists w', script_main sc w = (inr tt, w') /\
             IO.files w' !! p = IO.files w !! p.
Proof.
  intros Hsc Hfile Hp.
  destruct (script_runs sc w content Hsc Hfile) as (w' & final & _ & Hmain & Hw').
  exists w'. split; [done|]. rewrite Hw'. by apply lookup_insert_ne.
Qed.

Lemma other_files_untouched_witness :
  let sc := Script fix_install.path fix_install.steps fix_install.main in
  let w := IO.World (<[fix_install.path := lit "class C {}"]>
                       {[ fix_diane_client.path := lit "class D {}" ]}) [] in
  exists w', script_main sc w = (inr tt, w') /\
             IO.files w' !! fix_diane_client.path = IO.files w !! fix_diane_client.path.
Proof.
  cbv zeta.
  apply (other_files_untouched
           (Script fix_install.path fix_install.steps fix_install.main)
           _ (lit "class C {}")).
  - unfold all_scripts, further_scripts. apply in_or_app. right.
    apply in_or_app. left. do 4 right. by left.
  - apply lookup_insert_eq.
  - done.
Defined.

(** X6: every script but [patch_ios_agents_views.py] writes its file
    exactly once on every run that finds the file, whatever its steps
    did; the text written is the text left in the file. *)
Theorem writes_once_on_every_run sc (w : IO.world) (content : text) :
  In sc unconditional_writers ->
  IO.files w !! script_path sc = Some content ->
  exists w' final,
    script_main sc w = (inr tt, w') /\
    IO.files w' !! script_path sc = Some final /\
    writes_of (IO.trace w') = writes_of (IO.trace w) ++ [(script_path sc, final)].
Proof.
  unfold unconditional_writers. intros Hsc Hfile.
  apply in_app_or in Hsc as [Hsc|Hsc]; [|apply in_app_or in Hsc as [Hsc|Hsc]].
  - repeat (destruct Hsc as [<-|Hsc]); [| | | | | | | | |exfalso; exact Hsc];
      cbn [script_path script_main] in *;
      unfold fix_diane_client.main, fix_diane_client2.main, fix_diane_client3.main,
        fix_diane_client4.main, fix_diane_client9.main, fix_diane_client10.main,
        patch_agents_view.main, patch_agents_view_model.main, fix_http_client.main,
        patch_agents_view.update_fields, patch_agents_view.update_disabled,
        patch_agents_view_model.add_props, patch_agents_view_model.add_config;
      unfold mbind, mret, IO.io_bind, IO.io_ret, IO.read; rewrite Hfile;
      repeat (progress (rewrite ?fix_diane_client_patch, ?fix_diane_client2_patch,
                          ?fix_diane_client4_patch, ?fix_diane_client9_cleanup_total,
                          ?fix_diane_client9_inject, ?fix_http_client_sub_stub;
                        unfold IO.re_result; cbn beta iota));
      repeat (match goal with
              | |- context [(if Py.contains ?a ?b then _ else _) _] =>
                  destruct (Py.contains a b)
              end; unfold IO.print; cbn beta iota);
      unfold IO.write, IO.print; cbn beta iota;
      eexists _, _; (split; [reflexivity|]); cbn [IO.files IO.trace];
      (split; [apply lookup_insert_eq|]);
      rewrite ?writes_of_app; cbn [writes_of omap]; by rewrite ?app_nil_r.
  - destruct (further_scripts_plain sc Hsc) as [l Hl].
    destruct (further_main sc w content _ Hsc Hfile
                (plain_steps_run sc l content Hl)) as (w' & Hmain & Hw' & Htr).
    exists w', (replace_all (rules_of l) content).
    split; [done|]. split; [|done]. rewrite Hw'. apply lookup_insert_eq.
  - destruct (dotted_main sc w content Hsc Hfile)
      as (w' & final & _ & Hmain & Hw' & Htr).
    exists w', final.
    split; [done|]. split; [|done]. rewrite Hw'. apply lookup_insert_eq.
Qed.

Lemma writes_once_on_every_run_witness :
  let sc := Script patch_agents_view_model2.path patch_agents_view_model2.steps
                   patch_agents_view_model2.main in
  let w := one_file patch_agents_view_model2.path (lit "class AgentsViewModel {}") in
  exists w' final,
    script_main sc w = (inr tt, w') /\
    IO.files w' !! script_path sc = Some final /\
    writes_of (IO.trace w') = writes_of (IO.trace w) ++ [(script_path sc, final)].
Proof.
  cbv zeta.
  apply (writes_once_on_every_run
           (Script patch_agents_view_model2.path patch_agents_view_model2.steps
                   patch_agents_view_model2.main) _ (lit "class AgentsViewModel {}")).
  - unfold unconditional_writers, further_scripts. apply in_or_app. right.
    apply in_or_app. left. do 7 right. by left.
  - apply lookup_singleton_eq.
Defined.


Section AppendAgain.

Implicit Types (a r s : text) (c : ascii).

Lemma contains_char_cons c (z : ascii) r :
  Py.contains [c] (z :: r) = false -> z <> c /\ Py.contains [c] r = false.
Proof.
  cbn [Py.contains Py.startswith]. rewrite andb_true_r. intros H.
  apply orb_false_elim in H as [Hz Hr]. split; [|done].
  intros ->. by rewrite Ascii.eqb_refl in Hz.
Qed.

(** The last occurrence of a character cuts a text in one way only. *)
Lemma last_char_unique c a r a' r' :
  a ++ c :: r = a' ++ c :: r' ->
  Py.contains [c] r = false -> Py.contains [c] r' = false ->
  a = a' /\ r = r'.
Proof.
  intros E Hr Hr'. apply app_eq_app in E as [l [[-> E]|[-> E]]].
  - destruct l as [|z l]; [by rewrite app_nil_r; injection E|].
    injection E as -> ->. exfalso.
    assert (Py.contains [z] (l ++ [z] ++ r) = true) as H by apply contains_intro.
    simpl in H. by rewrite H in Hr'.
  - destruct l as [|z l]; [by rewrite app_nil_r; injection E|].
    injection E as -> ->. exfalso.
    assert (Py.contains [z] (l ++ [z] ++ r') = true) as H by apply contains_intro.
    simpl in H. by rewrite H in Hr.
Qed.

Lemma rsplit1_last c a r :
  Py.contains [c] r = false -> Py.rsplit1 [c] (a ++ c :: r) = [a; r].
Proof.
  intros Hr. unfold Py.rsplit1.
  pose proof (rfind_char c (a ++ c :: r)) as H.
  destruct (Py.rfind [c] (a ++ c :: r)) as [i|].
  - destruct H as (rest & Hs & Hrest).
    destruct (last_char_unique _ _ _ _ _ Hs Hr Hrest) as [Ha <-].
    assert (i = length a) as ->.
    { apply (f_equal length) in Ha.
      rewrite length_take, length_app in Ha. simpl in Ha. lia. }
    rewrite take_app_length. do 2 f_equal.
    replace (a ++ c :: r) with ((a ++ [c]) ++ r) by (by rewrite <- app_assoc).
    apply drop_app_length'. rewrite length_app. simpl. lia.
  - assert (Py.contains [c] (a ++ [c] ++ r) = true) as E by apply contains_intro.
    simpl in E. by rewrite E in H.
Qed.

End AppendAgain.

(** X7: a second run of [fix_diane_client3.py] cuts the text at the brace
    that ends the block of the first run, so only that brace and the
    line feed after it are dropped, and appends the block again: the
    function is then in the text twice. *)
Theorem fix_diane_client3_second_run (content : text) :
  exists kept body,
    fix_diane_client3.add_func = body ++ lit "}" ++ nl /\
    fix_diane_client3.patch content = kept ++ body ++ lit "}" ++ nl /\
    fix_diane_client3.patch (fix_diane_client3.patch content) =
      kept ++ body ++ fix_diane_client3.add_func.
Proof.
  set (body := take (length fix_diane_client3.add_func - 2)
                    fix_diane_client3.add_func).
  assert (fix_diane_client3.add_func = body ++ lit "}" ++ nl) as Hbody
    by (by vm_compute).
  assert (exists kept, fix_diane_client3.patch content =
                       kept ++ fix_diane_client3.add_func) as [kept Hkept].
  { unfold fix_diane_client3.patch, Py.rsplit1.
    destruct (Py.rfind (lit "}") content); eexists; reflexivity. }
  exists kept, body. split; [done|]. split; [by rewrite Hkept, Hbody at 1|].
  rewrite Hkept. rewrite Hbody at 1.
  unfold fix_diane_client3.patch at 1.
  replace (kept ++ body ++ lit "}" ++ nl)
    with ((kept ++ body) ++ "}"%char :: nl) by (by rewrite <- app_assoc).
  change (lit "}") with ["}"%char].
  rewrite rsplit1_last by (by vm_compute). by rewrite <- app_assoc.
Qed.

(** X8: after a guarded insertion the signature is in the text exactly
    when it was there before or the marker was: the function ends up
    defined wherever there was a place to put it. *)
Theorem guarded_insert_postcondition (content : text) :
  (exists t, fix_diane_client2.patch content = Some t /\
     Py.contains fix_diane_client2.signature t =
       Py.contains fix_diane_client2.signature content ||
       Py.contains fix_diane_client2.marker content) /\
  Py.contains fix_diane_client10.signature (fix_diane_client10.patch content) =
    Py.contains fix_diane_client10.signature content ||
    Py.contains fix_diane_client10.marker content.
Proof.
  assert (forall sig old new,
            old <> [] -> Py.contains sig new = true ->
            Py.contains sig (if Py.contains sig content then content
                             else Py.replace old new content) =
            Py.contains sig content || Py.contains old content) as H.
  { intros sig old new Hold Hnew.
    destruct (Py.contains sig content) eqn:E; [by rewrite E|]. cbn [orb].
    destruct (Py.contains old content) eqn:Eold.
    - destruct (contains_first _ _ Eold) as (pre & post & -> & Hfirst).
      rewrite replace_first by done. by apply contains_middle.
    - by rewrite replace_absent. }
  split.
  - eexists. split; [apply fix_diane_client2_patch|]. apply H; by vm_compute.
  - rewrite fix_diane_client10_patch. apply H; by vm_compute.
Qed.

Section ScanGrowth.

Implicit Types (m : text -> option (nat * text)) (s t pre : text) (r : Re.regex).

(** Where every replacement is at least as long as its match, the
    substitution loop never shortens the text. *)
Lemma scan_length_ge m s k :
  (forall t n x, m t = Some (n, x) -> n <= length x) ->
  length s <= k + length (Py.scan m s k).
Proof.
  intros Hm. revert k. induction s as [|c s IH]; intros k; [simpl; lia|].
  destruct k as [|k]; cbn [Py.scan].
  - destruct (m (c :: s)) as [[[|n] x]|] eqn:E.
    + rewrite length_app. simpl. specialize (IH 0). lia.
    + rewrite length_app. specialize (IH n). apply Hm in E. simpl. lia.
    + simpl. specialize (IH 0). lia.
  - specialize (IH k). simpl. lia.
Qed.

Lemma search_first r s :
  Re.search r s = true ->
  exists pre t n g,
    s = pre ++ t /\
    (forall j, j < length pre -> Re.match_here r (drop j s) = None) /\
    Re.match_here r t = Some (n, g).
Proof.
  induction s as [|c s IH]; intros H; cbn [Re.search] in H.
  - destruct (Re.match_here r []) as [[n g]|] eqn:E; [|done].
    exists [], [], n, g. repeat split; [|done]. simpl. lia.
  - destruct (Re.match_here r (c :: s)) as [[n g]|] eqn:E.
    + exists [], (c :: s), n, g. repeat split; [|done]. simpl. lia.
    + destruct (IH H) as (pre & t & n & g & -> & Hfirst & Hm).
      exists (c :: pre), t, n, g. repeat split; [|done].
      intros [|j] Hj; [exact E|]. apply Hfirst. simpl in Hj. lia.
Qed.

End ScanGrowth.

Section IosSection.

Implicit Types (content t : text) (w : IO.world).

Lemma patch_ios_sub_at t n x :
  Re.sub_at patch_ios_agents_views.pattern patch_ios_agents_views.replacement t
    = Some (n, x) ->
  0 < n /\ n <= length t /\
  x = take n t ++ patch_ios_agents_views.workspace_section.
Proof.
  unfold Re.sub_at.
  destruct (Re.match_here patch_ios_agents_views.pattern t) as [[n' g]|] eqn:Hm;
    [|done].
  intros [= -> <-].
  assert (g = Some n) as ->.
  { unfold patch_ios_agents_views.pattern in Hm.
    eapply match_here_group; [|exact Hm]. by vm_compute. }
  destruct (match_here_bound _ _ _ _ Hm) as [Hn _].
  split; [|split; [done|]].
  - destruct n; [|lia]. exfalso. destruct t as [|c t]; [done|].
    unfold patch_ios_agents_views.pattern in Hm.
    cbn [Re.group Re.chars lit list_ascii_of_string map app Re.match_here] in Hm.
    destruct (Ascii.eqb _ c); [|done].
    by apply bump_some in Hm as (? & ? & _ & ? & _).
  - change (take n t ++ patch_ios_agents_views.workspace_section ++ [] =
            take n t ++ patch_ios_agents_views.workspace_section).
    by rewrite app_nil_r.
Qed.

(** The substitution of [patch_ios_agents_views.py] changes the text
    exactly when its pattern is found, and then makes it longer by at
    least one workspace section. *)
Lemma patch_ios_agents_views_changes_iff_found content :
  exists t,
    patch_ios_agents_views.patch content = Some t /\
    (Re.search patch_ios_agents_views.pattern content = true ->
     length content + length patch_ios_agents_views.workspace_section
       <= length t) /\
    (Re.search patch_ios_agents_views.pattern content = false -> t = content).
Proof.
  eexists. split; [apply patch_ios_agents_views_patch_total|]. split.
  - intros Hs.
    destruct (search_first _ _ Hs) as (pre & t & n & g & -> & Hfirst & Hm).
    assert (Re.sub_at patch_ios_agents_views.pattern
              patch_ios_agents_views.replacement t =
            Some (n, Re.expand patch_ios_agents_views.replacement
                       (take (default 0 g) t))) as Hat.
    { unfold Re.sub_at. by rewrite Hm. }
    destruct (patch_ios_sub_at _ _ _ Hat) as (Hn & Hlen & Hx).
    assert (forall j, j < length pre ->
              Re.sub_at patch_ios_agents_views.pattern
                patch_ios_agents_views.replacement (drop j (pre ++ t)) = None)
      as Hpre.
    { intros j Hj. unfold Re.sub_at. by rewrite Hfirst. }
    rewrite (scan_first _ pre t n _ Hpre Hat Hn Hlen).
    rewrite Hx, !length_app, length_take.
    assert (length (drop n t) <= 0 + length (Py.scan
                (Re.sub_at patch_ios_agents_views.pattern
                   patch_ios_agents_views.replacement) (drop n t) 0)) as Hge'.
    { apply scan_length_ge. intros t' n' x' H'.
      destruct (patch_ios_sub_at _ _ _ H') as (_ & Hl & ->).
      rewrite length_app, length_take. lia. }
    rewrite length_drop in Hge'. lia.
  - intros Hs. apply scan_none. intros j. unfold Re.sub_at.
    by rewrite search_false.
Qed.

End IosSection.

(** X9: [patch_ios_agents_views.py] reports what it did.  When its
    pattern is found the text grows, the file is written and the script
    prints that it patched the file; when the pattern is not found the
    file is left alone and the script prints that it could not find the
    section. *)
Theorem patch_ios_agents_views_reports (w : IO.world) (content : text) :
  IO.files w !! patch_ios_agents_views.path = Some content ->
  exists w',
    patch_ios_agents_views.main w = (inr tt, w') /\
    if Re.search patch_ios_agents_views.pattern content
    then exists t,
           length content < length t /\
           IO.files w' = <[patch_ios_agents_views.path := t]> (IO.files w) /\
           IO.trace w' =
             IO.trace w ++
             [IO.Written patch_ios_agents_views.path t;
              IO.Printed "Patched AgentsViews.swift successfully"]
    else IO.files w' = IO.files w /\
         IO.trace w' =
           IO.trace w ++
           [IO.Printed "Could not find Connection section in AgentsViews.swift"].
Proof.
  intros Hfile.
  destruct (patch_ios_agents_views_changes_iff_found content)
    as (t & Hpatch & Hfound & Habsent).
  unfold patch_ios_agents_views.main, mbind, IO.io_bind, IO.read.
  rewrite Hfile, Hpatch. unfold IO.re_result. cbn beta iota.
  destruct (Re.search patch_ios_agents_views.pattern content).
  - specialize (Hfound eq_refl).
    assert (length content < length t) as Hlt.
    { assert (0 < length patch_ios_agents_views.workspace_section)
        by (vm_compute; lia). lia. }
    rewrite bool_decide_eq_true_2; [|intros ->; lia].
    eexists. split; [reflexivity|]. exists t. split; [done|].
    cbn [IO.write IO.print IO.files IO.trace]. split; [done|].
    by rewrite <- app_assoc.
  - rewrite (Habsent eq_refl). rewrite bool_decide_eq_false_2 by (by intros []).
    eexists. split; [reflexivity|]. done.
Qed.

Lemma patch_ios_agents_views_reports_witness :
  exists w',
    patch_ios_agents_views.main
      (one_file patch_ios_agents_views.path (lit "struct AgentsViews {}"))
      = (inr tt, w') /\
    IO.files w' =
      IO.files (one_file patch_ios_agents_views.path (lit "struct AgentsViews {}")) /\
    IO.trace w' =
      [IO.Printed "Could not find Connection section in AgentsViews.swift"].
Proof.
  destruct (patch_ios_agents_views_reports
              (one_file patch_ios_agents_views.path (lit "struct AgentsViews {}"))
              (lit "struct AgentsViews {}")) as (w' & Hmain & H).
  { apply lookup_singleton_eq. }
  exists w'. split; [exact Hmain|].
  assert (Re.search patch_ios_agents_views.pattern (lit "struct AgentsViews {}")
          = false) as E by (by vm_compute).
  rewrite E in H. exact H.
Defined.

Section InJoin.

Implicit Types (x y o old new a b c d s p pre post : text) (parts : list text).

Lemma contains_trans a b s :
  Py.contains a b = true -> Py.contains b s = true -> Py.contains a s = true.
Proof.
  intros Hab Hbs. destruct (contains_first _ _ Hbs) as (p & q & -> & _).
  by apply contains_middle.
Qed.

Lemma contains_occurs sub s c d :
  s = c ++ sub ++ d -> Py.contains sub s = true.
Proof. intros ->. apply contains_intro. Qed.

Lemma contains_elim sub s :
  Py.contains sub s = true -> exists c d, s = c ++ sub ++ d.
Proof.
  intros H. destruct (contains_first _ _ H) as (c & d & -> & _). by exists c, d.
Qed.

(** An occurrence of [o] in [p ++ y] lies in [p], lies in [y], or ends
    with a start of [y] that is a proper end of [o]. *)
Lemma contains_app_free o p y :
  Py.contains o p = false -> Py.contains o y = false ->
  suffix_clash (tail o) y = false ->
  Py.contains o (p ++ y) = false.
Proof.
  intros Hp Hy Hclash.
  destruct (Py.contains o (p ++ y)) eqn:E; [|done]. exfalso.
  destruct (contains_elim _ _ E) as (c & d & Hcd).
  apply app_eq_app in Hcd as [l [[Hpc Hcd]|[Hpc Hcd]]].
  - apply app_eq_app in Hcd as [l2 [[Ho Hyd]|[Hl Hd]]].
    + destruct l as [|z l].
      * rewrite app_nil_l in Ho. subst l2.
        by rewrite (contains_occurs o y [] d) in Hy.
      * destruct l2 as [|z2 l2].
        { rewrite app_nil_r in Ho. subst o.
          by rewrite (contains_occurs (z :: l) p c []) in Hp
            by (by rewrite app_nil_r). }
        subst o. cbn [tail app] in Hclash.
        pose proof (suffix_clash_false _ _ l (z2 :: l2) Hclash eq_refl) as Hc.
        specialize (Hc ltac:(done)). unfold comparable in Hc.
        rewrite Hyd, startswith_app in Hc. done.
    + subst l. by rewrite (contains_occurs o p c l2) in Hp.
  - by rewrite (contains_occurs o y l d) in Hy.
Qed.

(** No occurrence of [old] in [pre] followed by all of [old] but its
    last character: the first occurrence in [pre ++ old ++ post] is the
    one after [pre]. *)
Lemma no_early_occurrence old pre post j :
  old <> [] ->
  Py.contains old (pre ++ removelast old) = false ->
  j < length pre ->
  Py.startswith old (drop j (pre ++ old ++ post)) = false.
Proof.
  intros Hold Hfree Hj.
  destruct (Py.startswith old (drop j (pre ++ old ++ post))) eqn:E; [|done].
  exfalso. apply startswith_prefix in E as [k Hk].
  pose proof (app_removelast_last (ascii_of_nat 0) Hold) as Hlast.
  set (y := pre ++ removelast old) in *.
  set (z := List.last old (ascii_of_nat 0)) in *.
  assert (pre ++ old ++ post = y ++ z :: post) as Hs.
  { unfold y. rewrite Hlast at 1. by rewrite <- !app_assoc. }
  assert (length y = length pre + length old - 1) as Hy.
  { unfold y. rewrite length_app.
    apply (f_equal length) in Hlast. rewrite length_app in Hlast.
    simpl in Hlast. lia. }
  assert (length old <> 0) as Hlen by (by destruct old).
  rewrite Hs in Hk.
  assert (drop j y ++ z :: post = old ++ k) as Hk'.
  { rewrite <- Hk. rewrite drop_app_le; [done|lia]. }
  apply app_eq_app in Hk' as [l [[Hd _]|[Hd Hz]]].
  - (* [old] fits in what is left of [y] *)
    rewrite (contains_occurs old y (take j y) l) in Hfree; [done|].
    by rewrite <- Hd, take_drop.
  - destruct l as [|z' l].
    + rewrite (contains_occurs old y (take j y) []) in Hfree; [done|].
      by rewrite Hd, !app_nil_r, take_drop.
    + apply (f_equal length) in Hd.
      rewrite length_app, length_drop in Hd. simpl in Hd. lia.
Qed.

Lemma scan_keep_prefix (m : text -> option (nat * text)) b s :
  (forall j, j < length b -> m (drop j (b ++ s)) = None) ->
  Py.scan m (b ++ s) 0 = b ++ Py.scan m s 0.
Proof.
  induction b as [|c b IH]; intros H; [done|].
  pose proof (H 0 ltac:(simpl; lia)) as H0. simpl in H0.
  simpl. rewrite H0. f_equal. apply IH.
  intros j Hj. apply (H (S j)). simpl. lia.
Qed.

(** No occurrence of [old] starts inside [b]. *)
Lemma replace_skip_prefix old new b s :
  suffix_clash b old = false ->
  Py.replace old new (b ++ s) = b ++ Py.replace old new s.
Proof.
  intros Hclash. apply scan_keep_prefix. intros j Hj.
  unfold Py.replace_at.
  destruct (Py.startswith old (drop j (b ++ s))) eqn:E; [|done]. exfalso.
  apply startswith_prefix in E as [k Hk].
  rewrite drop_app_le in Hk by lia.
  assert (drop j b <> []) as Hne.
  { intros H. apply (f_equal length) in H. rewrite length_drop in H.
    simpl in H. lia. }
  pose proof (suffix_clash_false b old (take j b) (drop j b) Hclash
                (eq_sym (take_drop j b)) Hne) as Hc.
  by rewrite (startswith_app_eq _ _ _ _ Hk) in Hc.
Qed.

(** A text cut at separators [a ++ old ++ b] into pieces free of [old],
    where [old] can start neither in a piece and run into the separator,
    nor inside [a], nor inside [b]: replacing [old] rewrites exactly the
    separators. *)
Lemma replace_in_join old new a b parts :
  old <> [] ->
  Forall (fun p => Py.contains old p = false) parts ->
  Py.contains old (a ++ removelast old) = false ->
  suffix_clash (tail old) (a ++ removelast old) = false ->
  suffix_clash b old = false ->
  Py.replace old new (Py.join (a ++ old ++ b) parts) =
  Py.join (a ++ new ++ b) parts.
Proof.
  intros Hold Hall Ha Hclash Hb. induction Hall as [|p parts Hp Hall IH].
  - apply replace_absent. by destruct old.
  - destruct parts as [|q parts]; [by apply replace_absent|].
    rewrite (join_cons (a ++ old ++ b) p (q :: parts)) by done.
    replace (p ++ (a ++ old ++ b) ++ Py.join (a ++ old ++ b) (q :: parts))
      with ((p ++ a) ++ old ++ (b ++ Py.join (a ++ old ++ b) (q :: parts)))
      by (by rewrite <- !app_assoc).
    rewrite replace_first; [|done|].
    + rewrite replace_skip_prefix by done. rewrite IH.
      rewrite (join_cons (a ++ new ++ b) p (q :: parts)) by done.
      by rewrite <- !app_assoc.
    + intros j Hj. apply no_early_occurrence; [done| |done].
      rewrite <- app_assoc. by apply contains_app_free.
Qed.

End InJoin.

Section Chains.

Implicit Types (x old new s : text) (parts : list text).

(** The pieces between the occurrences of [old] serve every new text. *)
Lemma replace_join_all old s :
  old <> [] ->
  exists parts,
    s = Py.join old parts /\
    Forall (fun p => Py.contains old p = false) parts /\
    forall new, Py.replace old new s = Py.join new parts.
Proof.
  intros Hold.
  remember (length s) as n eqn:Hn. revert s Hn.
  induction n as [n IH] using lt_wf_ind. intros s ->.
  destruct (Py.contains old s) eqn:E.
  - destruct (contains_first _ _ E) as (pre & post & -> & Hfirst).
    destruct (IH (length post)) with (s := post) as (parts & Hs & Hall & Hr).
    { rewrite !length_app. destruct old; [done|simpl; lia]. }
    { done. }
    destruct parts as [|q parts].
    + simpl in Hs. subst post.
      assert (Py.contains old [] = false) as Hnil by (by destruct old).
      exists [pre; []]. split; [done|]. split.
      * constructor; [by eapply first_no_contains|by repeat constructor].
      * intros new. rewrite replace_first by done.
        by rewrite (replace_absent _ _ _ Hnil).
    + exists (pre :: q :: parts). split; [|split].
      * rewrite join_cons by done. by rewrite <- Hs.
      * constructor; [|done]. by eapply first_no_contains.
      * intros new. rewrite replace_first, join_cons by done. by rewrite Hr.
  - exists [s]. split; [done|]. split; [by repeat constructor|].
    intros new. by apply replace_absent.
Qed.

Lemma parts_free_of o sep parts :
  Py.contains o (Py.join sep parts) = false ->
  Forall (fun p => Py.contains o p = false) parts.
Proof.
  intros H. apply Forall_forall. intros p Hp. apply list_elem_of_In in Hp.
  destruct (Py.contains o p) eqn:E; [|done].
  by rewrite (contains_join_part _ _ _ _ Hp E) in H.
Qed.

End Chains.

(** X10: [fix_diane_client4.py] swaps exactly the function that
    [fix_diane_client.py] inserted.  On a text that does not hold that
    function before, running the two scripts one after the other gives
    what inserting the new function after every marker gives. *)
Theorem insert_then_swap (x : text) :
  Py.contains fix_diane_client4.old_func x = false ->
  exists t,
    fix_diane_client.patch x = Some t /\
    fix_diane_client4.patch t =
      Some (Py.replace fix_diane_client.marker
              (fix_diane_client.marker ++ nl ++
               Py.strip nl fix_diane_client4.add_func ++ nl) x).
Proof.
  intros Hfree. eexists. split; [apply fix_diane_client_patch|].
  rewrite fix_diane_client4_patch. f_equal.
  destruct (replace_join_all fix_diane_client.marker x)
    as (parts & Hx & _ & Hr); [by vm_compute|].
  rewrite !Hr. rewrite Hx in Hfree. apply parts_free_of in Hfree.
  replace (fix_diane_client.marker ++ fix_diane_client.add_func)
    with ((fix_diane_client.marker ++ nl) ++ fix_diane_client4.old_func ++ nl)
    by (by vm_compute).
  rewrite replace_in_join; [|by vm_compute|done|by vm_compute..].
  by rewrite <- app_assoc.
Qed.

Lemma insert_then_swap_witness :
  exists t,
    fix_diane_client.patch (lit "class C {" ++ nl ++ fix_diane_client.marker ++ lit "}")
      = Some t /\
    fix_diane_client4.patch t =
      Some (Py.replace fix_diane_client.marker
              (fix_diane_client.marker ++ nl ++
               Py.strip nl fix_diane_client4.add_func ++ nl)
              (lit "class C {" ++ nl ++ fix_diane_client.marker ++ lit "}")).
Proof.
  apply (insert_then_swap
           (lit "class C {" ++ nl ++ fix_diane_client.marker ++ lit "}")).
  by vm_compute.
Defined.

(** X11: [fix_diane_client7.py] replaces exactly the function that
    [fix_diane_client6.py] wrote.  On a text that does not hold that
    function before, running the two scripts one after the other gives
    what replacing the old function of the first by the new function of
    the second gives. *)
Theorem fix_diane_client6_then_7 (x : text) :
  Py.contains fix_diane_client7.old_func x = false ->
  exists t,
    fix_diane_client6.patch x = Some t /\
    fix_diane_client7.patch t =
      Some (Py.replace fix_diane_client6.old_func
              (Py.strip nl fix_diane_client7.add_func) x).
Proof.
  intros Hfree. eexists. split; [apply fix_diane_client6_patch|].
  rewrite fix_diane_client7_patch. f_equal.
  destruct (replace_join_all fix_diane_client6.old_func x)
    as (parts & Hx & _ & Hr); [by vm_compute|].
  rewrite !Hr. rewrite Hx in Hfree. apply parts_free_of in Hfree.
  pose proof (replace_in_join fix_diane_client7.old_func
                (Py.strip nl fix_diane_client7.add_func) [] [] parts) as H.
  rewrite !app_nil_l, !app_nil_r in H.
  replace (Py.strip nl fix_diane_client6.add_func)
    with fix_diane_client7.old_func by (by vm_compute).
  apply H; [by vm_compute|done|by vm_compute..].
Qed.

Lemma fix_diane_client6_then_7_witness :
  exists t,
    fix_diane_client6.patch (fix_diane_client6.old_func ++ nl ++ lit "}") = Some t /\
    fix_diane_client7.patch t =
      Some (Py.replace fix_diane_client6.old_func
              (Py.strip nl fix_diane_client7.add_func)
              (fix_diane_client6.old_func ++ nl ++ lit "}")).
Proof.
  apply (fix_diane_client6_then_7 (fix_diane_client6.old_func ++ nl ++ lit "}")).
  by vm_compute.
Defined.

(** X12: [fix_diane_client4.py] swaps exactly the function that the
    guarded insertion of [fix_diane_client2.py] put in.  On a text
    without the signature, running [fix_diane_client2.py] and then
    [fix_diane_client4.py] gives what inserting the new function before
    every marker gives. *)
Theorem guarded_insert_then_swap (x : text) :
  Py.contains fix_diane_client2.signature x = false ->
  exists t,
    fix_diane_client2.patch x = Some t /\
    fix_diane_client4.patch t =
      Some (Py.replace fix_diane_client2.marker
              (nl ++ Py.strip nl fix_diane_client4.add_func ++ nl ++ nl ++
               fix_diane_client2.marker) x).
Proof.
  intros Hsig. eexists. split; [apply fix_diane_client2_patch|].
  rewrite Hsig, fix_diane_client4_patch. f_equal.
  assert (Py.contains fix_diane_client4.old_func x = false) as Hfree.
  { destruct (Py.contains fix_diane_client4.old_func x) eqn:E; [|done].
    assert (Py.contains fix_diane_client2.signature fix_diane_client4.old_func
            = true) as Hso by (by vm_compute).
    by rewrite (contains_trans _ _ _ Hso E) in Hsig. }
  destruct (replace_join_all fix_diane_client2.marker x)
    as (parts & Hx & _ & Hr); [by vm_compute|].
  rewrite !Hr. rewrite Hx in Hfree. apply parts_free_of in Hfree.
  replace ((fix_diane_client2.add_func ++ nl) ++ fix_diane_client2.marker)
    with (nl ++ fix_diane_client4.old_func ++ (nl ++ nl ++ fix_diane_client2.marker))
    by (by vm_compute).
  by rewrite replace_in_join; [|by vm_compute|done|by vm_compute..].
Qed.

Lemma guarded_insert_then_swap_witness :
  exists t,
    fix_diane_client2.patch (lit "class C {" ++ nl ++ fix_diane_client2.marker ++ lit "}")
      = Some t /\
    fix_diane_client4.patch t =
      Some (Py.replace fix_diane_client2.marker
              (nl ++ Py.strip nl fix_diane_client4.add_func ++ nl ++ nl ++
               fix_diane_client2.marker)
              (lit "class C {" ++ nl ++ fix_diane_client2.marker ++ lit "}")).
Proof.
  apply (guarded_insert_then_swap
           (lit "class C {" ++ nl ++ fix_diane_client2.marker ++ lit "}")).
  by vm_compute.
Defined.

Section RoundTrip.

Implicit Types (pre post old new x : text).

(** One occurrence, with nothing like it before or after, of a text
    none of whose proper ends is a start of it: the replacement rewrites
    that occurrence and nothing else. *)
Lemma replace_single old new pre post :
  old <> [] ->
  Py.contains old pre = false ->
  Py.contains old post = false ->
  suffix_clash (tail old) (removelast old) = false ->
  Py.replace old new (pre ++ old ++ post) = pre ++ new ++ post.
Proof.
  intros Hold Hpre Hpost Hunb.
  rewrite replace_first; [by rewrite (replace_absent _ _ _ Hpost)|done|].
  intros j Hj. apply no_early_occurrence; [done| |done].
  apply contains_app_free; [done| |done].
  destruct (Py.contains old (removelast old)) eqn:E; [|done]. exfalso.
  destruct (contains_elim _ _ E) as (c & d & Hcd).
  apply (f_equal length) in Hcd.
  pose proof (app_removelast_last (ascii_of_nat 0) Hold) as Hlast.
  apply (f_equal length) in Hlast.
  rewrite !length_app in *. simpl in Hlast. lia.
Qed.

Lemma contains_prefix_free o b s :
  suffix_clash b o = false -> Py.contains o s = false ->
  Py.contains o (b ++ s) = false.
Proof.
  intros Hb Hs. destruct (Py.contains o (b ++ s)) eqn:E; [|done]. exfalso.
  destruct (contains_elim _ _ E) as (c & d & Hcd).
  apply app_eq_app in Hcd as [l [[Hbc Hl]|[Hc Hsl]]].
  - destruct l as [|z l].
    + by rewrite (contains_occurs o s [] d) in Hs.
    + pose proof (suffix_clash_false b o c (z :: l) Hb Hbc ltac:(done)) as Hc.
      by rewrite (startswith_app_eq _ _ _ _ (eq_sym Hl)) in Hc.
  - by rewrite (contains_occurs o s l d) in Hs.
Qed.

End RoundTrip.

(** X13: [fix_diane_client8.py] undoes [fix_diane_client7.py] where the
    function is the last member of the class.  On a text that holds the
    function written by [fix_diane_client6.py] once, just before the
    closing brace, and neither that function nor its successor anywhere
    else, running [fix_diane_client7.py] and then [fix_diane_client8.py]
    gives the text back with one line feed added after the brace. *)
Theorem fix_diane_client7_then_8 (pre post : text) :
  let func := fix_diane_client7.old_func in
  let next := Py.strip nl fix_diane_client7.add_func in
  Py.contains func pre = false -> Py.contains func post = false ->
  Py.contains next pre = false -> Py.contains next post = false ->
  exists t,
    fix_diane_client7.patch (pre ++ func ++ nl ++ lit "}" ++ post) = Some t /\
    fix_diane_client8.patch t =
      Some (pre ++ func ++ nl ++ lit "}" ++ nl ++ post).
Proof.
  intros func next Hfpre Hfpost Hnpre Hnpost.
  eexists. split; [apply fix_diane_client7_patch|].
  rewrite fix_diane_client8_patch. f_equal. fold func next.
  rewrite (replace_single func next pre (nl ++ lit "}" ++ post));
    [|by vm_compute|done| |by vm_compute].
  - replace (pre ++ next ++ nl ++ lit "}" ++ post)
      with (pre ++ fix_diane_client8.old_func ++ post)
      by (unfold next;
          replace fix_diane_client8.old_func
            with (Py.strip nl fix_diane_client7.add_func ++ nl ++ lit "}")
            by (by vm_compute);
          by rewrite <- !app_assoc).
    assert (Py.contains next fix_diane_client8.old_func = true) as Hin
      by (by vm_compute).
    rewrite replace_single; [|by vm_compute| | |by vm_compute].
    + replace (Py.strip nl fix_diane_client8.add_func ++ nl)
        with (func ++ nl ++ lit "}" ++ nl) by (by vm_compute).
      by rewrite <- !app_assoc.
    + destruct (Py.contains fix_diane_client8.old_func pre) eqn:E; [|done].
      by rewrite (contains_trans _ _ _ Hin E) in Hnpre.
    + destruct (Py.contains fix_diane_client8.old_func post) eqn:E; [|done].
      by rewrite (contains_trans _ _ _ Hin E) in Hnpost.
  - replace (nl ++ lit "}" ++ post) with ((nl ++ lit "}") ++ post)
      by (by rewrite <- app_assoc).
    apply contains_prefix_free; [by vm_compute|done].
Qed.

Lemma fix_diane_client7_then_8_witness :
  exists t,
    fix_diane_client7.patch
      (lit "class C {" ++ nl ++ fix_diane_client7.old_func ++ nl ++ lit "}" ++ nl)
      = Some t /\
    fix_diane_client8.patch t =
      Some (lit "class C {" ++ nl ++ fix_diane_client7.old_func ++ nl ++ lit "}" ++
            nl ++ nl).
Proof.
  apply (fix_diane_client7_then_8 (lit "class C {" ++ nl) nl); by vm_compute.
Defined.

(** X14: [fix_http_client2.py] patches two files one after the other and
    writes the first before it opens the second.  With both files there,
    each gets its insertion after every marker.  With the protocol file
    missing, the script raises [FileNotFoundError] for it after the
    client file has been written: the first half of the change stays. *)
Theorem fix_http_client2_two_files (w : IO.world) (client : text) :
  IO.files w !! fix_http_client2.client_path = Some client ->
  let client' :=
    Py.replace fix_http_client2.marker
      (fix_http_client2.marker ++ fix_http_client2.add_func) client in
  exists w',
    match IO.files w !! fix_http_client2.proto_path with
    | Some proto =>
        fix_http_client2.main w = (inr tt, w') /\
        IO.files w' =
          <[fix_http_client2.proto_path :=
              Py.replace fix_http_client2.marker
                (fix_http_client2.marker ++ fix_http_client2.declaration) proto]>
            (<[fix_http_client2.client_path := client']> (IO.files w))
    | None =>
        fix_http_client2.main w =
          (inl (IO.FileNotFoundError fix_http_client2.proto_path), w') /\
        IO.files w' = <[fix_http_client2.client_path := client']> (IO.files w) /\
        writes_of (IO.trace w') =
          writes_of (IO.trace w) ++ [(fix_http_client2.client_path, client')]
    end.
Proof.
  intros Hclient client'.
  assert (forall tm s,
            forallb (Re.titem_ok 1) tm = true ->
            Re.sub fix_http_client2.pattern tm s =
            Some (Py.replace fix_http_client2.marker
                    (Re.expand tm fix_http_client2.marker) s)) as Hsub.
  { intros tm s Hok. unfold fix_http_client2.pattern.
    apply sub_group_chars. exact Hok. }
  unfold fix_http_client2.main, mbind, IO.io_bind, IO.read.
  rewrite Hclient, Hsub by done.
  unfold IO.re_result, IO.write. cbn beta iota. cbn [IO.files IO.trace].
  rewrite lookup_insert_ne by done.
  destruct (IO.files w !! fix_http_client2.proto_path) as [proto|].
  - rewrite Hsub by done. cbn beta iota. eexists. split; [reflexivity|].
    cbn [IO.files fix_http_client2.template fix_http_client2.proto_template
         Re.expand].
    by rewrite !app_nil_r.
  - eexists. split; [reflexivity|]. cbn [IO.files IO.trace].
    cbn [fix_http_client2.template Re.expand]. rewrite app_nil_r.
    split; [done|]. rewrite writes_of_app. done.
Qed.

Lemma fix_http_client2_two_files_witness :
  exists w',
    fix_http_client2.main
      (one_file fix_http_client2.client_path fix_http_client2.marker) =
      (inl (IO.FileNotFoundError fix_http_client2.proto_path), w') /\
    IO.files w' =
      <[fix_http_client2.client_path :=
          Py.replace fix_http_client2.marker
            (fix_http_client2.marker ++ fix_http_client2.add_func)
            fix_http_client2.marker]>
        (IO.files (one_file fix_http_client2.client_path fix_http_client2.marker)) /\
    writes_of (IO.trace w') =
      [(fix_http_client2.client_path,
        Py.replace fix_http_client2.marker
          (fix_http_client2.marker ++ fix_http_client2.add_func)
          fix_http_client2.marker)].
Proof.
  destruct (fix_http_client2_two_files
              (one_file fix_http_client2.client_path fix_http_client2.marker)
              fix_http_client2.marker) as [w' H].
  { apply lookup_singleton_eq. }
  exists w'.
  assert (IO.files (one_file fix_http_client2.client_path fix_http_client2.marker)
            !! fix_http_client2.proto_path = None) as E.
  { apply lookup_singleton_ne. done. }
  rewrite E in H. exact H.
Defined.

Section CleanupShape.

Implicit Types (r : Re.regex) (t p : text).

(** A pattern that starts with literal characters matches only a text
    that starts with them. *)
Lemma match_here_chars_app p r t n g :
  Re.match_here (Re.chars p ++ r) t = Some (n, g) ->
  Py.startswith p t = true.
Proof.
  revert t n g. induction p as [|a p IH]; intros t n g H; [done|].
  destruct t as [|b t]; [done|]. cbn [Re.chars map app Re.match_here] in H.
  cbn [Py.startswith]. destruct (Ascii.eqb a b); [|done].
  apply bump_some in H as (n' & g' & H & _ & _). by apply (IH t n' g').
Qed.

(** A pattern that ends with [$] matches up to the end of the text, or
    up to the line feed that ends it. *)
Lemma match_here_end_anchor r t n g :
  Re.match_here (r ++ [Re.EndAnchor]) t = Some (n, g) ->
  Re.at_end (drop n t) = true.
Proof.
  revert t n g. induction r as [|i r IH]; intros t n g H.
  - cbn [app Re.match_here] in H.
    destruct (Re.at_end t) eqn:E; [|done]. by injection H as <- <-.
  - change ((i :: r) ++ [Re.EndAnchor]) with (i :: (r ++ [Re.EndAnchor])) in H.
    destruct i; cbn [Re.match_here] in H.
    + destruct t as [|c' t]; [done|]. destruct (Ascii.eqb c c'); [|done].
      apply bump_some in H as (n' & g' & H & -> & ->). by apply (IH t n' g').
    + revert n g H. induction t as [|c t IHt]; intros n g H.
      * destruct (Re.match_here (r ++ [Re.EndAnchor]) []) as [[n' g']|] eqn:E;
          [|done].
        injection H as <- <-. by apply (IH [] n' g').
      * destruct (Re.match_here (r ++ [Re.EndAnchor]) (c :: t))
          as [[n' g']|] eqn:E.
        { injection H as <- <-. by apply (IH (c :: t) n' g'). }
        apply bump_some in H as (n' & g' & H & -> & ->). by apply (IHt n' g').
    + destruct t as [|c0 t]; [done|].
      apply bump_some in H as (n' & g' & H & -> & ->). cbn [drop].
      clear c0. revert n' g' H. induction t as [|c t IHt]; intros n g H.
      * destruct (Re.match_here (r ++ [Re.EndAnchor]) []) as [[n' g']|] eqn:E;
          [|done].
        injection H as <- <-. by apply (IH [] n' g').
      * destruct (Re.match_here (r ++ [Re.EndAnchor]) (c :: t))
          as [[n' g']|] eqn:E.
        { injection H as <- <-. by apply (IH (c :: t) n' g'). }
        apply bump_some in H as (n' & g' & H & -> & ->). by apply (IHt n' g').
    + destruct (Re.match_here (r ++ [Re.EndAnchor]) t) as [[n' g']|] eqn:E;
        [|done].
      injection H as <- <-. by apply (IH t n' g').
    + destruct (Re.at_end t); [|done]. by apply (IH t n g).
Qed.

Lemma at_end_cases t : Re.at_end t = true -> t = [] \/ t = nl.
Proof.
  destruct t as [|c [|c' t]]; [by left| |done].
  simpl. intros H. apply Ascii.eqb_eq in H as ->. by right.
Qed.

End CleanupShape.

(** X15: whenever the cleanup of [fix_diane_client9.py] applies, it cuts
    the file at the start of an [addAgent] function and closes it with a
    brace: the result is the text before that function, a brace and, if
    the file ended with one, a line feed.  Nothing that stood after that
    start is kept. *)
Theorem fix_diane_client9_cleanup_cuts_tail (content : text) :
  fix_diane_client9.cleanup_outcome content = applied ->
  exists pre rest e,
    content = pre ++ add_agent_head ++ rest /\
    (e = [] \/ e = nl) /\
    fix_diane_client9.cleanup content = Some (pre ++ lit "}" ++ e).
Proof.
  unfold fix_diane_client9.cleanup_outcome, sub_outcome. intros H.
  destruct (Re.search fix_diane_client9.cleanup_pattern content) eqn:Hs; [|done].
  clear H. destruct (search_first _ _ Hs) as (pre & t & n & g & -> & Hfirst & Hm).
  assert (Py.startswith add_agent_head t = true) as Hhead.
  { unfold fix_diane_client9.cleanup_pattern, Re.group in Hm.
    rewrite <- !app_assoc in Hm. fold add_agent_head in Hm.
    by eapply match_here_chars_app. }
  apply startswith_prefix in Hhead as [rest Hrest].
  assert (Re.at_end (drop n t) = true) as Hend.
  { unfold fix_diane_client9.cleanup_pattern in Hm.
    rewrite app_assoc in Hm. by eapply match_here_end_anchor. }
  assert (0 < n) as Hn.
  { destruct n; [|lia]. exfalso. subst t.
    unfold fix_diane_client9.cleanup_pattern in Hm.
    cbn [Re.group Re.chars lit list_ascii_of_string map app Re.match_here
         add_agent_head] in Hm.
    rewrite Ascii.eqb_refl in Hm.
    by apply bump_some in Hm as (? & ? & _ & ? & _). }
  exists pre, rest, (drop n t). split; [by rewrite Hrest|].
  split; [by apply at_end_cases|].
  unfold fix_diane_client9.cleanup.
  rewrite (sub_first _ _ pre t n g); [|by vm_compute|done..].
  cbn [fix_diane_client9.cleanup_template Re.expand]. rewrite app_nil_r.
  do 3 f_equal.
  destruct (at_end_cases _ Hend) as [-> | ->]; by vm_compute.
Qed.

Lemma fix_diane_client9_cleanup_cuts_tail_witness :
  exists pre rest e,
    gallery_then_trailing = pre ++ add_agent_head ++ rest /\
    (e = [] \/ e = nl) /\
    fix_diane_client9.cleanup gallery_then_trailing = Some (pre ++ lit "}" ++ e).
Proof.
  apply (fix_diane_client9_cleanup_cuts_tail gallery_then_trailing).
  by vm_compute.
Defined.

Section Persist.

Implicit Types (r : Re.regex) (s t u p q : text).

Lemma lazy_star_unfold r s :
  Re.match_here (Re.AnyLazyStar :: r) s =
  match Re.match_here r s with
  | Some x => Some x
  | None =>
      match s with
      | [] => None
      | _ :: s' => Re.bump (Re.match_here (Re.AnyLazyStar :: r) s')
      end
  end.
Proof. by destruct s. Qed.

Lemma startswith_take_irrel q s k u :
  length q <= k -> k <= length s ->
  Py.startswith q (take k s ++ u) = Py.startswith q s.
Proof.
  revert s k. induction q as [|a q IH]; intros s k Hq Hk; [done|].
  destruct s as [|b s]; [simpl in *; lia|].
  destruct k as [|k]; [simpl in *; lia|].
  cbn [take app Py.startswith]. f_equal. apply IH; simpl in *; lia.
Qed.

(** A lazy run up to a literal text looks at nothing beyond the match it
    finds. *)
Lemma lazy_star_local q s n g :
  q <> [] ->
  Re.match_here (Re.AnyLazyStar :: Re.group (Re.chars q)) s = Some (n, g) ->
  length q <= n /\ n <= length s /\
  forall u,
    Re.match_here (Re.AnyLazyStar :: Re.group (Re.chars q)) (take n s ++ u)
      = Some (n, g).
Proof.
  intros Hq. revert n g. induction s as [|c s IH]; intros n g H;
    rewrite lazy_star_unfold, match_here_group_chars in H.
  - destruct q; [done|]. done.
  - destruct (Py.startswith q (c :: s)) eqn:E.
    + injection H as <- <-.
      pose proof (startswith_prefix _ _ E) as [k Hk].
      split; [done|]. split; [rewrite Hk, length_app; lia|].
      intros u. rewrite lazy_star_unfold, match_here_group_chars.
      by rewrite Hk, take_app_length, startswith_app.
    + apply bump_some in H as (n' & g' & H & -> & ->).
      destruct (IH _ _ H) as (Hlo & Hhi & Hloc).
      split; [lia|]. split; [simpl; lia|].
      intros u. cbn [take app].
      rewrite lazy_star_unfold, match_here_group_chars.
      change (c :: take n' s ++ u) with (take (S n') (c :: s) ++ u).
      rewrite startswith_take_irrel, E by (simpl; lia).
      cbn [take app]. by rewrite Hloc.
Qed.

Lemma match_here_chars_cons p r t n g :
  Re.match_here (Re.chars p ++ r) t = Some (n, g) ->
  exists t' n' g',
    t = p ++ t' /\ Re.match_here r t' = Some (n', g') /\
    n = length p + n' /\
    forall u n2 g2,
      Re.match_here r u = Some (n2, g2) ->
      n2 = n' -> g2 = g' ->
      Re.match_here (Re.chars p ++ r) (p ++ u) = Some (n, g).
Proof.
  revert t n g. induction p as [|a p IH]; intros t n g H.
  - exists t, n, g. repeat split; try done. by intros u n2 g2 Hu -> ->.
  - destruct t as [|b t]; [done|]. cbn [Re.chars map app Re.match_here] in H.
    destruct (Ascii.eqb a b) eqn:Eab; [|done]. apply Ascii.eqb_eq in Eab as <-.
    apply bump_some in H as (n1 & g1 & H & -> & ->).
    destruct (IH _ _ _ H) as (t' & n' & g' & -> & Hr & -> & Hback).
    exists t', n', g'. repeat split; try done.
    intros u n2 g2 Hu Hn2 Hg2. cbn [Re.chars map app Re.match_here].
    rewrite Ascii.eqb_refl. fold (Re.chars p).
    by rewrite (Hback u n2 g2 Hu Hn2 Hg2).
Qed.

Lemma search_intro r pre t :
  Re.match_here r t <> None -> Re.search r (pre ++ t) = true.
Proof.
  intros H. induction pre as [|c pre IH].
  - destruct t; cbn [app Re.search]; by destruct (Re.match_here r _).
  - change (Re.search r ((c :: pre) ++ t))
      with (match Re.match_here r (c :: pre ++ t) with
            | Some _ => true
            | None => Re.search r (pre ++ t)
            end).
    rewrite IH. by destruct (Re.match_here r (c :: pre ++ t)).
Qed.

(** A match of the pattern of [patch_ios_agents_views.py] stays a match
    whatever follows it. *)
Lemma patch_ios_match_local t n g u :
  Re.match_here patch_ios_agents_views.pattern t = Some (n, g) ->
  Re.match_here patch_ios_agents_views.pattern (take n t ++ u) = Some (n, g).
Proof.
  unfold patch_ios_agents_views.pattern, Re.group.
  rewrite <- !app_assoc.
  change ([Re.AnyLazyPlus] ++ Re.chars (lit "}") ++ [Re.GroupEnd])
    with (Re.AnyLazyPlus :: Re.group (Re.chars (lit "}"))).
  intros H.
  destruct (match_here_chars_cons _ _ _ _ _ H)
    as (t' & n' & g' & -> & Hr & -> & Hback).
  rewrite take_app_add'; [|done].
  rewrite <- app_assoc.
  destruct t' as [|c s]; [done|].
  change (Re.match_here (Re.AnyLazyPlus :: Re.group (Re.chars (lit "}"))) (c :: s))
    with (Re.bump (Re.match_here
                     (Re.AnyLazyStar :: Re.group (Re.chars (lit "}"))) s)) in Hr.
  apply bump_some in Hr as (n1 & g1 & Hr & -> & ->).
  destruct (lazy_star_local (lit "}") _ _ _ ltac:(done) Hr) as (_ & _ & Hloc).
  apply (Hback _ (S n1) (S <$> g1)); [|done..].
  cbn [take app].
  change (Re.match_here (Re.AnyLazyPlus :: Re.group (Re.chars (lit "}")))
            (c :: take n1 s ++ u))
    with (Re.bump (Re.match_here
                     (Re.AnyLazyStar :: Re.group (Re.chars (lit "}")))
                     (take n1 s ++ u))).
  by rewrite Hloc.
Qed.

End Persist.

(** X16: [patch_ios_agents_views.py] is not safe to run again.  The
    section it matches is kept, so the pattern is found again in its own
    output, and every run on a file that holds a connection section
    inserts one more workspace section. *)
Theorem patch_ios_agents_views_inserts_again (content : text) :
  Re.search patch_ios_agents_views.pattern content = true ->
  exists t1 t2,
    patch_ios_agents_views.patch content = Some t1 /\
    patch_ios_agents_views.patch t1 = Some t2 /\
    Re.search patch_ios_agents_views.pattern t1 = true /\
    length content < length t1 /\ length t1 < length t2.
Proof.
  intros Hs.
  assert (0 < length patch_ios_agents_views.workspace_section) as Hws
    by (vm_compute; lia).
  destruct (patch_ios_agents_views_changes_iff_found content)
    as (t1 & Hp1 & Hgrow1 & _).
  assert (Re.search patch_ios_agents_views.pattern t1 = true) as Hs1.
  { destruct (search_first _ _ Hs) as (pre & t & n & g & -> & Hfirst & Hm).
    destruct (patch_ios_agents_views_keeps_section pre t n g Hfirst Hm)
      as [rest Hrest].
    rewrite Hp1 in Hrest. injection Hrest as ->.
    apply search_intro.
    by rewrite (patch_ios_match_local t n g _ Hm). }
  destruct (patch_ios_agents_views_changes_iff_found t1)
    as (t2 & Hp2 & Hgrow2 & _).
  exists t1, t2. specialize (Hgrow1 Hs). specialize (Hgrow2 Hs1).
  repeat split; try done; lia.
Qed.

Lemma patch_ios_agents_views_inserts_again_witness :
  exists t1 t2,
    patch_ios_agents_views.patch
      (lit "DetailSection(title: " ++ dq ++ lit "Connection" ++ dq ++ lit ") { x }")
      = Some t1 /\
    patch_ios_agents_views.patch t1 = Some t2 /\
    Re.search patch_ios_agents_views.pattern t1 = true /\
    length (lit "DetailSection(title: " ++ dq ++ lit "Connection" ++ dq ++
            lit ") { x }") < length t1 /\
    length t1 < length t2.
Proof.
  apply (patch_ios_agents_views_inserts_again
           (lit "DetailSection(title: " ++ dq ++ lit "Connection" ++ dq ++
            lit ") { x }")).
  by vm_compute.
Defined.

(** ** The patches of the view model, one after the other *)

Section Pipeline.

Implicit Types (o old new s content : text) (w : IO.world).

(** Where the old text occurs, the result of the replacement holds the
    new text. *)
Lemma replace_puts_new old new s :
  old <> [] -> Py.contains old s = true ->
  Py.contains new (Py.replace old new s) = true.
Proof.
  intros Hold Hocc.
  destruct (contains_first _ _ Hocc) as (pre & post & -> & Hfirst).
  rewrite replace_first by done. apply contains_intro.
Qed.

Lemma plain_run sc l w content :
  In (sc, l) plain_scripts ->
  IO.files w !! script_path sc = Some content ->
  exists w',
    script_main sc w = (inr tt, w') /\
    IO.files w' = <[script_path sc := replace_all (rules_of l) content]> (IO.files w).
Proof.
  intros Hp Hfile.
  destruct (script_runs sc w content (plain_scripts_all sc l Hp) Hfile)
    as (w' & t & Hr & Hmain & Hw').
  rewrite (runs_to_inj _ _ _ Hr (plain_steps_run sc l content Hp)) in Hw'.
  by exists w'.
Qed.

(** [update_agents_view_model.py] puts the start of [startEditing] into a
    text that holds the helpers marker. *)
Lemma update_agents_view_model_inserts content :
  Py.contains update_agents_view_model.helpers_marker content = true ->
  Py.contains fix_vm.func_marker
    (replace_all (rules_of update_agents_view_model_rules) content) = true.
Proof.
  intros H.
  cbn [rules_of map replace_all update_agents_view_model_rules rs_old rs_new].
  eapply contains_trans; [|apply replace_puts_new; [by vm_compute|]].
  - by vm_compute.
  - apply replace_keeps_present; [by vm_compute..|done].
Qed.

(** [fix_vm.py] puts the agent creation and the reset block into a text
    that holds the start of [startEditing]. *)
Lemma fix_vm_inserts content :
  Py.contains fix_vm.func_marker content = true ->
  Py.contains patch_agents_view_model2.old_add
    (replace_all (rules_of fix_vm_rules) content) = true /\
  Py.contains patch_agents_view_model3.old_reset
    (replace_all (rules_of fix_vm_rules) content) = true.
Proof.
  intros H.
  cbn [rules_of map replace_all fix_vm_rules rs_old rs_new].
  assert (Py.contains ((fix_vm.add_func ++ nl) ++ fix_vm.func_marker)
            (Py.replace fix_vm.func_marker
               ((fix_vm.add_func ++ nl) ++ fix_vm.func_marker)
               (Py.replace fix_vm.state_marker
                  (fix_vm.state_marker ++ fix_vm.add_state) content)) = true)
    as Hnew.
  { apply replace_puts_new; [by vm_compute|].
    apply replace_keeps_present; [by vm_compute..|done]. }
  split; (eapply contains_trans; [|exact Hnew]); by vm_compute.
Qed.

(** [patch_agents_view_model2.py] rewrites the agent creation and keeps
    the reset block. *)
Lemma patch_agents_view_model2_rewrites content :
  Py.contains patch_agents_view_model2.old_add content = true ->
  Py.contains patch_agents_view_model3.old_reset content = true ->
  Py.contains patch_agents_view_model2.new_add
    (replace_all (rules_of patch_agents_view_model2_rules) content) = true /\
  Py.contains patch_agents_view_model3.old_reset
    (replace_all (rules_of patch_agents_view_model2_rules) content) = true.
Proof.
  intros Ha Hr.
  cbn [rules_of map replace_all patch_agents_view_model2_rules rs_old rs_new].
  split.
  - apply replace_puts_new; [by vm_compute|].
    apply replace_keeps_present; [by vm_compute..|done].
  - apply replace_keeps_present; [by vm_compute..|].
    apply replace_keeps_present; [by vm_compute..|done].
Qed.

Lemma patch_agents_view_model3_rewrites content :
  Py.contains patch_agents_view_model2.new_add content = true ->
  Py.contains patch_agents_view_model3.old_reset content = true ->
  Py.contains patch_agents_view_model2.new_add
    (replace_all (rules_of patch_agents_view_model3_rules) content) = true /\
  Py.contains patch_agents_view_model3.new_reset
    (replace_all (rules_of patch_agents_view_model3_rules) content) = true.
Proof.
  intros Ha Hr.
  cbn [rules_of map replace_all patch_agents_view_model3_rules rs_old rs_new].
  split.
  - apply replace_keeps_present; [by vm_compute..|done].
  - apply replace_puts_new; [by vm_compute|done].
Qed.

End Pipeline.

(** X17: the four patches of the view model fit together.  Run in the
    order [update_agents_view_model.py], [fix_vm.py],
    [patch_agents_view_model2.py], [patch_agents_view_model3.py] on a
    file that holds the helpers marker, each finds what the one before
    it inserted: all four end normally, and the file then holds the agent
    creation with its workspace configuration and the extended reset
    block. *)
Theorem view_model_pipeline (w : IO.world) (content : text) :
  IO.files w !! update_agents_view_model.path = Some content ->
  Py.contains update_agents_view_model.helpers_marker content = true ->
  exists w1 w2 w3 w4 final,
    update_agents_view_model.main w = (inr tt, w1) /\
    fix_vm.main w1 = (inr tt, w2) /\
    patch_agents_view_model2.main w2 = (inr tt, w3) /\
    patch_agents_view_model3.main w3 = (inr tt, w4) /\
    IO.files w4 !! patch_agents_view_model3.path = Some final /\
    Py.contains patch_agents_view_model2.new_add final = true /\
    Py.contains patch_agents_view_model3.new_reset final = true.
Proof.
  intros Hfile Hm.
  destruct (plain_run _ update_agents_view_model_rules w content
              ltac:(unfold plain_scripts; do 11 right; by left) Hfile)
    as (w1 & Hmain1 & Hw1).
  cbn [script_path script_main] in Hmain1, Hw1.
  set (t1 := replace_all (rules_of update_agents_view_model_rules) content) in *.
  assert (IO.files w1 !! fix_vm.path = Some t1) as Hfile1.
  { rewrite Hw1. apply lookup_insert_eq. }
  destruct (plain_run _ fix_vm_rules w1 t1
              ltac:(unfold plain_scripts; do 10 right; by left) Hfile1)
    as (w2 & Hmain2 & Hw2).
  cbn [script_path script_main] in Hmain2, Hw2.
  set (t2 := replace_all (rules_of fix_vm_rules) t1) in *.
  assert (IO.files w2 !! patch_agents_view_model2.path = Some t2) as Hfile2.
  { rewrite Hw2. apply lookup_insert_eq. }
  destruct (plain_run _ patch_agents_view_model2_rules w2 t2
              ltac:(unfold plain_scripts; do 12 right; by left) Hfile2)
    as (w3 & Hmain3 & Hw3).
  cbn [script_path script_main] in Hmain3, Hw3.
  set (t3 := replace_all (rules_of patch_agents_view_model2_rules) t2) in *.
  assert (IO.files w3 !! patch_agents_view_model3.path = Some t3) as Hfile3.
  { rewrite Hw3. apply lookup_insert_eq. }
  destruct (plain_run _ patch_agents_view_model3_rules w3 t3
              ltac:(unfold plain_scripts; do 13 right; by left) Hfile3)
    as (w4 & Hmain4 & Hw4).
  cbn [script_path script_main] in Hmain4, Hw4.
  pose proof (update_agents_view_model_inserts content Hm) as H1. fold t1 in H1.
  destruct (fix_vm_inserts t1 H1) as [H2a H2r]. fold t2 in H2a, H2r.
  destruct (patch_agents_view_model2_rewrites t2 H2a H2r) as [H3a H3r].
  fold t3 in H3a, H3r.
  destruct (patch_agents_view_model3_rewrites t3 H3a H3r) as [H4a H4r].
  exists w1, w2, w3, w4, (replace_all (rules_of patch_agents_view_model3_rules) t3).
  repeat split; try done.
  rewrite Hw4. apply lookup_insert_eq.
Qed.

Lemma view_model_pipeline_witness :
  exists w1 w2 w3 w4 final,
    update_agents_view_model.main
      (one_file update_agents_view_model.path
         (lit "class VM {" ++ nl ++ update_agents_view_model.helpers_marker ++ lit "}"))
      = (inr tt, w1) /\
    fix_vm.main w1 = (inr tt, w2) /\
    patch_agents_view_model2.main w2 = (inr tt, w3) /\
    patch_agents_view_model3.main w3 = (inr tt, w4) /\
    IO.files w4 !! patch_agents_view_model3.path = Some final /\
    Py.contains patch_agents_view_model2.new_add final = true /\
    Py.contains patch_agents_view_model3.new_reset final = true.
Proof.
  apply (view_model_pipeline
           (one_file update_agents_view_model.path
              (lit "class VM {" ++ nl ++ update_agents_view_model.helpers_marker ++
               lit "}"))
           (lit "class VM {" ++ nl ++ update_agents_view_model.helpers_marker ++
            lit "}")).
  - apply lookup_singleton_eq.
  - by vm_compute.
Defined.

(** ** Patterns with unescaped dots *)

Section Dots.

Implicit Types (p : Dot.pattern) (s t u d new content : text) (w : IO.world).

Lemma dot_match_here_length p t :
  Dot.match_here p t = true -> length p <= length t.
Proof.
  revert t. induction p as [|i p IH]; intros t H; [simpl; lia|].
  destruct t as [|c t]; [done|]. simpl in H.
  apply andb_prop in H as [_ H]. specialize (IH _ H). simpl. lia.
Qed.

Lemma dot_match_here_app p u d :
  Dot.match_here p u = true -> Dot.match_here p (u ++ d) = true.
Proof.
  revert u. induction p as [|i p IH]; intros u H; [done|].
  destruct u as [|c u]; [done|]. simpl in *.
  apply andb_prop in H as [Hc H]. by rewrite Hc, (IH _ H).
Qed.

Lemma dot_search_intro p pre t :
  Dot.match_here p t = true -> Dot.search p (pre ++ t) = true.
Proof.
  intros H. induction pre as [|c pre IH].
  - destruct t; simpl; by rewrite H.
  - change (Dot.search p ((c :: pre) ++ t))
      with (Dot.match_here p (c :: pre ++ t) || Dot.search p (pre ++ t)).
    rewrite IH. apply orb_true_r.
Qed.

Lemma dot_search_first p s :
  Dot.search p s = true ->
  exists pre t,
    s = pre ++ t /\
    (forall j, j < length pre -> Dot.match_here p (drop j s) = false) /\
    Dot.match_here p t = true.
Proof.
  induction s as [|c s IH]; intros H.
  - exists [], []. simpl in H. rewrite orb_false_r in H.
    split; [done|]. split; [simpl; lia|done].
  - change (Dot.search p (c :: s))
      with (Dot.match_here p (c :: s) || Dot.search p s) in H.
    destruct (Dot.match_here p (c :: s)) eqn:E.
    + exists [], (c :: s). split; [done|]. split; [simpl; lia|done].
    + destruct (IH H) as (pre & t & -> & Hpre & Ht).
      exists (c :: pre), t. split; [done|]. split; [|done].
      intros [|j] Hj; [done|]. apply Hpre. simpl in Hj. lia.
Qed.

(** Where the pattern is found, the result of the substitution holds
    the new text. *)
Lemma dot_sub_puts_new p new s :
  p <> [] -> Dot.search p s = true ->
  Py.contains new (Dot.sub p new s) = true.
Proof.
  intros Hp H. destruct (dot_search_first p s H) as (pre & t & -> & Hpre & Ht).
  unfold Dot.sub.
  rewrite (scan_first _ pre t (length p) new).
  - apply contains_intro.
  - intros j Hj. unfold Dot.sub_at. by rewrite Hpre.
  - unfold Dot.sub_at. by rewrite Ht.
  - destruct p; [done|simpl; lia].
  - by apply dot_match_here_length.
Qed.

(** A text that holds an instance of the pattern holds a match. *)
Lemma dot_search_instance p u s :
  Dot.match_here p u = true -> Py.contains u s = true ->
  Dot.search p s = true.
Proof.
  intros Hu Hs. destruct (contains_elim _ _ Hs) as (c & d & ->).
  apply dot_search_intro. by apply dot_match_here_app.
Qed.

(** A pattern without dots: [re.sub] is [str.replace]. *)
Lemma dot_sub_lits old new s :
  Dot.sub (Dot.lits old) new s = Py.replace old new s.
Proof.
  unfold Dot.sub, Py.replace. apply scan_ext. intros t.
  unfold Dot.sub_at, Py.replace_at, Dot.lits. rewrite length_map.
  replace (Dot.match_here (map Dot.Lit old) t) with (Py.startswith old t); [done|].
  revert t. induction old as [|a old IH]; intros [|c t]; simpl; try done.
  by rewrite IH.
Qed.

End Dots.

(** X18: the patches of [addAgent] in [DianeClient.swift] fit together.
    Run in the order [fix_diane_client.py], [fix_diane_client4.py],
    [fix_diane_client5.py], [fix_diane_client6.py],
    [fix_diane_client7.py] on a file that holds the agents marker, each
    finds the function the one before it wrote: all five end normally
    and the file then holds the function of [fix_diane_client7.py]. *)
Theorem diane_client_pipeline (w : IO.world) (content : text) :
  IO.files w !! fix_diane_client.path = Some content ->
  Py.contains fix_diane_client.marker content = true ->
  exists w1 w2 w3 w4 w5 final,
    fix_diane_client.main w = (inr tt, w1) /\
    fix_diane_client4.main w1 = (inr tt, w2) /\
    fix_diane_client5.main w2 = (inr tt, w3) /\
    fix_diane_client6.main w3 = (inr tt, w4) /\
    fix_diane_client7.main w4 = (inr tt, w5) /\
    IO.files w5 !! fix_diane_client7.path = Some final /\
    Py.contains (Py.strip nl fix_diane_client7.add_func) final = true.
Proof.
  intros Hfile Hm.
  destruct (plain_run _ fix_diane_client_rules w content
              ltac:(unfold plain_scripts; by left) Hfile)
    as (w1 & Hmain1 & Hw1).
  cbn [script_path script_main rules_of map replace_all fix_diane_client_rules
       rs_old rs_new] in Hmain1, Hw1.
  set (t1 := Py.replace _ _ content) in *.
  assert (Py.contains fix_diane_client4.old_func t1 = true) as H1.
  { eapply contains_trans; [|apply replace_puts_new; [by vm_compute|done]].
    by vm_compute. }
  assert (IO.files w1 !! fix_diane_client4.path = Some t1) as Hfile1.
  { rewrite Hw1. apply lookup_insert_eq. }
  destruct (plain_run _ fix_diane_client4_rules w1 t1
              ltac:(unfold plain_scripts; do 1 right; by left) Hfile1)
    as (w2 & Hmain2 & Hw2).
  cbn [script_path script_main rules_of map replace_all fix_diane_client4_rules
       rs_old rs_new] in Hmain2, Hw2.
  set (t2 := Py.replace _ _ t1) in *.
  assert (Dot.search fix_diane_client5.pattern t2 = true) as H2.
  { apply (dot_search_instance _ (Py.strip nl fix_diane_client4.add_func));
      [by vm_compute|].
    apply replace_puts_new; [by vm_compute|done]. }
  assert (IO.files w2 !! fix_diane_client5.path = Some t2) as Hfile2.
  { rewrite Hw2. apply lookup_insert_eq. }
  pose proof (read_write_main fix_diane_client5.path fix_diane_client5.patch
                w2 t2 Hfile2) as Hmain3.
  set (w3 := IO.World _ _) in Hmain3.
  set (t3 := fix_diane_client5.patch t2) in *.
  assert (Py.contains fix_diane_client6.old_func t3 = true) as H3.
  { eapply contains_trans;
      [|apply (dot_sub_puts_new fix_diane_client5.pattern); [by vm_compute|done]].
    by vm_compute. }
  assert (IO.files w3 !! fix_diane_client6.path = Some t3) as Hfile3.
  { apply lookup_insert_eq. }
  destruct (plain_run _ fix_diane_client6_rules w3 t3
              ltac:(unfold plain_scripts; do 5 right; by left) Hfile3)
    as (w4 & Hmain4 & Hw4).
  cbn [script_path script_main rules_of map replace_all fix_diane_client6_rules
       rs_old rs_new] in Hmain4, Hw4.
  set (t4 := Py.replace _ _ t3) in *.
  assert (Py.contains fix_diane_client7.old_func t4 = true) as H4.
  { eapply contains_trans; [|apply replace_puts_new; [by vm_compute|done]].
    by vm_compute. }
  assert (IO.files w4 !! fix_diane_client7.path = Some t4) as Hfile4.
  { rewrite Hw4. apply lookup_insert_eq. }
  destruct (plain_run _ fix_diane_client7_rules w4 t4
              ltac:(unfold plain_scripts; do 6 right; by left) Hfile4)
    as (w5 & Hmain5 & Hw5).
  cbn [script_path script_main rules_of map replace_all fix_diane_client7_rules
       rs_old rs_new] in Hmain5, Hw5.
  exists w1, w2, w3, w4, w5, (Py.replace fix_diane_client7.old_func
                                (Py.strip nl fix_diane_client7.add_func) t4).
  repeat split; try done.
  - rewrite Hw5. apply lookup_insert_eq.
  - apply replace_puts_new; [by vm_compute|done].
Qed.

Lemma diane_client_pipeline_witness :
  exists w1 w2 w3 w4 w5 final,
    fix_diane_client.main
      (one_file fix_diane_client.path
         (lit "class DianeClient {" ++ nl ++ fix_diane_client.marker ++ lit "}"))
      = (inr tt, w1) /\
    fix_diane_client4.main w1 = (inr tt, w2) /\
    fix_diane_client5.main w2 = (inr tt, w3) /\
    fix_diane_client6.main w3 = (inr tt, w4) /\
    fix_diane_client7.main w4 = (inr tt, w5) /\
    IO.files w5 !! fix_diane_client7.path = Some final /\
    Py.contains (Py.strip nl fix_diane_client7.add_func) final = true.
Proof.
  apply (diane_client_pipeline
           (one_file fix_diane_client.path
              (lit "class DianeClient {" ++ nl ++ fix_diane_client.marker ++ lit "}"))
           (lit "class DianeClient {" ++ nl ++ fix_diane_client.marker ++ lit "}")).
  - apply lookup_singleton_eq.
  - by vm_compute.
Defined.

(** X19: [fix_diane_client12.py] rewrites the function that the guarded
    insertion of [fix_diane_client10.py] put in.  On a file that holds
    the gallery marker and not the signature, the two scripts run one
    after the other end normally, and the file then holds the function
    of [fix_diane_client12.py], with its timeout. *)
Theorem guarded_insert_then_timeout (w : IO.world) (content : text) :
  IO.files w !! fix_diane_client10.path = Some content ->
  Py.contains fix_diane_client10.signature content = false ->
  Py.contains fix_diane_client10.marker content = true ->
  exists w1 w2 final,
    fix_diane_client10.main w = (inr tt, w1) /\
    fix_diane_client12.main w1 = (inr tt, w2) /\
    IO.files w2 !! fix_diane_client12.path = Some final /\
    Py.contains (Py.strip nl fix_diane_client12.add_func) final = true.
Proof.
  intros Hfile Hsig Hm.
  assert (fix_diane_client10.main w =
          (inr tt, IO.World (<[fix_diane_client10.path :=
                                 fix_diane_client10.patch content]> (IO.files w))
                            (IO.trace w ++
                             [IO.Written fix_diane_client10.path
                                (fix_diane_client10.patch content)]))) as Hmain1.
  { unfold fix_diane_client10.main, mbind, IO.io_bind, IO.read.
    by rewrite Hfile. }
  set (w1 := IO.World _ _) in Hmain1.
  set (t1 := fix_diane_client10.patch content) in *.
  assert (Dot.search fix_diane_client12.pattern t1 = true) as H1.
  { apply (dot_search_instance _ (Py.strip nl fix_diane_client10.add_func));
      [by vm_compute|].
    unfold t1. rewrite fix_diane_client10_patch, Hsig.
    eapply contains_trans; [|apply replace_puts_new; [by vm_compute|done]].
    by vm_compute. }
  assert (IO.files w1 !! fix_diane_client12.path = Some t1) as Hfile1.
  { apply lookup_insert_eq. }
  pose proof (read_write_main fix_diane_client12.path fix_diane_client12.patch
                w1 t1 Hfile1) as Hmain2.
  set (w2 := IO.World _ _) in Hmain2.
  exists w1, w2, (fix_diane_client12.patch t1).
  split; [done|]. split; [done|]. split; [apply lookup_insert_eq|].
  apply (dot_sub_puts_new fix_diane_client12.pattern); [by vm_compute|done].
Qed.

Lemma guarded_insert_then_timeout_witness :
  exists w1 w2 final,
    fix_diane_client10.main
      (one_file fix_diane_client10.path
         (lit "class DianeClient {" ++ nl ++ fix_diane_client10.marker ++ lit "}"))
      = (inr tt, w1) /\
    fix_diane_client12.main w1 = (inr tt, w2) /\
    IO.files w2 !! fix_diane_client12.path = Some final /\
    Py.contains (Py.strip nl fix_diane_client12.add_func) final = true.
Proof.
  apply (guarded_insert_then_timeout
           (one_file fix_diane_client10.path
              (lit "class DianeClient {" ++ nl ++ fix_diane_client10.marker ++ lit "}"))
           (lit "class DianeClient {" ++ nl ++ fix_diane_client10.marker ++ lit "}")).
  - apply lookup_singleton_eq.
  - by vm_compute.
  - by vm_compute.
Defined.
